(** * Travel planner: the plan-generation route, the image route and the
      page's location enrichment

    A shallow embedding of

    - the route handler behind [/api/generate-plan] ([POST] and
      [createFallbackPlan]),
    - the route handler behind [/api/get-images] ([POST]),
    - [onSubmit] of the page component,

    with the pieces of the JavaScript runtime and of date-fns they call.

    Conventions.
    - A JavaScript string is a Rocq [string] holding its UTF-8 bytes (a
      surrogate without its partner as the three bytes of its code point).
      The only characters the code inspects are ASCII braces, quotes and the
      JSON punctuation, which never occur inside a multi-byte sequence.
    - An exception is a value of [exn]; code that can throw returns a
      [result].  [try { a } catch { b }] is [try_catch a b].
    - Whatever the outside world answers (the completion endpoint, the
      image-search endpoint) is an input of the handler. *)

From Stdlib Require Import String Ascii ZArith List Bool Lia DecimalString.
Import ListNotations.

#[local] Open Scope string_scope.
#[local] Open Scope Z_scope.

(** ** Exceptions *)

Inductive exn : Type :=
| TypeError
| RangeError
| SyntaxError
| URIError
| Error (message : string).

Inductive result (A : Type) : Type :=
| Ok (a : A)
| Throw (e : exn).

Arguments Ok {A} a.
Arguments Throw {A} e.

Definition bind {A B : Type} (r : result A) (k : A -> result B) : result B :=
  match r with
  | Ok a => k a
  | Throw e => Throw e
  end.

Notation "x <- r ;; k" := (bind r (fun x => k))
  (at level 61, r at next level, right associativity).

(** [try { body } catch (error) { handler }] *)
Definition try_catch {A : Type} (body : result A) (handler : exn -> result A)
  : result A :=
  match body with
  | Ok a => Ok a
  | Throw e => handler e
  end.

(** ** Numbers

    The only numbers the handlers compute with are day counts: integers, or
    [NaN] when a date is invalid. *)

Inductive number : Type :=
| Num (z : Z)
| NaN.

Definition number_add (a b : number) : number :=
  match a, b with
  | Num x, Num y => Num (x + y)
  | _, _ => NaN
  end.

Definition string_of_Z (z : Z) : string :=
  NilZero.string_of_int (Z.to_int z).

(** [`${n}`] for a number (integers below 10^21 in magnitude print in plain
    decimal; no day count is larger). *)
Definition number_to_string (n : number) : string :=
  match n with
  | Num z => string_of_Z z
  | NaN => "NaN"
  end.

(** ** Dates

    A [Date] holds a time value, milliseconds since 1970-01-01T00:00:00Z, or
    is an Invalid Date ([None]).  In this part the local time zone, of the
    server and of the browser, is UTC, so date-fns' local-time arithmetic is
    arithmetic on the UTC calendar; [Runtime] further down has the zone as
    part of the state of the process. *)

Definition Date : Type := option Z.

Definition msPerDay : Z := 86400000.
Definition maxTime : Z := 8640000000000000.

(** ECMAScript TimeClip: a time value beyond +-8.64e15 ms is NaN. *)
Definition TimeClip (t : Z) : Date :=
  if Z.abs t <=? maxTime then Some t else None.

(** Days since the epoch of a civil date (proleptic Gregorian calendar;
    ECMAScript MakeDay, for a month in 1..12). *)
Definition days_from_civil (y m d : Z) : Z :=
  let y' := if m <=? 2 then y - 1 else y in
  let era := y' / 400 in
  let yoe := y' - era * 400 in
  let mp := if m >? 2 then m - 3 else m + 9 in
  let doy := (153 * mp + 2) / 5 + d - 1 in
  let doe := yoe * 365 + yoe / 4 - yoe / 100 + doy in
  era * 146097 + doe - 719468.

(** The civil date (year, month, day) of a day number. *)
Definition civil_from_days (z : Z) : Z * Z * Z :=
  let z' := z + 719468 in
  let era := z' / 146097 in
  let doe := z' - era * 146097 in
  let yoe := (doe - doe / 1460 + doe / 36524 - doe / 146096) / 365 in
  let doy := doe - (365 * yoe + yoe / 4 - yoe / 100) in
  let mp := (5 * doy + 2) / 153 in
  let d := doy - (153 * mp + 2) / 5 + 1 in
  let m := if mp <? 10 then mp + 3 else mp - 9 in
  let y := yoe + era * 400 in
  (if m <=? 2 then y + 1 else y, m, d).

Definition is_digit (c : ascii) : bool :=
  let n := Z.of_nat (nat_of_ascii c) in (48 <=? n) && (n <=? 57).

Definition digit_value (c : ascii) : Z := Z.of_nat (nat_of_ascii c) - 48.

(** The value of a run of decimal digits; [None] if another character
    occurs. *)
Fixpoint digits_value (acc : Z) (s : string) : option Z :=
  match s with
  | EmptyString => Some acc
  | String c r =>
      if is_digit c then digits_value (10 * acc + digit_value c) r else None
  end.

(** The time value of a date-only string [YYYY-MM-DD]: UTC midnight of that
    day.  As in V8, a month outside 1..12 or a day outside 1..31 is not a
    date, and a day past the end of its month rolls over into the next. *)
Definition parse_date_only (s : string) : option Z :=
  match s with
  | String y1 (String y2 (String y3 (String y4 (String "-"
      (String m1 (String m2 (String "-" (String d1 (String d2 EmptyString))))))))) =>
      match digits_value 0 (String y1 (String y2 (String y3 (String y4 ""))))%string,
            digits_value 0 (String m1 (String m2 ""))%string,
            digits_value 0 (String d1 (String d2 ""))%string with
      | Some y, Some m, Some d =>
          if (1 <=? m) && (m <=? 12) && (1 <=? d) && (d <=? 31)
          then Some ((days_from_civil y m 1 + (d - 1)) * msPerDay)
          else None
      | _, _, _ => None
      end
  | _ => None
  end.

(** [new Date(s)] for the strings the page sends,
    [format(d, "yyyy-MM-dd")].  A string of another shape is an Invalid Date
    here; V8 hands such a string to its legacy parser, which reads some of
    them as dates and is not modelled. *)
Definition new_Date (s : string) : Date :=
  match parse_date_only s with
  | Some tv => TimeClip tv
  | None => None
  end.

(** date-fns [differenceInDays(laterDate, earlierDate)]: the number of full
    days between the two dates, [NaN] if either is invalid. *)
Definition differenceInDays (laterDate earlierDate : Date) : number :=
  match laterDate, earlierDate with
  | Some l, Some e =>
      let sign := Z.sgn (l - e) in
      let difference := Z.abs (l / msPerDay - e / msPerDay) in
      let l' := l - sign * difference * msPerDay in
      let isLastDayNotFull := if Z.sgn (l' - e) =? - sign then 1 else 0 in
      Num (sign * (difference - isLastDayNotFull))
  | _, _ => NaN
  end.

(** date-fns [addDays(date, amount)] for an integer amount. *)
Definition addDays (date : Date) (amount : Z) : Date :=
  match date with
  | None => None
  | Some t => if amount =? 0 then Some t else TimeClip (t + amount * msPerDay)
  end.

(** [addLeadingZeros(n, targetLength)] of date-fns, for [n >= 0]. *)
Definition addLeadingZeros (n : Z) (targetLength : nat) : string :=
  let s := string_of_Z n in
  String.concat "" (repeat "0" (targetLength - String.length s)) ++ s.

(** [yyyy-MM-dd] for the day number [z] (days since 1970-01-01).  The token
    [yyyy] prints the year of the era. *)
Definition format_day (z : Z) : string :=
  let '(y, m, d) := civil_from_days z in
  let year := if y >? 0 then y else 1 - y in
  addLeadingZeros year 4 ++ "-" ++ addLeadingZeros m 2 ++ "-"
  ++ addLeadingZeros d 2.

(** date-fns [format(date, "yyyy-MM-dd")]; throws a RangeError on an
    Invalid Date. *)
Definition format (date : Date) : result string :=
  match date with
  | None => Throw RangeError
  | Some t => Ok (format_day (t / msPerDay))
  end.

(** ** JSON values

    A number keeps the exact decimal value of its literal,
    [mantissa * 10^exponent] (rounding to a double is not modelled).  An
    object keeps its members in insertion order, one per key. *)

#[local] Set Warnings "-register-all".

Inductive json : Type :=
| JNull
| JBool (b : bool)
| JNumber (mantissa exponent : Z)
| JString (s : string)
| JArray (elements : list json)
| JObject (members : list (string * json)).

(** Defining a property on an object: a key already present keeps its place
    and takes the new value, a new key goes last. *)
Fixpoint obj_set (k : string) (v : json) (members : list (string * json))
  : list (string * json) :=
  match members with
  | [] => [(k, v)]
  | (k', v') :: rest =>
      if String.eqb k k' then (k, v) :: rest else (k', v') :: obj_set k v rest
  end.

Fixpoint obj_get (k : string) (members : list (string * json)) : option json :=
  match members with
  | [] => None
  | (k', v) :: rest => if String.eqb k k' then Some v else obj_get k rest
  end.

(** ** [JSON.parse]

    Two passes, both structural: a lexer driven by a small automaton over the
    characters, and a parser that keeps the open arrays and objects on an
    explicit stack. *)

Inductive token : Type :=
| TLBrace | TRBrace | TLBracket | TRBracket | TColon | TComma
| TString (s : string)
| TScalar (v : json).

Definition dquote : ascii := ascii_of_nat 34.
Definition backslash : ascii := ascii_of_nat 92.

Definition is_ws (c : ascii) : bool :=
  let n := nat_of_ascii c in
  (Nat.eqb n 32 || Nat.eqb n 9 || Nat.eqb n 10 || Nat.eqb n 13)%bool.

(** Characters of a number or of [true], [false], [null]. *)
Definition is_word_char (c : ascii) : bool :=
  let n := Z.of_nat (nat_of_ascii c) in
  (is_digit c || ((97 <=? n) && (n <=? 122)) || ((65 <=? n) && (n <=? 90))
   || (c =? "+")%char || (c =? "-")%char || (c =? ".")%char)%bool.

Definition hex_value (c : ascii) : option Z :=
  let n := Z.of_nat (nat_of_ascii c) in
  if (48 <=? n) && (n <=? 57) then Some (n - 48)
  else if (97 <=? n) && (n <=? 102) then Some (n - 87)
  else if (65 <=? n) && (n <=? 70) then Some (n - 55)
  else None.

Definition byte (n : Z) : string := String (ascii_of_nat (Z.to_nat n)) "".

(** The UTF-8 bytes of a code point (a lone surrogate is written the same
    way, in three bytes). *)
Definition utf8 (cp : Z) : string :=
  if cp <? 128 then byte cp
  else if cp <? 2048 then byte (192 + cp / 64) ++ byte (128 + cp mod 64)
  else if cp <? 65536 then
    byte (224 + cp / 4096) ++ byte (128 + (cp / 64) mod 64)
    ++ byte (128 + cp mod 64)
  else
    byte (240 + cp / 262144) ++ byte (128 + (cp / 4096) mod 64)
    ++ byte (128 + (cp / 64) mod 64) ++ byte (128 + cp mod 64).

Definition is_high_surrogate (cu : Z) : bool := (55296 <=? cu) && (cu <=? 56319).
Definition is_low_surrogate (cu : Z) : bool := (56320 <=? cu) && (cu <=? 57343).

(** A string under construction: the bytes so far and a high surrogate read
    from a [\u] escape that still waits for its low half. *)
Definition flush (acc : string) (pending : option Z) : string :=
  match pending with
  | Some hi => acc ++ utf8 hi
  | None => acc
  end.

Definition push_code_unit (acc : string) (pending : option Z) (cu : Z)
  : string * option Z :=
  match pending with
  | Some hi =>
      if is_low_surrogate cu
      then (acc ++ utf8 (65536 + (hi - 55296) * 1024 + (cu - 56320)), None)
      else if is_high_surrogate cu then (acc ++ utf8 hi, Some cu)
      else (acc ++ utf8 hi ++ utf8 cu, None)
  | None =>
      if is_high_surrogate cu then (acc, Some cu) else (acc ++ utf8 cu, None)
  end.

Fixpoint span_digits (s : string) : string * string :=
  match s with
  | EmptyString => ("", "")
  | String c r =>
      if is_digit c
      then let (a, b) := span_digits r in (String c a, b)
      else ("", s)
  end.

Definition Z_of_digits (s : string) : Z :=
  match digits_value 0 s with
  | Some z => z
  | None => 0
  end.

(** The JSON number grammar: an optional minus sign; an integer part, a
    single 0 or digits that do not start with 0; an optional fraction, a dot
    and at least one digit; an optional exponent, e or E, an optional sign and
    at least one digit.  The value of a literal is given as mantissa and
    decimal exponent. *)
Definition number_of_word (w : string) : option (Z * Z) :=
  let (neg, w1) :=
    match w with
    | String "-" r => (true, r)
    | _ => (false, w)
    end in
  let (ip, w2) := span_digits w1 in
  let int_ok :=
    match ip with
    | EmptyString => false
    | String "0" (String _ _) => false
    | _ => true
    end in
  let '(fp, frac_ok, w3) :=
    match w2 with
    | String "." r =>
        let (f, r') := span_digits r in (f, negb (String.eqb f ""), r')
    | _ => ("", true, w2)
    end in
  let '(ex, exp_ok, w4) :=
    match w3 with
    | String c r =>
        if ((c =? "e")%char || (c =? "E")%char)%bool then
          let (sgn, r1) :=
            match r with
            | String "+" r' => (1, r')
            | String "-" r' => (-1, r')
            | _ => (1, r)
            end in
          let (ds, r2) := span_digits r1 in
          (sgn * Z_of_digits ds, negb (String.eqb ds ""), r2)
        else (0, true, w3)
    | EmptyString => (0, true, w3)
    end in
  if (int_ok && frac_ok && exp_ok && String.eqb w4 "")%bool then
    let m := Z_of_digits (ip ++ fp) in
    Some (if neg then - m else m, ex - Z.of_nat (String.length fp))
  else None.

Definition scalar_of_word (w : string) : option json :=
  if String.eqb w "true" then Some (JBool true)
  else if String.eqb w "false" then Some (JBool false)
  else if String.eqb w "null" then Some JNull
  else match number_of_word w with
       | Some (m, e) => Some (JNumber m e)
       | None => None
       end.

Inductive lexer_state : Type :=
| LStart
| LWord (w : string)
| LString (acc : string) (pending : option Z)
| LEscape (acc : string) (pending : option Z)
| LUnicode (acc : string) (pending : option Z) (hex : list Z).

(** A character read between tokens. *)
Definition lex_start (c : ascii) : option (lexer_state * list token) :=
  if is_ws c then Some (LStart, [])
  else if (c =? "{")%char then Some (LStart, [TLBrace])
  else if (c =? "}")%char then Some (LStart, [TRBrace])
  else if (c =? "[")%char then Some (LStart, [TLBracket])
  else if (c =? "]")%char then Some (LStart, [TRBracket])
  else if (c =? ":")%char then Some (LStart, [TColon])
  else if (c =? ",")%char then Some (LStart, [TComma])
  else if (c =? dquote)%char then Some (LString "" None, [])
  else if is_word_char c then Some (LWord (String c ""), [])
  else None.

Definition simple_escape (c : ascii) : option Z :=
  if (c =? dquote)%char then Some 34
  else if (c =? backslash)%char then Some 92
  else if (c =? "/")%char then Some 47
  else if (c =? "b")%char then Some 8
  else if (c =? "f")%char then Some 12
  else if (c =? "n")%char then Some 10
  else if (c =? "r")%char then Some 13
  else if (c =? "t")%char then Some 9
  else None.

(** One character: the next state and the tokens completed by it. *)
Definition lex_step (st : lexer_state) (c : ascii)
  : option (lexer_state * list token) :=
  match st with
  | LStart => lex_start c
  | LWord w =>
      if is_word_char c then Some (LWord (w ++ String c ""), [])
      else
        match scalar_of_word w, lex_start c with
        | Some v, Some (st', toks) => Some (st', TScalar v :: toks)
        | _, _ => None
        end
  | LString acc pending =>
      if (c =? dquote)%char then Some (LStart, [TString (flush acc pending)])
      else if (c =? backslash)%char then Some (LEscape acc pending, [])
      else if (nat_of_ascii c <? 32)%nat then None
      else Some (LString (flush acc pending ++ String c "") None, [])
  | LEscape acc pending =>
      if (c =? "u")%char then Some (LUnicode acc pending [], [])
      else
        match simple_escape c with
        | Some n => Some (LString (flush acc pending ++ byte n) None, [])
        | None => None
        end
  | LUnicode acc pending hex =>
      match hex_value c with
      | None => None
      | Some h =>
          match hex with
          | [a; b; d] =>
              let (acc', pending') :=
                push_code_unit acc pending (((a * 16 + b) * 16 + d) * 16 + h) in
              Some (LString acc' pending', [])
          | _ => Some (LUnicode acc pending (hex ++ [h])%list, [])
          end
      end
  end.

Fixpoint lex (st : lexer_state) (s : string) : option (list token) :=
  match s with
  | EmptyString =>
      match st with
      | LStart => Some []
      | LWord w =>
          match scalar_of_word w with
          | Some v => Some [TScalar v]
          | None => None
          end
      | _ => None
      end
  | String c r =>
      match lex_step st c with
      | Some (st', toks) =>
          match lex st' r with
          | Some rest => Some (toks ++ rest)%list
          | None => None
          end
      | None => None
      end
  end.

(** An array or object that is still open. *)
Inductive frame : Type :=
| FArray (elements : list json)
| FObject (members : list (string * json)) (key : string).

Inductive parser_state : Type :=
| PValue (stack : list frame)
| PArrayOpen (stack : list frame)
| PArrayNext (elements : list json) (stack : list frame)
| PObjectOpen (stack : list frame)
| PObjectKey (members : list (string * json)) (stack : list frame)
| PObjectColon (members : list (string * json)) (key : string)
    (stack : list frame)
| PObjectNext (members : list (string * json)) (stack : list frame)
| PDone (v : json).

(** A value is complete: it goes into the innermost open container. *)
Definition complete (v : json) (stack : list frame) : parser_state :=
  match stack with
  | [] => PDone v
  | FArray elements :: stack' => PArrayNext (elements ++ [v])%list stack'
  | FObject members key :: stack' => PObjectNext (obj_set key v members) stack'
  end.

Definition begin_value (t : token) (stack : list frame) : option parser_state :=
  match t with
  | TScalar v => Some (complete v stack)
  | TString s => Some (complete (JString s) stack)
  | TLBracket => Some (PArrayOpen stack)
  | TLBrace => Some (PObjectOpen stack)
  | _ => None
  end.

Definition parse_step (st : parser_state) (t : token) : option parser_state :=
  match st, t with
  | PValue stack, _ => begin_value t stack
  | PArrayOpen stack, TRBracket => Some (complete (JArray []) stack)
  | PArrayOpen stack, _ => begin_value t (FArray [] :: stack)
  | PArrayNext elements stack, TComma => Some (PValue (FArray elements :: stack))
  | PArrayNext elements stack, TRBracket => Some (complete (JArray elements) stack)
  | PObjectOpen stack, TRBrace => Some (complete (JObject []) stack)
  | PObjectOpen stack, TString k => Some (PObjectColon [] k stack)
  | PObjectKey members stack, TString k => Some (PObjectColon members k stack)
  | PObjectColon members k stack, TColon => Some (PValue (FObject members k :: stack))
  | PObjectNext members stack, TComma => Some (PObjectKey members stack)
  | PObjectNext members stack, TRBrace => Some (complete (JObject members) stack)
  | _, _ => None
  end.

Fixpoint parse_tokens (st : parser_state) (ts : list token) : option json :=
  match ts with
  | [] =>
      match st with
      | PDone v => Some v
      | _ => None
      end
  | t :: rest =>
      match parse_step st t with
      | Some st' => parse_tokens st' rest
      | None => None
      end
  end.

(** [JSON.parse(text)]; a SyntaxError when the text is not JSON. *)
Definition JSON_parse (text : string) : result json :=
  match lex LStart text with
  | Some ts =>
      match parse_tokens (PValue []) ts with
      | Some v => Ok v
      | None => Throw SyntaxError
      end
  | None => Throw SyntaxError
  end.

(** Test inputs are written with apostrophes in place of double quotes. *)
Fixpoint dq (s : string) : string :=
  match s with
  | EmptyString => EmptyString
  | String c r => String (if (c =? "'")%char then dquote else c) (dq r)
  end.

(** ** [String.prototype.match] with the pattern [{[\s\S]*}]

    The pattern is a brace, any characters at all, a brace.  The match starts
    at the leftmost [{] and the star is greedy, so it ends at the last [}] of
    the text; there is no match when no [}] follows the first [{]. *)

(** The longest prefix of [s] that ends with [}]. *)
Fixpoint upto_last_close (s : string) : option string :=
  match s with
  | EmptyString => None
  | String c r =>
      match upto_last_close r with
      | Some p => Some (String c p)
      | None => if (c =? "}")%char then Some (String c "") else None
      end
  end.

Fixpoint match_braces (content : string) : option string :=
  match content with
  | EmptyString => None
  | String c r =>
      if (c =? "{")%char
      then option_map (String c) (upto_last_close r)
      else match_braces r
  end.

(** ** HTTP plumbing *)

(** [process.env] *)
Record Env : Type := {
  DEEPSEEK_API_KEY : option string;
  GOOGLE_CUSTOM_SEARCH_API_KEY : option string;
  GOOGLE_CUSTOM_SEARCH_CX : option string
}.

(** [!process.env.X]: the variable is unset or empty. *)
Definition unset (v : option string) : bool :=
  match v with
  | None => true
  | Some s => String.eqb s ""
  end.

(** An inbound request; [json_body] is [None] when the body is not JSON of
    the expected shape, and then [request.json()] rejects. *)
Record Request (A : Type) : Type := { json_body : option A }.
Arguments json_body {A} r.

Definition request_json {A : Type} (request : Request A) : result A :=
  match json_body request with
  | Some a => Ok a
  | None => Throw SyntaxError
  end.

(** The outcome of [await fetch(...)]: the promise rejects (network error),
    or resolves to a response with its [ok] flag and its body, [None] when
    the body is not JSON. *)
Inductive Fetched (A : Type) : Type :=
| Rejected
| Responded (ok : bool) (payload : option A).
Arguments Rejected {A}.
Arguments Responded {A} ok payload.

Definition response_json {A : Type} (payload : option A) : result A :=
  match payload with
  | Some a => Ok a
  | None => Throw SyntaxError
  end.

(** [NextResponse.json(body, { status })].  The body is kept as the value
    that is written; a field whose value is [undefined] is not written, and
    a body type that can lack a field has it as an [option]. *)
Record NextResponse (A : Type) : Type := { status : Z; body : A }.
Arguments status {A} n.
Arguments body {A} n.

Definition NextResponse_json {A : Type} (a : A) (st : Z) : NextResponse A :=
  {| status := st; body := a |}.

(** ** The travel plan (the types the page declares) *)

Module Plan.

Inductive ActivityType : Type :=
| sightseeing | meal | accommodation | transportation.

Record Activity : Type := {
  time : string;
  activity : string;
  location : string;
  description : string;
  type : ActivityType
}.

Record TravelPlanDay : Type := {
  day : Z;
  date : string;
  activities : list Activity
}.

Record TravelPlan : Type := {
  destination : string;
  summary : string;
  days : list TravelPlanDay
}.

Definition type_name (t : ActivityType) : string :=
  match t with
  | sightseeing => "sightseeing"
  | meal => "meal"
  | accommodation => "accommodation"
  | transportation => "transportation"
  end.

(** The plan as the JSON value that [NextResponse.json] sends. *)
Definition json_of_activity (a : Activity) : json :=
  JObject [("time", JString (time a));
           ("activity", JString (activity a));
           ("location", JString (location a));
           ("description", JString (description a));
           ("type", JString (type_name (type a)))].

Definition json_of_day (d : TravelPlanDay) : json :=
  JObject [("day", JNumber (day d) 0);
           ("date", JString (date d));
           ("activities", JArray (map json_of_activity (activities d)))].

Definition json_of_plan (p : TravelPlan) : json :=
  JObject [("destination", JString (destination p));
           ("summary", JString (summary p));
           ("days", JArray (map json_of_day (days p)))].

End Plan.

(** ** The route handler behind [/api/generate-plan] *)

Module GeneratePlan.
Import Plan.

Record DateRange : Type := { from : string; to : string }.

(** The request body, at the types the page sends it with.  [dateRange] is
    [None] when the field is absent. *)
Record TripRequest : Type := {
  destination : string;
  budget : string;
  people : string;
  dateRange : option DateRange;
  travelStyle : string
}.

(** The completion endpoint's answer. *)
Record Message : Type := { content : option string }.
Record Choice : Type := { message : Message }.
Record ChatCompletion : Type := { choices : list Choice }.

(** The six activities of a fallback day. *)
Definition fallbackActivities (destination travelStyle : string)
  : list Activity :=
  [ {| time := "08:00";
       activity := "朝食";
       location := destination ++ "のホテルレストラン";
       description := "ホテルでの朝食";
       type := meal |};
    {| time := "10:00";
       activity := destination ++ "観光";
       location := destination ++ "の人気スポット";
       description := travelStyle ++ "を楽しむ";
       type := sightseeing |};
    {| time := "12:30";
       activity := "昼食";
       location := destination ++ "のローカルレストラン";
       description := "地元の料理を楽しむ";
       type := meal |};
    {| time := "14:00";
       activity := "アクティビティ";
       location := destination ++ "のアクティビティスポット";
       description := travelStyle ++ "に関連したアクティビティ";
       type := sightseeing |};
    {| time := "18:00";
       activity := "夕食";
       location := destination ++ "の評価の高いレストラン";
       description := "特別な夕食";
       type := meal |};
    {| time := "20:00";
       activity := "宿泊";
       location := destination ++ "のホテル";
       description := "快適なホテルでの宿泊";
       type := accommodation |} ].

(** The body of the loop of [createFallbackPlan], for index [i]. *)
Definition fallbackDay (destination travelStyle : string) (startDate : Date)
  (i : Z) : result TravelPlanDay :=
  let currentDate := addDays startDate i in
  formattedDate <- format currentDate ;;
  Ok {| day := i + 1;
        date := formattedDate;
        activities := fallbackActivities destination travelStyle |}.

(** [for (let i = 0; i < numberOfDays; i++) days.push(...)], run for the
    [count] iterations that remain when the index is [i]. *)
Fixpoint pushDays (destination travelStyle : string) (startDate : Date)
  (count : nat) (i : Z) (days : list TravelPlanDay)
  : result (list TravelPlanDay) :=
  match count with
  | O => Ok days
  | S count' =>
      d <- fallbackDay destination travelStyle startDate i ;;
      pushDays destination travelStyle startDate count' (i + 1)
        (days ++ [d])%list
  end.

(** The number of times [i < numberOfDays] holds for [i = 0, 1, ...]; a
    comparison with [NaN] is false. *)
Definition iterations (numberOfDays : number) : nat :=
  match numberOfDays with
  | Num n => Z.to_nat n
  | NaN => O
  end.

Definition createFallbackPlan (destination : string) (numberOfDays : number)
  (startDate : Date) (travelStyle : string) : result TravelPlan :=
  days <- pushDays destination travelStyle startDate
            (iterations numberOfDays) 0 [] ;;
  Ok {| Plan.destination := destination;
        summary := destination ++ "への" ++ number_to_string numberOfDays
          ++ "日間の旅行プランです。" ++ travelStyle
          ++ "を中心に、地元の文化や料理を楽しむことができます。主要な観光スポットを訪れながら、"
          ++ destination ++ "の魅力を存分に体験できるプランになっています。";
        days := days |}.

Definition errorBody : json :=
  JObject [("error", JString "Failed to generate travel plan")].

(** [data.choices[0].message.content]; a TypeError when there is no first
    choice. *)
Definition first_content (data : ChatCompletion) : result (option string) :=
  match choices data with
  | c :: _ => Ok (content (message c))
  | [] => Throw TypeError
  end.

(** The inner [try] of the handler: find JSON in the text and parse it.
    [content.match] is a TypeError when [content] is not a string. *)
Definition extractPlan (content : option string) : result json :=
  match content with
  | None => Throw TypeError
  | Some text =>
      match match_braces text with
      | Some jsonMatch => JSON_parse jsonMatch
      | None => Throw (Error "No JSON found in response")
      end
  end.

(** The handler up to its own [catch].  [completion] is the outcome of the
    call to the completion endpoint (the prompt sent there has no influence
    on what the handler does next). *)
Definition handle (env : Env) (request : Request TripRequest)
  (completion : Fetched ChatCompletion) : result (NextResponse json) :=
  r <- request_json request ;;
  range <- match dateRange r with
           | Some range => Ok range
           | None => Throw TypeError
           end ;;
  let startDate := new_Date (from range) in
  let endDate := new_Date (to range) in
  let numberOfDays := number_add (differenceInDays endDate startDate) (Num 1) in
  if unset (DEEPSEEK_API_KEY env)
  then Throw (Error "DeepSeek API key is not configured")
  else
    match completion with
    | Rejected => Throw TypeError
    | Responded ok payload =>
        if negb ok
        then errorData <- response_json payload ;;
             Throw (Error "DeepSeek API request failed")
        else
          data <- response_json payload ;;
          content <- first_content data ;;
          travelPlan <- try_catch (extractPlan content)
            (fun error =>
               plan <- createFallbackPlan (destination r) numberOfDays
                         startDate (travelStyle r) ;;
               Ok (json_of_plan plan)) ;;
          Ok (NextResponse_json travelPlan 200)
    end.

Definition POST (env : Env) (request : Request TripRequest)
  (completion : Fetched ChatCompletion) : NextResponse json :=
  match handle env request completion with
  | Ok response => response
  | Throw error => NextResponse_json errorBody 500
  end.

End GeneratePlan.

(** ** The search URL of the image route *)

(** The characters [encodeURIComponent] leaves as they are: letters, digits
    and [- _ . ! ~ * ' ( )]. *)
Definition is_unreserved (c : ascii) : bool :=
  let n := Z.of_nat (nat_of_ascii c) in
  ((48 <=? n) && (n <=? 57) || (65 <=? n) && (n <=? 90)
   || (97 <=? n) && (n <=? 122)
   || (c =? "-")%char || (c =? "_")%char || (c =? ".")%char
   || (c =? "!")%char || (c =? "~")%char || (c =? "*")%char
   || (c =? "'")%char || (c =? "(")%char || (c =? ")")%char)%bool.

Definition hex_digit (n : Z) : ascii :=
  ascii_of_nat (Z.to_nat (if n <? 10 then 48 + n else 55 + n)).

(** One byte of the UTF-8 encoding: itself, or a percent sign and two
    upper-case hexadecimal digits. *)
Definition encode_byte (c : ascii) : string :=
  if is_unreserved c then String c ""
  else let n := Z.of_nat (nat_of_ascii c) in
       String "%" (String (hex_digit (n / 16)) (String (hex_digit (n mod 16)) "")).

(** [encodeURIComponent(s)] for a well-formed string: the UTF-8 bytes, each
    kept or percent-encoded. *)
Fixpoint encodeURIComponent (s : string) : string :=
  match s with
  | EmptyString => EmptyString
  | String c r => encode_byte c ++ encodeURIComponent r
  end.

(** The URL the image route fetches, for credentials that are set. *)
Definition searchUrl (key cx query : string) : string :=
  "https://www.googleapis.com/customsearch/v1?key=" ++ key ++ "&cx=" ++ cx
  ++ "&q=" ++ encodeURIComponent query
  ++ "&searchType=image&num=1&imgSize=large".

(** A surrogate code unit without its partner, on which
    [encodeURIComponent] throws a URIError.  In the byte form used here a
    pair is one four-byte sequence, so a surrogate standing alone is the
    byte ED followed by a byte from A0 to BF. *)
Fixpoint has_lone_surrogate (s : string) : bool :=
  match s with
  | String c (String d _ as r) =>
      (Nat.eqb (nat_of_ascii c) 237
       && Nat.leb 160 (nat_of_ascii d) && Nat.leb (nat_of_ascii d) 191)
      || has_lone_surrogate r
  | _ => false
  end.

(** [`${process.env.X}`] *)
Definition env_text (v : option string) : string :=
  match v with
  | Some s => s
  | None => "undefined"
  end.

(** ** The route handler behind [/api/get-images] *)

Module GetImages.

(** The request body and the image-search endpoint's answer: an object
    whose [items], when present, is a sequence of result items.  The code
    reads the answer untyped, so an item may come without its link
    ([None]). *)
Record ImageQuery : Type := { query : string }.
Record SearchItem : Type := { link : option string }.
Record SearchData : Type := { items : option (list SearchItem) }.

(** The response body.  A field whose value is [undefined] is left out when
    the body is written: [imageUrl] is then [None]. *)
Record ImageData : Type := { imageUrl : option string }.

Definition placeholder : string := "/placeholder.svg".

Definition placeholderResponse : NextResponse ImageData :=
  NextResponse_json {| imageUrl := Some placeholder |} 200.

(** The search URL of the handler; [encodeURIComponent] throws on a search
    text that holds a lone surrogate. *)
Definition buildSearchUrl (env : Env) (query : string) : result string :=
  if has_lone_surrogate query then Throw URIError
  else Ok (searchUrl (env_text (GOOGLE_CUSTOM_SEARCH_API_KEY env))
             (env_text (GOOGLE_CUSTOM_SEARCH_CX env)) query).

(** The handler up to its own [catch].  [search q] is the outcome of the
    call to the image-search endpoint for the search text [q]. *)
Definition handle (env : Env) (request : Request ImageQuery)
  (search : string -> Fetched SearchData) : result (NextResponse ImageData) :=
  q <- request_json request ;;
  if (unset (GOOGLE_CUSTOM_SEARCH_API_KEY env)
      || unset (GOOGLE_CUSTOM_SEARCH_CX env))%bool
  then Ok placeholderResponse
  else
    url <- buildSearchUrl env (query q) ;;
    match search (query q) with
    | Rejected => Throw TypeError
    | Responded ok payload =>
        if negb ok
        then Throw (Error "Google Custom Search API request failed")
        else
          data <- response_json payload ;;
          match items data with
          | Some (first :: _) =>
              Ok (NextResponse_json {| imageUrl := link first |} 200)
          | _ => Ok placeholderResponse
          end
    end.

Definition POST (env : Env) (request : Request ImageQuery)
  (search : string -> Fetched SearchData) : NextResponse ImageData :=
  match handle env request search with
  | Ok response => response
  | Throw error => NextResponse_json {| imageUrl := Some placeholder |} 200
  end.

End GetImages.

(** ** The page component: [onSubmit] *)

Module Page.

Record ImageResult : Type := { location : string; imageUrl : string }.

(** The component's state. *)
Record State : Type := {
  isLoading : bool;
  travelPlan : option Plan.TravelPlan;
  images : list ImageResult
}.

(** [planData.days.flatMap(day => day.activities.map(a => a.location))] *)
Definition locations (planData : Plan.TravelPlan) : list string :=
  flat_map (fun day => map Plan.location (Plan.activities day))
    (Plan.days planData).

(** [Set.prototype.add]: a set keeps its elements in insertion order and
    ignores a value it already holds. *)
Definition Set_add (set : list string) (x : string) : list string :=
  if existsb (String.eqb x) set then set else (set ++ [x])%list.

(** [[...new Set(locations)]] *)
Definition uniqueLocations (locations : list string) : list string :=
  fold_left Set_add locations [].

(** [a || b] for a field read from an untyped body: an absent field and the
    empty string are falsy. *)
Definition or_else (a : option string) (b : string) : string :=
  match a with
  | Some s => if String.eqb s "" then b else s
  | None => b
  end.

(** One lookup.  [api q] is the outcome of the call to [/api/get-images]
    with the search text [q]. *)
Definition imagePromise (api : string -> Fetched GetImages.ImageData)
  (destination location : string) : result ImageResult :=
  match api (location ++ " " ++ destination) with
  | Rejected => Throw TypeError
  | Responded ok payload =>
      if negb ok
      then Ok {| location := location; imageUrl := "/placeholder.svg" |}
      else
        imageData <- response_json payload ;;
        Ok {| location := location;
              imageUrl := or_else (GetImages.imageUrl imageData)
                            "/placeholder.svg" |}
  end.

(** [Promise.all]: the results in order, or the first rejection. *)
Fixpoint Promise_all {A : Type} (promises : list (result A))
  : result (list A) :=
  match promises with
  | [] => Ok []
  | p :: rest =>
      a <- p ;;
      l <- Promise_all rest ;;
      Ok (a :: l)
  end.

(** The lookups of [onSubmit], gathered by [Promise.all]. *)
Definition imageResults (api : string -> Fetched GetImages.ImageData)
  (planData : Plan.TravelPlan) : result (list ImageResult) :=
  Promise_all
    (map (imagePromise api (Plan.destination planData))
       (uniqueLocations (locations planData))).

Definition setTravelPlan (p : option Plan.TravelPlan) (st : State) : State :=
  {| isLoading := isLoading st; travelPlan := p; images := images st |}.

Definition setImages (l : list ImageResult) (st : State) : State :=
  {| isLoading := isLoading st; travelPlan := travelPlan st; images := l |}.

Definition setIsLoading (b : bool) (st : State) : State :=
  {| isLoading := b; travelPlan := travelPlan st; images := images st |}.

(** The [try] block of [onSubmit]: the state when the block is left, by
    reaching its end or by an exception (which [catch] only logs). *)
Definition tryBlock (st : State) (planResponse : Fetched Plan.TravelPlan)
  (api : string -> Fetched GetImages.ImageData) : State :=
  match planResponse with
  | Rejected => st
  | Responded ok payload =>
      if negb ok then st
      else
        match response_json payload with
        | Throw _ => st
        | Ok planData =>
            let st1 := setTravelPlan (Some planData) st in
            match imageResults api planData with
            | Throw _ => st1
            | Ok results => setImages results st1
            end
        end
  end.

Definition onSubmit (st : State) (planResponse : Fetched Plan.TravelPlan)
  (api : string -> Fetched GetImages.ImageData) : State :=
  let st0 := setImages [] (setTravelPlan None (setIsLoading true st)) in
  setIsLoading false (tryBlock st0 planResponse api).

(** The page's calls to [/api/get-images], answered by the route handler. *)
Definition served (env : Env) (search : string -> Fetched GetImages.SearchData)
  (q : string) : Fetched GetImages.ImageData :=
  let response :=
    GetImages.POST env {| json_body := Some {| GetImages.query := q |} |}
      search in
  Responded ((200 <=? status response) && (status response <=? 299))
    (Some (body response)).

End Page.

(** ** What the specification calls a structurally valid itinerary *)

Definition prop (k : string) (v : json) : option json :=
  match v with
  | JObject members => obj_get k members
  | _ => None
  end.

(** The JSON number [v] has the integer value [z]. *)
Definition number_is (z : Z) (v : json) : bool :=
  match v with
  | JNumber m e => if 0 <=? e then m * 10 ^ e =? z else m =? z * 10 ^ (- e)
  | _ => false
  end.

Definition is_activity_type (v : json) : bool :=
  match v with
  | JString s =>
      (String.eqb s "sightseeing" || String.eqb s "meal"
       || String.eqb s "accommodation" || String.eqb s "transportation")%bool
  | _ => false
  end.

(** The day numbers are [i], [i + 1], ... in order. *)
Fixpoint days_numbered (i : Z) (days : list json) : bool :=
  match days with
  | [] => true
  | d :: rest =>
      match prop "day" d with
      | Some n => number_is i n && days_numbered (i + 1) rest
      | None => false
      end
  end.

Definition activities_typed (d : json) : bool :=
  match prop "activities" d with
  | Some (JArray acts) =>
      forallb (fun a => match prop "type" a with
                        | Some t => is_activity_type t
                        | None => false
                        end) acts
  | _ => false
  end.

(** The three conditions on the itinerary of an [n]-day request: [n] days,
    numbered 1..n in order, every activity of an enumerated type. *)
Definition valid_itinerary (n : Z) (v : json) : bool :=
  match prop "days" v with
  | Some (JArray days) =>
      (Z.of_nat (length days) =? n) && days_numbered 1 days
      && forallb activities_typed days
  | _ => false
  end.

(** The length of the [days] sequence of a JSON plan. *)
Definition days_count (v : json) : option Z :=
  match prop "days" v with
  | Some (JArray days) => Some (Z.of_nat (length days))
  | _ => None
  end.

(** ** The extraction the specification describes

    Following the specification's words, "the first balanced [{...}] span":
    from an opening brace to the closing brace that brings the nesting depth
    back to zero. *)

(** Inside [depth] open braces: the text up to the brace that closes the
    outermost one. *)
Fixpoint balanced_rest (depth : nat) (s : string) : option string :=
  match s with
  | EmptyString => None
  | String c r =>
      if (c =? "{")%char then option_map (String c) (balanced_rest (S depth) r)
      else if (c =? "}")%char then
        match depth with
        | O => Some (String c "")
        | S depth' => option_map (String c) (balanced_rest depth' r)
        end
      else option_map (String c) (balanced_rest depth r)
  end.

Fixpoint first_balanced_span (s : string) : option string :=
  match s with
  | EmptyString => None
  | String c r =>
      if (c =? "{")%char then
        match balanced_rest 0 r with
        | Some p => Some (String c p)
        | None => first_balanced_span r
        end
      else first_balanced_span r
  end.

(** [c] does not occur in [s]. *)
Fixpoint lacks (c : ascii) (s : string) : bool :=
  match s with
  | EmptyString => true
  | String c' r => negb (c' =? c)%char && lacks c r
  end.

(** ** Scenarios *)

(** The integers [i], [i + 1], ... ([count] of them): the indices the loop of
    [createFallbackPlan] runs through. *)
Fixpoint Zrange (i : Z) (count : nat) : list Z :=
  match count with
  | O => []
  | S count' => i :: Zrange (i + 1) count'
  end.

(** The entry the loop of [createFallbackPlan] pushes for index [i] when the
    start date has the time value [t] and day [i] is in range. *)
Definition dayAt (destination travelStyle : string) (t i : Z)
  : Plan.TravelPlanDay :=
  {| Plan.day := i + 1;
     Plan.date := format_day (t / msPerDay + i);
     Plan.activities :=
       GeneratePlan.fallbackActivities destination travelStyle |}.

(** The summary of the fallback plan. *)
Definition fallbackSummary (destination : string) (numberOfDays : number)
  (travelStyle : string) : string :=
  destination ++ "への" ++ number_to_string numberOfDays
  ++ "日間の旅行プランです。" ++ travelStyle
  ++ "を中心に、地元の文化や料理を楽しむことができます。主要な観光スポットを訪れながら、"
  ++ destination ++ "の魅力を存分に体験できるプランになっています。".

(** [numberOfDays] as the handler computes it from the date range. *)
Definition requestedDays (range : GeneratePlan.DateRange) : number :=
  number_add
    (differenceInDays (new_Date (GeneratePlan.to range))
       (new_Date (GeneratePlan.from range))) (Num 1).

(** The entry the page stores for a location when the route answers. *)
Definition imageFor (env : Env)
  (search : string -> Fetched GetImages.SearchData)
  (destination location : string) : Page.ImageResult :=
  {| Page.location := location;
     Page.imageUrl :=
       Page.or_else
         (GetImages.imageUrl
            (body (GetImages.POST env
                     {| json_body :=
                          Some {| GetImages.query :=
                                    location ++ " " ++ destination |} |}
                     search)))
         "/placeholder.svg" |}.

Module Scenario.
Import GeneratePlan.

(** Kyoto, 2024-05-01 to 2024-05-03: three days. *)
Definition kyotoRange : DateRange :=
  {| from := "2024-05-01"; to := "2024-05-03" |}.

Definition kyotoTrip : TripRequest :=
  {| destination := "京都";
     budget := "100000";
     people := "2";
     dateRange := Some kyotoRange;
     travelStyle := "観光" |}.

Definition kyoto : Request TripRequest := {| json_body := Some kyotoTrip |}.

Definition configured : Env :=
  {| DEEPSEEK_API_KEY := Some "sk-test";
     GOOGLE_CUSTOM_SEARCH_API_KEY := Some "key";
     GOOGLE_CUSTOM_SEARCH_CX := Some "cx" |}.

Definition unconfigured : Env :=
  {| DEEPSEEK_API_KEY := None;
     GOOGLE_CUSTOM_SEARCH_API_KEY := None;
     GOOGLE_CUSTOM_SEARCH_CX := None |}.

(** A successful completion whose text is [text]. *)
Definition completionOf (text : string) : ChatCompletion :=
  {| choices := [ {| message := {| content := Some text |} |} ] |}.

Definition completed (text : string) : Fetched ChatCompletion :=
  Responded true (Some (completionOf text)).

(** A well-formed model plan with two days only: [twoDays] is the object,
    [twoDaysInner] what stands between its outer braces. *)
Definition twoDaysInner : string :=
  dq ("'destination':'Kyoto','summary':'...','days':["
      ++ "{'day':1,'date':'2024-05-01','activities':"
      ++ "[{'time':'09:00','activity':'a','location':'Kinkaku-ji',"
      ++ "'description':'d','type':'sightseeing'}]},"
      ++ "{'day':2,'date':'2024-05-02','activities':"
      ++ "[{'time':'09:00','activity':'b','location':'Gion',"
      ++ "'description':'d','type':'meal'}]}]").

Definition twoDays : string := "{" ++ twoDaysInner ++ "}".

Definition twoDaysPlan : json :=
  JObject
    [("destination", JString "Kyoto"); ("summary", JString "...");
     ("days",
      JArray
        [JObject
           [("day", JNumber 1 0); ("date", JString "2024-05-01");
            ("activities",
             JArray
               [JObject
                  [("time", JString "09:00"); ("activity", JString "a");
                   ("location", JString "Kinkaku-ji");
                   ("description", JString "d");
                   ("type", JString "sightseeing")]])];
         JObject
           [("day", JNumber 2 0); ("date", JString "2024-05-02");
            ("activities",
             JArray
               [JObject
                  [("time", JString "09:00"); ("activity", JString "b");
                   ("location", JString "Gion");
                   ("description", JString "d");
                   ("type", JString "meal")]])]])].


(** A plan that visits Kinkaku-ji twice, and a search endpoint that knows
    Kinkaku-ji only. *)
Definition visit (place : string) : Plan.Activity :=
  {| Plan.time := "10:00";
     Plan.activity := "visit";
     Plan.location := place;
     Plan.description := "";
     Plan.type := Plan.sightseeing |}.

Definition twoTemples : Plan.TravelPlan :=
  {| Plan.destination := "京都";
     Plan.summary := "";
     Plan.days :=
       [ {| Plan.day := 1; Plan.date := "2024-05-01";
            Plan.activities := [visit "金閣寺"; visit "祇園"] |};
         {| Plan.day := 2; Plan.date := "2024-05-02";
            Plan.activities := [visit "金閣寺"] |} ] |}.

Definition kinkakujiOnly (q : string) : Fetched GetImages.SearchData :=
  if String.eqb q "金閣寺 京都"
  then Responded true
         (Some {| GetImages.items :=
                    Some [ {| GetImages.link :=
                                Some "https://example.com/kinkakuji.jpg" |} ] |})
  else Rejected.

Definition idle : Page.State :=
  {| Page.isLoading := false; Page.travelPlan := None; Page.images := [] |}.

End Scenario.

(** ** The page's request to [/api/generate-plan] *)

Module Form.

(** The validated form values [onSubmit] receives: the two ends of the date
    range are [Date] objects. *)
Record DateRangeValue : Type := { from : Date; to : Date }.

Record Values : Type := {
  destination : string;
  budget : string;
  people : string;
  dateRange : DateRangeValue;
  travelStyle : string
}.

(** The body [onSubmit] posts; [format] throws on an Invalid Date.  The
    page formats in the zone of the browser, here UTC. *)
Definition requestBody (values : Values) : result GeneratePlan.TripRequest :=
  from' <- format (from (dateRange values)) ;;
  to' <- format (to (dateRange values)) ;;
  Ok {| GeneratePlan.destination := destination values;
        GeneratePlan.budget := budget values;
        GeneratePlan.people := people values;
        GeneratePlan.dateRange :=
          Some {| GeneratePlan.from := from'; GeneratePlan.to := to' |};
        GeneratePlan.travelStyle := travelStyle values |}.

End Form.

(** The year of the day number [z]. *)
Definition year_of_day (z : Z) : Z :=
  let '(y, _, _) := civil_from_days z in y.

(** [n], padded to [len] digits, has [len] characters and reads back as
    [n]. *)
Definition pad_ok (len : nat) (n : Z) : bool :=
  let s := addLeadingZeros n len in
  Nat.eqb (String.length s) len
  && match digits_value 0 s with
     | Some v => v =? n
     | None => false
     end.

(** The fallback plan for a day count that starts no iteration of the
    loop. *)
Definition emptyPlan (destination : string) (numberOfDays : number)
  (travelStyle : string) : Plan.TravelPlan :=
  {| Plan.destination := destination;
     Plan.summary := fallbackSummary destination numberOfDays travelStyle;
     Plan.days := [] |}.

(** More scenarios. *)
Module Scenario2.

(** The form values behind the Kyoto request: the calendar hands over the
    two midnights. *)
Definition kyotoValues : Form.Values :=
  {| Form.destination := "京都";
     Form.budget := "100000";
     Form.people := "2";
     Form.dateRange := {| Form.from := Some 1714521600000;
                          Form.to := Some 1714694400000 |};
     Form.travelStyle := "観光" |}.

(** A completion whose first choice has no text. *)
Definition nullContent : GeneratePlan.ChatCompletion :=
  {| GeneratePlan.choices :=
       [ {| GeneratePlan.message := {| GeneratePlan.content := None |} |} ] |}.

(** The Kyoto trip with the two dates swapped, and with a start that is no
    date. *)
Definition swappedRange : GeneratePlan.DateRange :=
  {| GeneratePlan.from := "2024-05-03"; GeneratePlan.to := "2024-05-01" |}.

Definition swappedTrip : GeneratePlan.TripRequest :=
  {| GeneratePlan.destination := "京都";
     GeneratePlan.budget := "100000";
     GeneratePlan.people := "2";
     GeneratePlan.dateRange := Some swappedRange;
     GeneratePlan.travelStyle := "観光" |}.

Definition undatedRange : GeneratePlan.DateRange :=
  {| GeneratePlan.from := "2024-13-01"; GeneratePlan.to := "2024-05-01" |}.

Definition undatedTrip : GeneratePlan.TripRequest :=
  {| GeneratePlan.destination := "京都";
     GeneratePlan.budget := "100000";
     GeneratePlan.people := "2";
     GeneratePlan.dateRange := Some undatedRange;
     GeneratePlan.travelStyle := "観光" |}.

End Scenario2.

(** ** Shapes of parser states *)

Definition is_object (v : json) : bool :=
  match v with
  | JObject _ => true
  | _ => false
  end.

(** The outermost open container of a non-empty stack is an object. *)
Definition bottom_object (stack : list frame) : bool :=
  match rev stack with
  | FObject _ _ :: _ => true
  | _ => false
  end.

(** The states the parser goes through when the text starts with an opening
    brace: whatever is open lies inside one outermost object. *)
Definition in_object (st : parser_state) : bool :=
  match st with
  | PValue stack | PArrayOpen stack | PArrayNext _ stack =>
      bottom_object stack
  | PObjectOpen stack | PObjectKey _ stack | PObjectColon _ _ stack
  | PObjectNext _ stack =>
      match stack with
      | [] => true
      | _ => bottom_object stack
      end
  | PDone v => is_object v
  end.

(** The search text the page sends for a location. *)
Definition imageQuery (destination location : string) : string :=
  location ++ " " ++ destination.

(** A character an encoded component can hold. *)
Definition is_component_char (c : ascii) : bool :=
  (is_unreserved c || (c =? "%")%char)%bool.

Fixpoint all_chars (p : ascii -> bool) (s : string) : bool :=
  match s with
  | EmptyString => true
  | String c r => p c && all_chars p r
  end.

(** Reading a percent-encoded component back, byte by byte. *)
Fixpoint percent_decode (s : string) : string :=
  match s with
  | EmptyString => EmptyString
  | String c r =>
      if (c =? "%")%char then
        match r with
        | String a (String b r') =>
            match hex_value a, hex_value b with
            | Some x, Some y =>
                String (ascii_of_nat (Z.to_nat (x * 16 + y)))
                  (percent_decode r')
            | _, _ => String c (percent_decode r)
            end
        | _ => String c (percent_decode r)
        end
      else String c (percent_decode r)
  end.

(** What makes [percent_decode] undo [encode_byte]: an unreserved byte is
    not the percent sign, and the two digits written for any other byte are
    component characters that read back as that byte. *)
Definition encode_byte_ok (c : ascii) : bool :=
  let n := Z.of_nat (nat_of_ascii c) in
  if is_unreserved c then negb (c =? "%")%char
  else
    is_component_char (hex_digit (n / 16))
    && is_component_char (hex_digit (n mod 16))
    && match hex_value (hex_digit (n / 16)),
             hex_value (hex_digit (n mod 16)) with
       | Some x, Some y => (ascii_of_nat (Z.to_nat (x * 16 + y)) =? c)%char
       | _, _ => false
       end.

(** ** What the page stores for one lookup *)

(** The lookup for a location cannot complete: the call is rejected or a
    success response has no JSON body. *)
Definition lookup_fails (api : string -> Fetched GetImages.ImageData)
  (destination location : string) : Prop :=
  api (location ++ " " ++ destination) = Rejected
  \/ api (location ++ " " ++ destination) = Responded true None.

(** The URL stored for a location whose lookup completes. *)
Definition storedUrl (answer : Fetched GetImages.ImageData) : string :=
  match answer with
  | Responded true (Some imageData) =>
      Page.or_else (GetImages.imageUrl imageData) "/placeholder.svg"
  | _ => "/placeholder.svg"
  end.

(** ** Date strings that are no date *)

(** A string of the date-only shape, four digits, two digits and two digits
    with a hyphen between them, whose month is outside 1..12 or whose day is
    outside 1..31: [parse_date_only] finds the shape and rejects the
    fields.  V8 reads such a string as an Invalid Date. *)
Definition iso_out_of_range (s : string) : bool :=
  Nat.eqb (String.length s) 10
  && all_chars is_digit (substring 0 4 s)
  && String.eqb (substring 4 1 s) "-"
  && all_chars is_digit (substring 5 2 s)
  && String.eqb (substring 7 1 s) "-"
  && all_chars is_digit (substring 8 2 s)
  && match parse_date_only s with
     | Some _ => false
     | None => true
     end.

(** ** [createFallbackPlan] in the running process

    The generator once more, this time as a computation in the state of the
    server process.  The state holds what a JavaScript function can read
    besides its arguments (the clock, the random source, the environment,
    the time zone) and the [Date] objects, which are mutable and passed by
    reference. *)

Module Runtime.
Import Plan.

(** The time zone of the process: [LocalTZA(t, isUTC)] of ECMAScript, the
    offset of local time in milliseconds. *)
Definition Zone : Type := Z -> bool -> Z.

(** A reference to a [Date] object. *)
Definition DateRef : Type := nat.

Record World : Type := {
  zone : Zone;
  clock : Z;
  randomSeed : Z;
  environment : Env;
  dates : list Date
}.

Definition with_dates (w : World) (objects : list Date) : World :=
  {| zone := zone w;
     clock := clock w;
     randomSeed := randomSeed w;
     environment := environment w;
     dates := objects |}.

(** A computation reads and changes the state and returns or throws. *)
Definition M (A : Type) : Type := World -> result A * World.

Definition ret {A : Type} (a : A) : M A := fun w => (Ok a, w).

Definition throw {A : Type} (e : exn) : M A := fun w => (Throw e, w).

Definition bindM {A B : Type} (m : M A) (k : A -> M B) : M B :=
  fun w =>
    match m w with
    | (Ok a, w') => k a w'
    | (Throw e, w') => (Throw e, w')
    end.

Notation "x <~ m ;; k" := (bindM m (fun x => k))
  (at level 61, m at next level, right associativity).

(** The time value a [Date] object holds; [None] is NaN. *)
Definition timeValue (w : World) (r : DateRef) : Date := nth r (dates w) None.

Fixpoint update (r : nat) (tv : Date) (objects : list Date) : list Date :=
  match objects, r with
  | [], _ => []
  | _ :: rest, O => tv :: rest
  | d :: rest, S r' => d :: update r' tv rest
  end.

(** Setting the time value of an object. *)
Definition store (r : DateRef) (tv : Date) (w : World) : World :=
  with_dates w (update r tv (dates w)).

(** [new Date(value)]: a new object. *)
Definition newDate (tv : Date) : M DateRef :=
  fun w => (Ok (length (dates w)), with_dates w (dates w ++ [tv])%list).

(** [date.getTime()] *)
Definition getTime (r : DateRef) : M Date := fun w => (Ok (timeValue w r), w).

(** date-fns [toDate(date)] for a [Date]: a new object with the same time
    value. *)
Definition toDate (r : DateRef) : M DateRef :=
  tv <~ getTime r ;; newDate tv.

(** ECMAScript [LocalTime(t)] and [UTC(t)]. *)
Definition LocalTime (z : Zone) (t : Z) : Z := t + z t true.

Definition UTC (z : Zone) (t : Z) : Z := t - z t false.

(** [date.getDate()]: the day of the month, in local time. *)
Definition getDate (r : DateRef) : M number :=
  fun w =>
    match timeValue w r with
    | None => (Ok NaN, w)
    | Some t =>
        let '(_, _, d) := civil_from_days (LocalTime (zone w) t / msPerDay) in
        (Ok (Num d), w)
    end.

(** [date.setDate(dt)]: the day [dt] of the month the date lies in, at the
    same local time of day. *)
Definition setDate (r : DateRef) (dt : number) : M unit :=
  fun w =>
    match timeValue w r with
    | None => (Ok tt, w)
    | Some t =>
        match dt with
        | NaN => (Ok tt, store r None w)
        | Num dt =>
            let local := LocalTime (zone w) t in
            let '(y, m, _) := civil_from_days (local / msPerDay) in
            let day := days_from_civil y m 1 + (dt - 1) in
            let newDate := day * msPerDay + local mod msPerDay in
            (Ok tt, store r (TimeClip (UTC (zone w) newDate)) w)
        end
    end.

(** date-fns [addDays(date, amount)] for an integer amount: works on a copy
    of [date]. *)
Definition addDays (date : DateRef) (amount : Z) : M DateRef :=
  _date <~ toDate date ;;
  if amount =? 0 then ret _date
  else
    d <~ getDate _date ;;
    _ <~ setDate _date (number_add d (Num amount)) ;;
    ret _date.

(** date-fns [format(date, "yyyy-MM-dd")]: the local calendar day of a copy
    of [date]. *)
Definition format (date : DateRef) : M string :=
  originalDate <~ toDate date ;;
  tv <~ getTime originalDate ;;
  match tv with
  | None => throw RangeError
  | Some t =>
      fun w => (Ok (format_day (LocalTime (zone w) t / msPerDay)), w)
  end.

(** One iteration of the loop of [createFallbackPlan]. *)
Definition fallbackDay (destination travelStyle : string)
  (startDate : DateRef) (i : Z) : M TravelPlanDay :=
  currentDate <~ addDays startDate i ;;
  formattedDate <~ format currentDate ;;
  ret {| day := i + 1;
         date := formattedDate;
         activities :=
           GeneratePlan.fallbackActivities destination travelStyle |}.

Fixpoint pushDays (destination travelStyle : string) (startDate : DateRef)
  (count : nat) (i : Z) (days : list TravelPlanDay)
  : M (list TravelPlanDay) :=
  match count with
  | O => ret days
  | S count' =>
      d <~ fallbackDay destination travelStyle startDate i ;;
      pushDays destination travelStyle startDate count' (i + 1)
        (days ++ [d])%list
  end.

Definition createFallbackPlan (destination : string) (numberOfDays : number)
  (startDate : DateRef) (travelStyle : string) : M TravelPlan :=
  days <~ pushDays destination travelStyle startDate
            (GeneratePlan.iterations numberOfDays) 0 [] ;;
  ret {| Plan.destination := destination;
         summary := fallbackSummary destination numberOfDays travelStyle;
         days := days |}.

(** Coordinated universal time as a zone. *)
Definition utc : Zone := fun _ _ => 0.

End Runtime.

(** What the generator computes, as a function of the zone and of the time
    value of its start date. *)
Definition addDaysIn (z : Runtime.Zone) (tv : Date) (amount : Z) : Date :=
  if amount =? 0 then tv
  else
    match tv with
    | None => None
    | Some t =>
        let local := Runtime.LocalTime z t in
        let '(y, m, d) := civil_from_days (local / msPerDay) in
        let day := days_from_civil y m 1 + (d + amount - 1) in
        TimeClip (Runtime.UTC z (day * msPerDay + local mod msPerDay))
    end.

Definition formatIn (z : Runtime.Zone) (tv : Date) : result string :=
  match tv with
  | None => Throw RangeError
  | Some t => Ok (format_day (Runtime.LocalTime z t / msPerDay))
  end.

Definition fallbackDayIn (z : Runtime.Zone) (destination travelStyle : string)
  (tv : Date) (i : Z) : result Plan.TravelPlanDay :=
  formattedDate <- formatIn z (addDaysIn z tv i) ;;
  Ok {| Plan.day := i + 1;
        Plan.date := formattedDate;
        Plan.activities :=
          GeneratePlan.fallbackActivities destination travelStyle |}.

Fixpoint pushDaysIn (z : Runtime.Zone) (destination travelStyle : string)
  (tv : Date) (count : nat) (i : Z) (days : list Plan.TravelPlanDay)
  : result (list Plan.TravelPlanDay) :=
  match count with
  | O => Ok days
  | S count' =>
      d <- fallbackDayIn z destination travelStyle tv i ;;
      pushDaysIn z destination travelStyle tv count' (i + 1)
        (days ++ [d])%list
  end.

Definition createFallbackPlanIn (z : Runtime.Zone) (destination : string)
  (numberOfDays : number) (tv : Date) (travelStyle : string)
  : result Plan.TravelPlan :=
  days <- pushDaysIn z destination travelStyle tv
            (GeneratePlan.iterations numberOfDays) 0 [] ;;
  Ok {| Plan.destination := destination;
        Plan.summary := fallbackSummary destination numberOfDays travelStyle;
        Plan.days := days |}.

(** Two server processes that differ in their time zone only: each holds
    one [Date] object, 2024-05-01T00:00:00Z. *)
Module Scenario3.

Definition sevenHoursBehind : Runtime.Zone := fun _ _ => -25200000.

Definition inUTC : Runtime.World :=
  {| Runtime.zone := Runtime.utc;
     Runtime.clock := 1714550000000;
     Runtime.randomSeed := 0;
     Runtime.environment := Scenario.configured;
     Runtime.dates := [Some 1714521600000] |}.

Definition inPacificTime : Runtime.World :=
  {| Runtime.zone := sevenHoursBehind;
     Runtime.clock := 1714550000000;
     Runtime.randomSeed := 0;
     Runtime.environment := Scenario.configured;
     Runtime.dates := [Some 1714521600000] |}.

(** The process in UTC later on: another clock, another environment, more
    [Date] objects, the start date at another place. *)
Definition later : Runtime.World :=
  {| Runtime.zone := Runtime.utc;
     Runtime.clock := 1714560000000;
     Runtime.randomSeed := 42;
     Runtime.environment := Scenario.unconfigured;
     Runtime.dates := [None; Some 0; Some 1714521600000] |}.

(** A search text that holds a lone surrogate (U+D800). *)
Definition loneSurrogate : string :=
  String (ascii_of_nat 237) (String (ascii_of_nat 160)
    (String (ascii_of_nat 128) "")).

(** A search endpoint whose first result has no link, and one that has a
    link for every search. *)
Definition linkless (q : string) : Fetched GetImages.SearchData :=
  Responded true
    (Some {| GetImages.items := Some [ {| GetImages.link := None |} ] |}).

Definition anyImage (q : string) : Fetched GetImages.SearchData :=
  Responded true
    (Some {| GetImages.items :=
               Some [ {| GetImages.link :=
                           Some "https://example.com/a.jpg" |} ] |}).

(** The image route with the lookup for Gion rejected. *)
Definition gionUnreachable (q : string) : Fetched GetImages.ImageData :=
  if String.eqb q "祇園 京都" then Rejected
  else Responded true
         (Some {| GetImages.imageUrl := Some "https://example.com/a.jpg" |}).

End Scenario3.

(** * Properties *)

Import Plan GeneratePlan.

(** ** Dates *)

Example new_Date_ex : new_Date "2024-05-01" = Some 1714521600000.
Proof. reflexivity. Qed.

Example format_ex :
  format (addDays (new_Date "2024-02-28") 2) = Ok "2024-03-01".
Proof. reflexivity. Qed.

Example differenceInDays_ex :
  differenceInDays (new_Date "2024-05-03") (new_Date "2024-05-01") = Num 2.
Proof. reflexivity. Qed.

Lemma TimeClip_Some (t t' : Z) :
  TimeClip t = Some t' -> t' = t /\ Z.abs t <= maxTime.
Proof.
  unfold TimeClip. destruct (Z.abs t <=? maxTime) eqn:E; [|discriminate].
  intros [= <-]. split; [reflexivity | now apply Z.leb_le].
Qed.

Lemma TimeClip_in_range (t : Z) : Z.abs t <= maxTime -> TimeClip t = Some t.
Proof.
  intros H. unfold TimeClip. apply Z.leb_le in H. now rewrite H.
Qed.

Lemma new_Date_range (s : string) (t : Z) :
  new_Date s = Some t -> Z.abs t <= maxTime.
Proof.
  unfold new_Date. destruct (parse_date_only s); [|discriminate].
  intros H. apply TimeClip_Some in H. destruct H as [-> H]. exact H.
Qed.

(** A positive number of full days fits between the two dates. *)
Lemma differenceInDays_bound (l e d : Z) :
  differenceInDays (Some l) (Some e) = Num d -> 0 < d ->
  d * msPerDay <= l - e.
Proof.
  unfold differenceInDays, msPerDay. intros [= <-].
  pose proof (Z.div_mod l 86400000 ltac:(lia)) as Hl.
  pose proof (Z.mod_pos_bound l 86400000 ltac:(lia)) as Hl'.
  pose proof (Z.div_mod e 86400000 ltac:(lia)) as He.
  pose proof (Z.mod_pos_bound e 86400000 ltac:(lia)) as He'.
  set (ql := l / 86400000) in *. set (qe := e / 86400000) in *.
  match goal with
  | |- context [if ?c then _ else _] => destruct c eqn:E
  end.
  - apply Z.eqb_eq in E. lia.
  - apply Z.eqb_neq in E. lia.
Qed.

(** When the later date is not before the earlier one the count is not
    negative. *)
Lemma differenceInDays_nonneg (l e : Z) :
  e <= l -> exists d, differenceInDays (Some l) (Some e) = Num d /\ 0 <= d.
Proof.
  intros Hle. unfold differenceInDays, msPerDay. eexists. split; [reflexivity|].
  pose proof (Z.div_mod l 86400000 ltac:(lia)) as Hl.
  pose proof (Z.mod_pos_bound l 86400000 ltac:(lia)) as Hl'.
  pose proof (Z.div_mod e 86400000 ltac:(lia)) as He.
  pose proof (Z.mod_pos_bound e 86400000 ltac:(lia)) as He'.
  set (ql := l / 86400000) in *. set (qe := e / 86400000) in *.
  match goal with
  | |- context [if ?c then _ else _] => destruct c eqn:E
  end.
  - apply Z.eqb_eq in E. lia.
  - lia.
Qed.

Lemma format_addDays (t i : Z) :
  Z.abs (t + i * msPerDay) <= maxTime ->
  format (addDays (Some t) i) = Ok (format_day (t / msPerDay + i)).
Proof.
  intros H. unfold addDays. destruct (i =? 0) eqn:E.
  - apply Z.eqb_eq in E. subst i. cbn [format]. now rewrite Z.add_0_r.
  - rewrite TimeClip_in_range by exact H. cbn [format].
    rewrite Z.div_add by (unfold msPerDay; lia). reflexivity.
Qed.

(** ** The fallback generator *)

Section Fallback.
Variables (destination travelStyle : string) (t : Z).

Lemma fallbackDay_ok (i : Z) :
  Z.abs (t + i * msPerDay) <= maxTime ->
  fallbackDay destination travelStyle (Some t) i
  = Ok (dayAt destination travelStyle t i).
Proof.
  intros H. unfold fallbackDay. rewrite format_addDays by exact H.
  reflexivity.
Qed.

Lemma pushDays_ok (count : nat) :
  forall (i : Z) (days : list TravelPlanDay),
    (forall j, i <= j < i + Z.of_nat count ->
               Z.abs (t + j * msPerDay) <= maxTime) ->
    pushDays destination travelStyle (Some t) count i days
    = Ok (days ++ map (dayAt destination travelStyle t) (Zrange i count))%list.
Proof.
  induction count as [|count IH]; intros i days H.
  - cbn. now rewrite app_nil_r.
  - cbn [pushDays Zrange map]. rewrite fallbackDay_ok by (apply H; lia).
    cbn [bind]. rewrite IH by (intros j Hj; apply H; lia).
    now rewrite <- app_assoc.
Qed.

Lemma createFallbackPlan_ok (n : Z) :
  (forall j, 0 <= j < n -> Z.abs (t + j * msPerDay) <= maxTime) ->
  createFallbackPlan destination (Num n) (Some t) travelStyle
  = Ok {| Plan.destination := destination;
          summary := fallbackSummary destination (Num n) travelStyle;
          days := map (dayAt destination travelStyle t)
                    (Zrange 0 (Z.to_nat n)) |}.
Proof.
  intros H. unfold createFallbackPlan. cbn [iterations].
  rewrite pushDays_ok by (intros j Hj; apply H; lia). reflexivity.
Qed.

End Fallback.

Lemma Zrange_length (count : nat) (i : Z) : length (Zrange i count) = count.
Proof.
  revert i. induction count as [|count IH]; intros i; cbn; [|rewrite IH];
    reflexivity.
Qed.


(** However the loop ends, it has pushed one entry per iteration. *)
Lemma pushDays_length (destination travelStyle : string) (startDate : Date)
  (count : nat) :
  forall (i : Z) (days days' : list TravelPlanDay),
    pushDays destination travelStyle startDate count i days = Ok days' ->
    length days' = (length days + count)%nat.
Proof.
  induction count as [|count IH]; intros i days days' H.
  - cbn in H. injection H as <-. lia.
  - cbn [pushDays] in H.
    destruct (fallbackDay destination travelStyle startDate i) as [d|e];
      cbn [bind] in H; [|discriminate].
    apply IH in H. rewrite H, length_app. cbn. lia.
Qed.

Lemma createFallbackPlan_length (destination travelStyle : string)
  (numberOfDays : number) (startDate : Date) (plan : TravelPlan) :
  createFallbackPlan destination numberOfDays startDate travelStyle = Ok plan ->
  length (days plan) = iterations numberOfDays.
Proof.
  unfold createFallbackPlan. intros H.
  destruct (pushDays destination travelStyle startDate
              (iterations numberOfDays) 0 []) as [ds|e] eqn:E;
    cbn [bind] in H; [|discriminate].
  injection H as <-. cbn [days]. apply pushDays_length in E. exact E.
Qed.

(** Inside the handler the fallback generator cannot throw: the loop runs
    only when both dates are valid, and then stays between them. *)
Lemma createFallbackPlan_in_handler (destination travelStyle from to : string) :
  exists days,
    createFallbackPlan destination
      (number_add (differenceInDays (new_Date to) (new_Date from)) (Num 1))
      (new_Date from) travelStyle
    = Ok {| Plan.destination := destination;
            summary :=
              fallbackSummary destination
                (number_add (differenceInDays (new_Date to) (new_Date from))
                   (Num 1)) travelStyle;
            days := days |}
    /\ forall t d,
         new_Date from = Some t ->
         differenceInDays (new_Date to) (new_Date from) = Num d ->
         days = map (dayAt destination travelStyle t)
                  (Zrange 0 (Z.to_nat (d + 1))).
Proof.
  destruct (new_Date to) as [e|] eqn:Eto.
  2:{ exists []. split; [reflexivity|]. intros t d _ H. discriminate. }
  destruct (new_Date from) as [s|] eqn:Efrom.
  2:{ exists []. split; [reflexivity|]. intros t d H. discriminate. }
  destruct (differenceInDays (Some e) (Some s)) as [d|] eqn:Ed.
  2:{ discriminate. }
  cbn [number_add].
  exists (map (dayAt destination travelStyle s) (Zrange 0 (Z.to_nat (d + 1)))).
  split.
  - apply createFallbackPlan_ok. intros j Hj.
    apply new_Date_range in Eto, Efrom.
    destruct (Z.eq_dec j 0) as [->|Hj0]; [rewrite Z.add_0_r; lia|].
    pose proof (differenceInDays_bound e s d Ed ltac:(lia)) as Hb.
    unfold msPerDay, maxTime in *. lia.
  - intros t d' [= <-] [= <-]. reflexivity.
Qed.

(** ** The plan as JSON *)

Lemma prop_days (p : TravelPlan) :
  prop "days" (json_of_plan p) = Some (JArray (map json_of_day (days p))).
Proof. reflexivity. Qed.

Lemma prop_day (d : TravelPlanDay) :
  prop "day" (json_of_day d) = Some (JNumber (day d) 0).
Proof. reflexivity. Qed.

Lemma prop_activities (d : TravelPlanDay) :
  prop "activities" (json_of_day d)
  = Some (JArray (map json_of_activity (activities d))).
Proof. reflexivity. Qed.

Lemma prop_type (a : Activity) :
  prop "type" (json_of_activity a) = Some (JString (type_name (type a))).
Proof. reflexivity. Qed.

Lemma days_count_plan (p : TravelPlan) :
  days_count (json_of_plan p) = Some (Z.of_nat (length (days p))).
Proof. unfold days_count. rewrite prop_days, length_map. reflexivity. Qed.

Lemma number_is_integer (z : Z) : number_is z (JNumber z 0) = true.
Proof.
  unfold number_is. cbn [Z.leb Z.compare]. rewrite Z.pow_0_r, Z.mul_1_r.
  apply Z.eqb_refl.
Qed.

(** A typed activity always carries one of the four enumerated types. *)
Lemma activities_typed_day (d : TravelPlanDay) :
  activities_typed (json_of_day d) = true.
Proof.
  unfold activities_typed. rewrite prop_activities.
  induction (activities d) as [|a l IH]; [reflexivity|].
  cbn [map forallb]. rewrite prop_type, IH.
  destruct (type a); reflexivity.
Qed.

Lemma days_numbered_fallback (destination travelStyle : string) (t : Z)
  (count : nat) :
  forall i,
    days_numbered (i + 1)
      (map json_of_day (map (dayAt destination travelStyle t) (Zrange i count)))
    = true.
Proof.
  induction count as [|count IH]; intros i; [reflexivity|].
  cbn [Zrange map days_numbered]. rewrite prop_day. cbn [day dayAt].
  rewrite number_is_integer, IH. reflexivity.
Qed.

Lemma valid_itinerary_fallback (destination travelStyle : string)
  (plan : TravelPlan) (t n : Z) :
  0 <= n ->
  days plan
  = map (dayAt destination travelStyle t) (Zrange 0 (Z.to_nat n)) ->
  valid_itinerary n (json_of_plan plan) = true.
Proof.
  intros Hn Hdays. unfold valid_itinerary. rewrite prop_days, Hdays.
  rewrite !length_map, Zrange_length, Z2Nat.id by exact Hn.
  rewrite Z.eqb_refl.
  pose proof (days_numbered_fallback destination travelStyle t (Z.to_nat n) 0)
    as Hnum.
  cbn [Z.add] in Hnum. rewrite Hnum.
  cbn [andb]. apply forallb_forall. intros x Hx.
  apply in_map_iff in Hx. destruct Hx as [d [<- _]].
  apply activities_typed_day.
Qed.

(** ** The pattern match *)

Lemma upto_last_close_lacks (s : string) :
  lacks "}" s = true -> upto_last_close s = None.
Proof.
  induction s as [|c r IH]; [reflexivity|].
  cbn [lacks upto_last_close]. intros H. apply andb_prop in H.
  destruct H as [Hc Hr]. rewrite (IH Hr).
  destruct (c =? "}")%char; [discriminate | reflexivity].
Qed.

Lemma upto_last_close_app (mid post : string) :
  lacks "}" post = true ->
  upto_last_close (mid ++ "}" ++ post) = Some (mid ++ "}").
Proof.
  intros H. induction mid as [|c r IH].
  - cbn [append upto_last_close]. rewrite (upto_last_close_lacks post H).
    reflexivity.
  - cbn [append upto_last_close] in *. rewrite IH. reflexivity.
Qed.

(** The match is the text from the first opening brace to the last closing
    brace. *)
Lemma match_braces_span (pre mid post : string) :
  lacks "{" pre = true -> lacks "}" post = true ->
  match_braces (pre ++ "{" ++ mid ++ "}" ++ post) = Some ("{" ++ mid ++ "}").
Proof.
  intros Hpre Hpost. induction pre as [|c r IH].
  - cbn [append match_braces]. change ("{" =? "{")%char with true.
    cbv iota. change (String "}" post) with ("}" ++ post).
    rewrite (upto_last_close_app mid post Hpost). reflexivity.
  - cbn [lacks] in Hpre. apply andb_prop in Hpre. destruct Hpre as [Hc Hr].
    cbn [append match_braces]. apply negb_true_iff in Hc. rewrite Hc.
    exact (IH Hr).
Qed.

Lemma match_braces_no_open (text : string) :
  lacks "{" text = true -> match_braces text = None.
Proof.
  induction text as [|c r IH]; [reflexivity|].
  cbn [lacks match_braces]. intros H. apply andb_prop in H.
  destruct H as [Hc Hr]. apply negb_true_iff in Hc. rewrite Hc. exact (IH Hr).
Qed.

Lemma upto_last_close_inv (s p : string) :
  upto_last_close s = Some p ->
  exists mid post, s = mid ++ "}" ++ post /\ p = mid ++ "}"
                   /\ lacks "}" post = true.
Proof.
  revert p. induction s as [|c r IH]; intros p H; [discriminate|].
  cbn [upto_last_close] in H.
  destruct (upto_last_close r) as [p'|] eqn:E.
  - injection H as <-. destruct (IH p' eq_refl) as [mid [post [-> [-> Hp]]]].
    exists (String c mid), post. repeat split. exact Hp.
  - destruct (c =? "}")%char eqn:Ec; [|discriminate].
    injection H as <-. apply Ascii.eqb_eq in Ec. subst c.
    exists "", r. repeat split.
    clear IH. induction r as [|c r IH]; [reflexivity|].
    cbn [upto_last_close] in E.
    destruct (upto_last_close r); [discriminate|].
    destruct (c =? "}")%char eqn:Ec; [discriminate|].
    cbn [lacks]. rewrite Ec. exact (IH eq_refl).
Qed.

(** Conversely, a match always has that form. *)
Lemma match_braces_inv (text span : string) :
  match_braces text = Some span ->
  exists pre mid post,
    text = pre ++ "{" ++ mid ++ "}" ++ post
    /\ span = "{" ++ mid ++ "}"
    /\ lacks "{" pre = true
    /\ lacks "}" post = true.
Proof.
  induction text as [|c r IH]; intros H; [discriminate|].
  cbn [match_braces] in H. destruct (c =? "{")%char eqn:Ec.
  - apply Ascii.eqb_eq in Ec. subst c.
    destruct (upto_last_close r) as [p|] eqn:E; [|discriminate].
    injection H as <-.
    destruct (upto_last_close_inv r p E) as [mid [post [-> [-> Hp]]]].
    exists "", mid, post. repeat split. exact Hp.
  - destruct (IH H) as [pre [mid [post [-> [-> [Hpre Hpost]]]]]].
    exists (String c pre), mid, post. repeat split; [|exact Hpost].
    cbn [lacks]. rewrite Ec. exact Hpre.
Qed.

(** ** The plan-generation handler *)

Section Synthesis.
Variables (env : Env) (request : Request TripRequest)
  (completion : Fetched ChatCompletion).
Variables (r : TripRequest) (range : DateRange) (data : ChatCompletion)
  (content : option string).
Hypothesis Hbody : json_body request = Some r.
Hypothesis Hrange : dateRange r = Some range.
Hypothesis Hkey : unset (DEEPSEEK_API_KEY env) = false.
Hypothesis Hcompletion : completion = Responded true (Some data).
Hypothesis Hcontent : first_content data = Ok content.

Lemma handle_completed :
  handle env request completion
  = (travelPlan <- try_catch (extractPlan content)
       (fun _ =>
          plan <- createFallbackPlan (destination r) (requestedDays range)
                    (new_Date (from range)) (travelStyle r) ;;
          Ok (json_of_plan plan)) ;;
     Ok (NextResponse_json travelPlan 200)).
Proof.
  unfold handle, request_json. rewrite Hbody. cbn [bind]. rewrite Hrange.
  cbn [bind]. rewrite Hkey, Hcompletion. cbn [negb response_json bind].
  rewrite Hcontent. reflexivity.
Qed.

Lemma POST_parsed (v : json) :
  extractPlan content = Ok v ->
  POST env request completion = NextResponse_json v 200.
Proof.
  intros H. unfold POST. rewrite handle_completed, H. reflexivity.
Qed.

Lemma POST_fallback (e : exn) :
  extractPlan content = Throw e ->
  exists plan,
    createFallbackPlan (destination r) (requestedDays range) (new_Date (from range))
      (travelStyle r) = Ok plan
    /\ POST env request completion = NextResponse_json (json_of_plan plan) 200
    /\ forall t d,
         new_Date (from range) = Some t ->
         differenceInDays (new_Date (to range)) (new_Date (from range)) = Num d ->
         days plan = map (dayAt (destination r) (travelStyle r) t)
                       (Zrange 0 (Z.to_nat (d + 1))).
Proof.
  intros H.
  destruct (createFallbackPlan_in_handler (destination r) (travelStyle r)
              (from range) (to range)) as [ds [Hplan Hdays]].
  eexists. split; [exact Hplan|]. split.
  - unfold POST. rewrite handle_completed, H. cbn [try_catch].
    unfold requestedDays. rewrite Hplan. reflexivity.
  - exact Hdays.
Qed.

End Synthesis.

(** Runs the handler along the equations at hand and closes a goal that
    states its answer. *)
Ltac run_handler :=
  unfold POST, handle, request_json;
  repeat (match goal with
          | H : ?x = _ |- context [?x] => rewrite H
          end;
          cbn [bind negb response_json]);
  reflexivity.

(** Every run of the handler ends in one of three ways: the error object,
    the parsed model output, or the fallback plan. *)
Lemma POST_outcomes (env : Env) (request : Request TripRequest)
  (completion : Fetched ChatCompletion) :
  POST env request completion = NextResponse_json errorBody 500
  \/ (exists text span v,
        match_braces text = Some span /\ JSON_parse span = Ok v
        /\ POST env request completion = NextResponse_json v 200)
  \/ (exists r range plan,
        json_body request = Some r /\ dateRange r = Some range
        /\ createFallbackPlan (destination r) (requestedDays range)
             (new_Date (from range)) (travelStyle r) = Ok plan
        /\ POST env request completion
           = NextResponse_json (json_of_plan plan) 200).
Proof.
  destruct (json_body request) as [r|] eqn:Hbody; [|left; run_handler].
  destruct (dateRange r) as [range|] eqn:Hrange; [|left; run_handler].
  destruct (unset (DEEPSEEK_API_KEY env)) eqn:Hkey; [left; run_handler|].
  destruct completion as [|[|] [data|]]; try (left; run_handler).
  destruct (first_content data) as [content|e] eqn:Hcontent;
    [|left; run_handler].
  destruct (extractPlan content) as [v|e] eqn:Hextract.
  - right. left. destruct content as [text|]; [|discriminate].
    cbn [extractPlan] in Hextract.
    destruct (match_braces text) as [span|] eqn:Hspan; [|discriminate].
    exists text, span, v. repeat split; try assumption.
    apply (POST_parsed env request _ r range data (Some text));
      try assumption; try reflexivity.
    cbn [extractPlan]. rewrite Hspan. exact Hextract.
  - right. right.
    destruct (POST_fallback env request _ r range data content
                Hbody Hrange Hkey eq_refl Hcontent e Hextract)
      as [plan [Hplan [Hpost _]]].
    exists r, range, plan. repeat split; assumption.
Qed.

(** ** C1: what the synthesis endpoint returns for a request with start <= end *)

(** C1 as stated fails.  Kyoto, 2024-05-01 to 2024-05-03 (start <= end, three
    days), the completion endpoint answering with the parseable text
    [{"days":[]}]: the handler returns that object with status 200, and its
    days sequence is empty, not of length 3. *)
Lemma C1_counterexample :
  differenceInDays (new_Date "2024-05-03") (new_Date "2024-05-01") = Num 2
  /\ POST Scenario.configured Scenario.kyoto
       (Scenario.completed (dq "{'days':[]}"))
     = NextResponse_json (JObject [("days", JArray [])]) 200
  /\ valid_itinerary 3
       (body (POST Scenario.configured Scenario.kyoto
                (Scenario.completed (dq "{'days':[]}")))) = false.
Proof. repeat split; vm_compute; reflexivity. Qed.

(** C1 (amended): for every trip request with start <= end, whenever the
    completion text yields no parsed object (no brace span, or a span that
    does not parse) the handler answers with status 200 and an itinerary
    that is structurally valid: N = differenceInDays(end, start) + 1 days,
    numbered 1..N in order, every activity of one of the four enumerated
    types. *)
Theorem C1_fallback_itinerary_valid (env : Env)
  (request : Request TripRequest) (completion : Fetched ChatCompletion)
  (r : TripRequest) (range : DateRange) (data : ChatCompletion)
  (content : option string) (e : exn) (tripStart tripEnd : Z) :
  json_body request = Some r ->
  dateRange r = Some range ->
  new_Date (from range) = Some tripStart ->
  new_Date (to range) = Some tripEnd ->
  tripStart <= tripEnd ->
  unset (DEEPSEEK_API_KEY env) = false ->
  completion = Responded true (Some data) ->
  first_content data = Ok content ->
  extractPlan content = Throw e ->
  exists d,
    differenceInDays (Some tripEnd) (Some tripStart) = Num d
    /\ 0 <= d
    /\ status (POST env request completion) = 200
    /\ valid_itinerary (d + 1) (body (POST env request completion)) = true.
Proof.
  intros Hbody Hrange Hfrom Hto Hle Hkey Hcompletion Hcontent Hextract.
  destruct (differenceInDays_nonneg tripEnd tripStart Hle) as [d [Hd Hpos]].
  exists d. split; [exact Hd|]. split; [exact Hpos|].
  destruct (POST_fallback env request completion r range data content
              Hbody Hrange Hkey Hcompletion Hcontent e Hextract)
    as [plan [_ [-> Hdays]]].
  split; [reflexivity|]. cbn [body NextResponse_json].
  apply (valid_itinerary_fallback (destination r) (travelStyle r) plan
           tripStart); [lia|].
  apply Hdays; [exact Hfrom|]. rewrite Hfrom, Hto. exact Hd.
Qed.

Lemma C1_fallback_itinerary_valid_witness :
  exists d,
    differenceInDays (Some 1714694400000) (Some 1714521600000) = Num d
    /\ 0 <= d
    /\ status (POST Scenario.configured Scenario.kyoto
                 (Scenario.completed "I cannot plan this trip.")) = 200
    /\ valid_itinerary (d + 1)
         (body (POST Scenario.configured Scenario.kyoto
                  (Scenario.completed "I cannot plan this trip."))) = true.
Proof.
  apply (C1_fallback_itinerary_valid Scenario.configured Scenario.kyoto
           (Scenario.completed "I cannot plan this trip.")
           Scenario.kyotoTrip Scenario.kyotoRange
           (Scenario.completionOf "I cannot plan this trip.")
           (Some "I cannot plan this trip.")
           (Error "No JSON found in response")
           1714521600000 1714694400000);
    solve [reflexivity | lia].
Defined.

(** ** C2: missing credential, failed completion request *)

(** C2 as stated fails.  Without the credential, and likewise when the
    request to the completion endpoint is rejected or answered with a
    non-success status, the Kyoto request gets the error object with status
    500, although the fallback generator would produce a plan. *)
Lemma C2_counterexample :
  unset (DEEPSEEK_API_KEY Scenario.unconfigured) = true
  /\ (exists plan,
        createFallbackPlan "京都" (Num 3) (new_Date "2024-05-01") "観光"
        = Ok plan)
  /\ POST Scenario.unconfigured Scenario.kyoto
       (Scenario.completed Scenario.twoDays)
     = NextResponse_json errorBody 500
  /\ POST Scenario.configured Scenario.kyoto Rejected
     = NextResponse_json errorBody 500
  /\ POST Scenario.configured Scenario.kyoto (Responded false None)
     = NextResponse_json errorBody 500
  /\ forall plan,
       POST Scenario.unconfigured Scenario.kyoto
         (Scenario.completed Scenario.twoDays)
       <> NextResponse_json (json_of_plan plan) 200.
Proof.
  split; [reflexivity|]. split; [eexists; vm_compute; reflexivity|].
  split; [reflexivity|]. split; [reflexivity|]. split; [reflexivity|].
  intros plan H. discriminate H.
Qed.

(** C2 (amended): if the completion-endpoint credential is missing, or the
    completion request fails with a network error or a non-success response,
    the handler returns the error object
    [{"error": "Failed to generate travel plan"}] with status 500, for every
    request; the fallback plan is not returned on these paths. *)
Theorem C2_no_credential_or_transport_failure (env : Env)
  (request : Request TripRequest) (completion : Fetched ChatCompletion) :
  unset (DEEPSEEK_API_KEY env) = true
  \/ completion = Rejected
  \/ (exists payload, completion = Responded false payload) ->
  POST env request completion = NextResponse_json errorBody 500
  /\ forall plan,
       POST env request completion <> NextResponse_json (json_of_plan plan) 200.
Proof.
  intros H.
  assert (E : POST env request completion = NextResponse_json errorBody 500).
  { unfold POST, handle, request_json.
    destruct (json_body request) as [r|]; [|reflexivity]. cbn [bind].
    destruct (dateRange r) as [range|]; [|reflexivity]. cbn [bind].
    destruct H as [-> | [-> | [payload ->]]].
    - reflexivity.
    - destruct (unset (DEEPSEEK_API_KEY env)); reflexivity.
    - destruct (unset (DEEPSEEK_API_KEY env)); [reflexivity|].
      cbn [negb]. destruct payload; reflexivity. }
  split; [exact E|]. intros plan. rewrite E. discriminate.
Qed.

Lemma C2_no_credential_or_transport_failure_witness :
  POST Scenario.unconfigured Scenario.kyoto
    (Scenario.completed Scenario.twoDays)
  = NextResponse_json errorBody 500
  /\ forall plan,
       POST Scenario.unconfigured Scenario.kyoto
         (Scenario.completed Scenario.twoDays)
       <> NextResponse_json (json_of_plan plan) 200.
Proof.
  apply (C2_no_credential_or_transport_failure Scenario.unconfigured
           Scenario.kyoto (Scenario.completed Scenario.twoDays)).
  left. reflexivity.
Defined.

(** ** C3: a model plan with the wrong number of days *)

(** C3 as stated fails.  The Kyoto request asks for three days; the
    completion endpoint answers with a well-formed plan of two days.  The
    handler returns that two-day plan, not the three-day fallback. *)
Lemma C3_counterexample :
  requestedDays Scenario.kyotoRange = Num 3
  /\ JSON_parse Scenario.twoDays = Ok Scenario.twoDaysPlan
  /\ days_count Scenario.twoDaysPlan = Some 2
  /\ POST Scenario.configured Scenario.kyoto
       (Scenario.completed Scenario.twoDays)
     = NextResponse_json Scenario.twoDaysPlan 200
  /\ exists plan,
       createFallbackPlan "京都" (Num 3) (new_Date "2024-05-01") "観光"
       = Ok plan
       /\ length (days plan) = 3%nat
       /\ POST Scenario.configured Scenario.kyoto
            (Scenario.completed Scenario.twoDays)
          <> NextResponse_json (json_of_plan plan) 200.
Proof.
  split; [reflexivity|]. split; [vm_compute; reflexivity|].
  split; [reflexivity|]. split; [vm_compute; reflexivity|].
  eexists. split; [vm_compute; reflexivity|]. split; [reflexivity|].
  intros H. vm_compute in H. discriminate H.
Qed.

(** C3 (amended): for every request of N days, if the completion text holds
    a brace span that parses, with a days sequence of a length different
    from N, the handler returns that parsed plan unchanged with status 200;
    the day count is not checked and the N-day fallback is not
    substituted. *)
Theorem C3_day_count_not_checked (env : Env)
  (request : Request TripRequest) (completion : Fetched ChatCompletion)
  (r : TripRequest) (range : DateRange) (data : ChatCompletion)
  (text span : string) (v : json) (n k : Z) :
  json_body request = Some r ->
  dateRange r = Some range ->
  unset (DEEPSEEK_API_KEY env) = false ->
  completion = Responded true (Some data) ->
  first_content data = Ok (Some text) ->
  requestedDays range = Num n ->
  1 <= n ->
  match_braces text = Some span ->
  JSON_parse span = Ok v ->
  days_count v = Some k ->
  k <> n ->
  POST env request completion = NextResponse_json v 200
  /\ forall plan,
       createFallbackPlan (destination r) (requestedDays range)
         (new_Date (from range)) (travelStyle r) = Ok plan ->
       v <> json_of_plan plan.
Proof.
  intros Hbody Hrange Hkey Hcompletion Hcontent Hn Hpos Hspan Hparse Hk Hne.
  split.
  - apply (POST_parsed env request completion r range data (Some text));
      try assumption.
    cbn [extractPlan]. rewrite Hspan. exact Hparse.
  - intros plan Hplan ->. rewrite days_count_plan in Hk.
    apply createFallbackPlan_length in Hplan. rewrite Hn in Hplan.
    cbn [iterations] in Hplan. injection Hk as Hk. lia.
Qed.

Lemma C3_day_count_not_checked_witness :
  POST Scenario.configured Scenario.kyoto
    (Scenario.completed Scenario.twoDays)
  = NextResponse_json Scenario.twoDaysPlan 200
  /\ forall plan,
       createFallbackPlan "京都" (requestedDays Scenario.kyotoRange)
         (new_Date "2024-05-01") "観光" = Ok plan ->
       Scenario.twoDaysPlan <> json_of_plan plan.
Proof.
  apply (C3_day_count_not_checked Scenario.configured Scenario.kyoto
           (Scenario.completed Scenario.twoDays)
           Scenario.kyotoTrip Scenario.kyotoRange
           (Scenario.completionOf Scenario.twoDays)
           Scenario.twoDays Scenario.twoDays Scenario.twoDaysPlan 3 2);
    solve [reflexivity | vm_compute; reflexivity | lia].
Defined.

(** ** C4: which span is extracted *)

(** C4 as stated fails, twice.  (1) In [{"a":1} {"b":2}] the first balanced
    span is [{"a":1}], which parses; the handler matches from the first
    opening brace to the last closing brace, the whole text, which does not
    parse, and answers with the fallback plan instead of the parsed object.
    (2) Prose that itself holds braces, followed by one well-formed object:
    the object is not returned. *)
Lemma C4_counterexample :
  (first_balanced_span (dq "{'a':1} {'b':2}") = Some (dq "{'a':1}")
   /\ JSON_parse (dq "{'a':1}") = Ok (JObject [("a", JNumber 1 0)])
   /\ match_braces (dq "{'a':1} {'b':2}") = Some (dq "{'a':1} {'b':2}")
   /\ JSON_parse (dq "{'a':1} {'b':2}") = Throw SyntaxError
   /\ POST Scenario.configured Scenario.kyoto
        (Scenario.completed (dq "{'a':1} {'b':2}"))
      <> NextResponse_json (JObject [("a", JNumber 1 0)]) 200)
  /\ (JSON_parse Scenario.twoDays = Ok Scenario.twoDaysPlan
      /\ POST Scenario.configured Scenario.kyoto
           (Scenario.completed ("Plan {draft}: " ++ Scenario.twoDays))
         <> NextResponse_json Scenario.twoDaysPlan 200).
Proof.
  split.
  - repeat split; try (vm_compute; reflexivity).
    intros H. vm_compute in H. discriminate H.
  - split; [vm_compute; reflexivity|].
    intros H. vm_compute in H. discriminate H.
Qed.

(** C4 (amended): on a successful completion response the handler extracts
    the span from the first opening brace to the last closing brace of the
    response text and, when that span parses, returns the parsed plan
    unchanged with status 200; in particular, for a response consisting of
    prose without braces followed by one well-formed JSON object ([post]
    empty), the embedded object is returned exactly, ignoring the prose. *)
Theorem C4_span_first_to_last_brace (env : Env)
  (request : Request TripRequest) (completion : Fetched ChatCompletion)
  (r : TripRequest) (range : DateRange) (data : ChatCompletion)
  (pre mid post : string) (v : json) :
  json_body request = Some r ->
  dateRange r = Some range ->
  unset (DEEPSEEK_API_KEY env) = false ->
  completion = Responded true (Some data) ->
  first_content data = Ok (Some (pre ++ "{" ++ mid ++ "}" ++ post)) ->
  lacks "{" pre = true ->
  lacks "}" post = true ->
  JSON_parse ("{" ++ mid ++ "}") = Ok v ->
  match_braces (pre ++ "{" ++ mid ++ "}" ++ post) = Some ("{" ++ mid ++ "}")
  /\ POST env request completion = NextResponse_json v 200.
Proof.
  intros Hbody Hrange Hkey Hcompletion Hcontent Hpre Hpost Hparse.
  pose proof (match_braces_span pre mid post Hpre Hpost) as Hspan.
  split; [exact Hspan|].
  apply (POST_parsed env request completion r range data
           (Some (pre ++ "{" ++ mid ++ "}" ++ post))); try assumption.
  cbn [extractPlan]. rewrite Hspan. exact Hparse.
Qed.

Lemma C4_span_first_to_last_brace_witness :
  match_braces ("Here you go: " ++ "{" ++ Scenario.twoDaysInner ++ "}" ++ "")
  = Some ("{" ++ Scenario.twoDaysInner ++ "}")
  /\ POST Scenario.configured Scenario.kyoto
       (Scenario.completed
          ("Here you go: " ++ "{" ++ Scenario.twoDaysInner ++ "}" ++ ""))
     = NextResponse_json Scenario.twoDaysPlan 200.
Proof.
  apply (C4_span_first_to_last_brace Scenario.configured Scenario.kyoto
           (Scenario.completed
              ("Here you go: " ++ "{" ++ Scenario.twoDaysInner ++ "}" ++ ""))
           Scenario.kyotoTrip Scenario.kyotoRange
           (Scenario.completionOf
              ("Here you go: " ++ "{" ++ Scenario.twoDaysInner ++ "}" ++ ""))
           "Here you go: " Scenario.twoDaysInner "" Scenario.twoDaysPlan);
    solve [reflexivity | vm_compute; reflexivity].
Defined.

(** ** C5: no JSON object in the completion text *)

(** C5: if the completion endpoint responds successfully but its text holds
    no brace span, or the extracted span fails to parse, the handler returns
    the fallback plan for the requested parameters with status 200, not an
    error. *)
Theorem C5_no_json_gives_fallback (env : Env)
  (request : Request TripRequest) (completion : Fetched ChatCompletion)
  (r : TripRequest) (range : DateRange) (data : ChatCompletion)
  (text : string) :
  json_body request = Some r ->
  dateRange r = Some range ->
  unset (DEEPSEEK_API_KEY env) = false ->
  completion = Responded true (Some data) ->
  first_content data = Ok (Some text) ->
  match_braces text = None
  \/ (exists span e, match_braces text = Some span
                     /\ JSON_parse span = Throw e) ->
  exists plan,
    createFallbackPlan (destination r) (requestedDays range)
      (new_Date (from range)) (travelStyle r) = Ok plan
    /\ POST env request completion = NextResponse_json (json_of_plan plan) 200.
Proof.
  intros Hbody Hrange Hkey Hcompletion Hcontent Hno.
  assert (Hextract : exists e, extractPlan (Some text) = Throw e).
  { cbn [extractPlan]. destruct Hno as [-> | [span [e [-> He]]]].
    - eexists. reflexivity.
    - exists e. exact He. }
  destruct Hextract as [e He].
  destruct (POST_fallback env request completion r range data (Some text)
              Hbody Hrange Hkey Hcompletion Hcontent e He)
    as [plan [Hplan [Hpost _]]].
  exists plan. split; assumption.
Qed.

Lemma C5_no_json_gives_fallback_witness :
  exists plan,
    createFallbackPlan "京都" (requestedDays Scenario.kyotoRange)
      (new_Date "2024-05-01") "観光" = Ok plan
    /\ POST Scenario.configured Scenario.kyoto
         (Scenario.completed "I cannot plan this trip.")
       = NextResponse_json (json_of_plan plan) 200.
Proof.
  apply (C5_no_json_gives_fallback Scenario.configured Scenario.kyoto
           (Scenario.completed "I cannot plan this trip.")
           Scenario.kyotoTrip Scenario.kyotoRange
           (Scenario.completionOf "I cannot plan this trip.")
           "I cannot plan this trip."); try reflexivity.
  left. reflexivity.
Defined.

(** ** C6: the shape of the fallback plan *)



(** The scenario of the specification: three days, six activities each, the
    second day dated 2024-05-02 (here with the generator called directly). *)
Example fallback_kyoto :
  exists plan,
    createFallbackPlan "京都" (Num 3) (new_Date "2024-05-01") "観光" = Ok plan
    /\ map day (days plan) = [1; 2; 3]
    /\ map date (days plan) = ["2024-05-01"; "2024-05-02"; "2024-05-03"]
    /\ map (fun d => length (activities d)) (days plan) = [6; 6; 6]%nat.
Proof. eexists. repeat split. Qed.

(** ** The generator in the running process *)

Lemma update_last (objects : list Date) (old tv : Date) :
  Runtime.update (length objects) tv (objects ++ [old])%list
  = (objects ++ [tv])%list.
Proof.
  induction objects as [|d rest IH]; cbn; [reflexivity|]. now rewrite IH.
Qed.

Lemma timeValue_old (w : Runtime.World) (extra : list Date)
  (r : Runtime.DateRef) :
  (r < length (Runtime.dates w))%nat ->
  Runtime.timeValue (Runtime.with_dates w (Runtime.dates w ++ extra)%list) r
  = Runtime.timeValue w r.
Proof.
  intros H. unfold Runtime.timeValue. cbn. now apply app_nth1.
Qed.

Lemma timeValue_new (w : Runtime.World) (tv : Date) :
  Runtime.timeValue (Runtime.with_dates w (Runtime.dates w ++ [tv])%list)
    (length (Runtime.dates w))
  = tv.
Proof.
  unfold Runtime.timeValue. cbn. rewrite app_nth2 by lia.
  now rewrite Nat.sub_diag.
Qed.

(** [addDays] allocates one object, the result, and touches no other. *)
Lemma addDays_run (w : Runtime.World) (date : Runtime.DateRef) (amount : Z) :
  Runtime.addDays date amount w
  = (Ok (length (Runtime.dates w)),
     Runtime.with_dates w
       (Runtime.dates w
        ++ [addDaysIn (Runtime.zone w) (Runtime.timeValue w date) amount])%list).
Proof.
  unfold Runtime.addDays, Runtime.toDate, Runtime.bindM, Runtime.getTime,
    Runtime.newDate, addDaysIn.
  destruct (amount =? 0); [reflexivity|].
  unfold Runtime.getDate, Runtime.setDate.
  destruct (Runtime.timeValue w date) as [t|].
  2:{ rewrite timeValue_new. cbn [number_add]. rewrite timeValue_new.
      reflexivity. }
  rewrite timeValue_new. cbn [Runtime.zone Runtime.with_dates].
  destruct (civil_from_days (Runtime.LocalTime (Runtime.zone w) t / msPerDay))
    as [[y m] d] eqn:E.
  cbn [number_add]. rewrite timeValue_new.
  cbn [Runtime.zone Runtime.with_dates]. rewrite E.
  unfold Runtime.store, Runtime.ret. cbn [Runtime.dates Runtime.with_dates].
  rewrite update_last. reflexivity.
Qed.

(** [format] allocates one object and touches no other. *)
Lemma format_run (w : Runtime.World) (date : Runtime.DateRef) :
  Runtime.format date w
  = (formatIn (Runtime.zone w) (Runtime.timeValue w date),
     Runtime.with_dates w
       (Runtime.dates w ++ [Runtime.timeValue w date])%list).
Proof.
  unfold Runtime.format, Runtime.toDate, Runtime.bindM, Runtime.getTime,
    Runtime.newDate, formatIn.
  rewrite timeValue_new.
  destruct (Runtime.timeValue w date) as [t|]; reflexivity.
Qed.

Lemma fallbackDay_run (w : Runtime.World) (destination travelStyle : string)
  (startDate : Runtime.DateRef) (i : Z) :
  exists extra,
    Runtime.fallbackDay destination travelStyle startDate i w
    = (fallbackDayIn (Runtime.zone w) destination travelStyle
         (Runtime.timeValue w startDate) i,
       Runtime.with_dates w (Runtime.dates w ++ extra)%list).
Proof.
  unfold Runtime.fallbackDay, Runtime.bindM, fallbackDayIn.
  rewrite addDays_run, format_run, timeValue_new.
  cbn [Runtime.zone Runtime.with_dates Runtime.dates].
  set (tv := addDaysIn (Runtime.zone w) (Runtime.timeValue w startDate) i).
  exists [tv; tv].
  destruct (formatIn (Runtime.zone w) tv) as [s|e]; cbn [bind];
    unfold Runtime.ret, Runtime.with_dates; cbn;
    rewrite <- app_assoc; reflexivity.
Qed.

Lemma with_dates_nil (w : Runtime.World) :
  Runtime.with_dates w (Runtime.dates w ++ [])%list = w.
Proof. destruct w. unfold Runtime.with_dates. cbn. now rewrite app_nil_r. Qed.

Lemma pushDays_run (destination travelStyle : string)
  (startDate : Runtime.DateRef) (count : nat) :
  forall (w : Runtime.World) (i : Z) (days : list TravelPlanDay),
    (startDate < length (Runtime.dates w))%nat ->
    exists extra,
      Runtime.pushDays destination travelStyle startDate count i days w
      = (pushDaysIn (Runtime.zone w) destination travelStyle
           (Runtime.timeValue w startDate) count i days,
         Runtime.with_dates w (Runtime.dates w ++ extra)%list).
Proof.
  induction count as [|count IH]; intros w i days Hvalid.
  - exists []. cbn. unfold Runtime.ret. now rewrite with_dates_nil.
  - cbn [Runtime.pushDays pushDaysIn]. unfold Runtime.bindM.
    destruct (fallbackDay_run w destination travelStyle startDate i)
      as [extra ->].
    destruct (fallbackDayIn (Runtime.zone w) destination travelStyle
                (Runtime.timeValue w startDate) i) as [d|e]; cbn [bind].
    + destruct (IH (Runtime.with_dates w (Runtime.dates w ++ extra)%list)
                  (i + 1) (days ++ [d])%list) as [extra' ->].
      { cbn. rewrite length_app. lia. }
      rewrite timeValue_old by exact Hvalid.
      cbn [Runtime.zone Runtime.with_dates Runtime.dates].
      exists (extra ++ extra')%list. unfold Runtime.with_dates. cbn.
      now rewrite app_assoc.
    + exists extra. reflexivity.
Qed.

(** The outcome of [createFallbackPlan] is a function of the zone and of
    the time value of the start date; the run allocates [Date] objects and
    changes nothing else. *)
Lemma createFallbackPlan_run (destination travelStyle : string)
  (numberOfDays : number) (startDate : Runtime.DateRef) (w : Runtime.World) :
  (startDate < length (Runtime.dates w))%nat ->
  exists extra,
    Runtime.createFallbackPlan destination numberOfDays startDate travelStyle w
    = (createFallbackPlanIn (Runtime.zone w) destination numberOfDays
         (Runtime.timeValue w startDate) travelStyle,
       Runtime.with_dates w (Runtime.dates w ++ extra)%list).
Proof.
  intros Hvalid. unfold Runtime.createFallbackPlan, Runtime.bindM,
    createFallbackPlanIn.
  destruct (pushDays_run destination travelStyle startDate
              (iterations numberOfDays) w 0 [] Hvalid) as [extra ->].
  exists extra.
  destruct (pushDaysIn (Runtime.zone w) destination travelStyle
              (Runtime.timeValue w startDate) (iterations numberOfDays) 0 []);
    reflexivity.
Qed.

(** ** C9: determinism of the fallback generator *)

(** C9 as stated fails.  Two server processes that differ in their time
    zone only, the same four arguments (Kyoto, one day, the [Date]
    2024-05-01T00:00:00Z, sightseeing): in UTC the day of the plan is dated
    2024-05-01, seven hours behind UTC it is dated 2024-04-30. *)
Lemma C9_counterexample :
  Runtime.timeValue Scenario3.inUTC 0%nat
  = Runtime.timeValue Scenario3.inPacificTime 0%nat
  /\ fst (Runtime.createFallbackPlan "京都" (Num 1) 0%nat "観光"
            Scenario3.inUTC)
     = createFallbackPlan "京都" (Num 1) (new_Date "2024-05-01") "観光"
  /\ fst (Runtime.createFallbackPlan "京都" (Num 1) 0%nat "観光"
            Scenario3.inPacificTime)
     = createFallbackPlan "京都" (Num 1) (new_Date "2024-04-30") "観光"
  /\ fst (Runtime.createFallbackPlan "京都" (Num 1) 0%nat "観光"
            Scenario3.inUTC)
     <> fst (Runtime.createFallbackPlan "京都" (Num 1) 0%nat "観光"
               Scenario3.inPacificTime).
Proof.
  split; [reflexivity|]. split; [vm_compute; reflexivity|].
  split; [vm_compute; reflexivity|].
  vm_compute. intros H. discriminate H.
Qed.

(** C9 (amended): createFallbackPlan is deterministic given its arguments
    and the time zone of the server process.  Two invocations with
    identical destination, numberOfDays and travelStyle and with start
    dates of the same time value, in processes of the same time zone,
    return equal itineraries (or throw the same error), whatever the clock,
    the random source, the environment and the other [Date] objects are;
    and since an invocation leaves its start date and the time zone as they
    were, the same invocation repeated afterwards returns the same
    itinerary again. *)
Theorem C9_createFallbackPlan_deterministic
  (destination travelStyle : string) (numberOfDays : number)
  (startDate startDate' : Runtime.DateRef) (w w' : Runtime.World) :
  (startDate < length (Runtime.dates w))%nat ->
  (startDate' < length (Runtime.dates w'))%nat ->
  Runtime.timeValue w startDate = Runtime.timeValue w' startDate' ->
  Runtime.zone w = Runtime.zone w' ->
  fst (Runtime.createFallbackPlan destination numberOfDays startDate
         travelStyle w)
  = fst (Runtime.createFallbackPlan destination numberOfDays startDate'
           travelStyle w')
  /\ fst (Runtime.createFallbackPlan destination numberOfDays startDate
            travelStyle
            (snd (Runtime.createFallbackPlan destination numberOfDays
                    startDate travelStyle w)))
     = fst (Runtime.createFallbackPlan destination numberOfDays startDate
              travelStyle w)
  /\ Runtime.timeValue
       (snd (Runtime.createFallbackPlan destination numberOfDays startDate
               travelStyle w)) startDate
     = Runtime.timeValue w startDate.
Proof.
  intros Hvalid Hvalid' Htv Hzone.
  destruct (createFallbackPlan_run destination travelStyle numberOfDays
              startDate w Hvalid) as [extra E].
  destruct (createFallbackPlan_run destination travelStyle numberOfDays
              startDate' w' Hvalid') as [extra' E'].
  rewrite E, E'. cbn [fst snd]. split; [|split].
  - rewrite Htv, Hzone. reflexivity.
  - destruct (createFallbackPlan_run destination travelStyle numberOfDays
                startDate
                (Runtime.with_dates w (Runtime.dates w ++ extra)%list))
      as [extra2 ->].
    { cbn. rewrite length_app. lia. }
    cbn [fst]. rewrite timeValue_old by exact Hvalid. reflexivity.
  - apply timeValue_old, Hvalid.
Qed.

Lemma C9_createFallbackPlan_deterministic_witness :
  fst (Runtime.createFallbackPlan "京都" (Num 3) 0%nat "観光"
         Scenario3.inUTC)
  = fst (Runtime.createFallbackPlan "京都" (Num 3) 2%nat "観光"
           Scenario3.later).
Proof.
  apply (C9_createFallbackPlan_deterministic "京都" "観光" (Num 3)
           0%nat 2%nat Scenario3.inUTC Scenario3.later);
    solve [reflexivity | cbn; lia].
Defined.

(** ** C10: a request the handler cannot read *)

(** C10: for every inbound request whose body is not parseable JSON, or
    whose dateRange field is absent, the handler returns the error object
    [{"error": "Failed to generate travel plan"}] with status 500, whatever
    the environment and the completion endpoint; the body has no days and is
    no plan. *)
Theorem C10_unreadable_request (env : Env) (request : Request TripRequest)
  (completion : Fetched ChatCompletion) :
  json_body request = None
  \/ (exists r, json_body request = Some r /\ dateRange r = None) ->
  POST env request completion = NextResponse_json errorBody 500
  /\ prop "days" (body (POST env request completion)) = None
  /\ forall plan, body (POST env request completion) <> json_of_plan plan.
Proof.
  intros H.
  assert (E : POST env request completion = NextResponse_json errorBody 500).
  { unfold POST, handle, request_json.
    destruct H as [-> | [r [-> Hr]]]; [reflexivity|].
    cbn [bind]. rewrite Hr. reflexivity. }
  rewrite E. split; [reflexivity|]. split; [reflexivity|].
  intros plan. discriminate.
Qed.

Lemma C10_unreadable_request_witness :
  POST Scenario.configured {| json_body := None |}
    (Scenario.completed Scenario.twoDays)
  = NextResponse_json errorBody 500
  /\ prop "days"
       (body (POST Scenario.configured {| json_body := None |}
                (Scenario.completed Scenario.twoDays))) = None
  /\ forall plan,
       body (POST Scenario.configured {| json_body := None |}
               (Scenario.completed Scenario.twoDays))
       <> json_of_plan plan.
Proof.
  apply (C10_unreadable_request Scenario.configured {| json_body := None |}
           (Scenario.completed Scenario.twoDays)).
  left. reflexivity.
Defined.

(** ** The image route *)

(** Every run of the image handler ends in one of two ways. *)
Lemma get_images_cases (env : Env) (request : Request GetImages.ImageQuery)
  (search : string -> Fetched GetImages.SearchData) :
  (GetImages.POST env request search = GetImages.placeholderResponse
   /\ (json_body request = None
       \/ unset (GOOGLE_CUSTOM_SEARCH_API_KEY env) = true
       \/ unset (GOOGLE_CUSTOM_SEARCH_CX env) = true
       \/ exists q,
            json_body request = Some q
            /\ (search (GetImages.query q) = Rejected
                \/ (exists payload,
                      search (GetImages.query q) = Responded false payload)
                \/ search (GetImages.query q) = Responded true None
                \/ (exists data,
                      search (GetImages.query q) = Responded true (Some data)
                      /\ (GetImages.items data = None
                          \/ GetImages.items data = Some []))
                \/ has_lone_surrogate (GetImages.query q) = true)))
  \/ (exists q data first rest,
        json_body request = Some q
        /\ unset (GOOGLE_CUSTOM_SEARCH_API_KEY env) = false
        /\ unset (GOOGLE_CUSTOM_SEARCH_CX env) = false
        /\ has_lone_surrogate (GetImages.query q) = false
        /\ search (GetImages.query q) = Responded true (Some data)
        /\ GetImages.items data = Some (first :: rest)
        /\ GetImages.POST env request search
           = NextResponse_json
               {| GetImages.imageUrl := GetImages.link first |} 200).
Proof.
  unfold GetImages.POST, GetImages.handle, GetImages.buildSearchUrl,
    request_json.
  destruct (json_body request) as [q|] eqn:Eq; cbn [bind].
  2:{ left. split; [reflexivity | left; reflexivity]. }
  destruct (unset (GOOGLE_CUSTOM_SEARCH_API_KEY env)) eqn:Ek; cbn [orb].
  { left. split; [reflexivity | right; left; reflexivity]. }
  destruct (unset (GOOGLE_CUSTOM_SEARCH_CX env)) eqn:Ec.
  { left. split; [reflexivity | right; right; left; reflexivity]. }
  destruct (has_lone_surrogate (GetImages.query q)) eqn:Eu; cbn [bind].
  { left. split; [reflexivity|]. right; right; right. exists q.
    split; [reflexivity|]. do 4 right. exact Eu. }
  destruct (search (GetImages.query q)) as [|ok payload] eqn:Es.
  { left. split; [reflexivity|]. right; right; right. exists q.
    split; [reflexivity | left; exact Es]. }
  destruct ok; cbn [negb].
  2:{ left. split; [reflexivity|]. right; right; right. exists q.
      split; [reflexivity | right; left; exists payload; exact Es]. }
  destruct payload as [data|]; cbn [response_json bind].
  2:{ left. split; [reflexivity|]. right; right; right. exists q.
      split; [reflexivity | right; right; left; exact Es]. }
  destruct (GetImages.items data) as [[|first rest]|] eqn:Ei.
  - left. split; [reflexivity|]. right; right; right. exists q.
    split; [reflexivity|]. right; right; right; left. exists data.
    split; [exact Es | right; exact Ei].
  - right. exists q, data, first, rest. repeat split; assumption.
  - left. split; [reflexivity|]. right; right; right. exists q.
    split; [reflexivity|]. right; right; right; left. exists data.
    split; [exact Es | left; exact Ei].
Qed.

Lemma get_images_status (env : Env) (request : Request GetImages.ImageQuery)
  (search : string -> Fetched GetImages.SearchData) :
  status (GetImages.POST env request search) = 200.
Proof.
  destruct (get_images_cases env request search)
    as [[-> _] | [q [data [first [rest [_ [_ [_ [_ [_ [_ ->]]]]]]]]]]];
    reflexivity.
Qed.

(** In the failure cases the answer is the placeholder. *)
Lemma get_images_placeholder (env : Env)
  (request : Request GetImages.ImageQuery)
  (search : string -> Fetched GetImages.SearchData) :
  json_body request = None
  \/ unset (GOOGLE_CUSTOM_SEARCH_API_KEY env) = true
  \/ unset (GOOGLE_CUSTOM_SEARCH_CX env) = true
  \/ (exists q,
        json_body request = Some q
        /\ (search (GetImages.query q) = Rejected
            \/ (exists payload,
                  search (GetImages.query q) = Responded false payload)
            \/ search (GetImages.query q) = Responded true None
            \/ (exists data,
                  search (GetImages.query q) = Responded true (Some data)
                  /\ (GetImages.items data = None
                      \/ GetImages.items data = Some []))
            \/ has_lone_surrogate (GetImages.query q) = true)) ->
  GetImages.POST env request search = GetImages.placeholderResponse.
Proof.
  intros H.
  destruct (get_images_cases env request search)
    as [[E _] | [q [data [first [rest [Hq [Hk [Hc [Hu [Hs [Hi _]]]]]]]]]]];
    [exact E|].
  exfalso.
  destruct H as [H | [H | [H | [q' [Hq' H]]]]]; try congruence.
  rewrite Hq in Hq'. injection Hq' as <-.
  destruct H as [H | [[p H] | [H | [[d [H Hd]] | H]]]];
    try (rewrite Hs in H; discriminate H); try congruence.
  rewrite Hs in H. injection H as <-. rewrite Hi in Hd.
  destruct Hd; discriminate.
Qed.

(** With everything in place the answer carries the link of the first
    result. *)
Lemma get_images_first_link (env : Env)
  (request : Request GetImages.ImageQuery)
  (search : string -> Fetched GetImages.SearchData)
  (q : GetImages.ImageQuery) (data : GetImages.SearchData)
  (first : GetImages.SearchItem) (rest : list GetImages.SearchItem) :
  json_body request = Some q ->
  unset (GOOGLE_CUSTOM_SEARCH_API_KEY env) = false ->
  unset (GOOGLE_CUSTOM_SEARCH_CX env) = false ->
  has_lone_surrogate (GetImages.query q) = false ->
  search (GetImages.query q) = Responded true (Some data) ->
  GetImages.items data = Some (first :: rest) ->
  GetImages.POST env request search
  = NextResponse_json {| GetImages.imageUrl := GetImages.link first |} 200.
Proof.
  intros Hq Hk Hc Hu Hs Hi.
  unfold GetImages.POST, GetImages.handle, GetImages.buildSearchUrl,
    request_json.
  rewrite Hq. cbn [bind]. rewrite Hk, Hc. cbn [orb]. rewrite Hu.
  cbn [bind]. rewrite Hs. cbn [negb response_json bind]. rewrite Hi.
  reflexivity.
Qed.

(** The route, seen from the page: always a success response with a body. *)
Lemma served_responds (env : Env)
  (search : string -> Fetched GetImages.SearchData) (q : string) :
  Page.served env search q
  = Responded true
      (Some (body (GetImages.POST env
                     {| json_body := Some {| GetImages.query := q |} |}
                     search))).
Proof.
  unfold Page.served. rewrite get_images_status. reflexivity.
Qed.

(** ** C8: what the image route answers *)

(** C8 as stated fails.  The search endpoint answers with one result that
    has no link: the route answers with status 200 and a body without an
    imageUrl field. *)
Lemma C8_counterexample :
  GetImages.POST Scenario.configured
    {| json_body := Some {| GetImages.query := "金閣寺 京都" |} |}
    Scenario3.linkless
  = NextResponse_json {| GetImages.imageUrl := None |} 200.
Proof. reflexivity. Qed.

(** C8 (amended): the image-lookup endpoint never propagates a failure to
    its caller: it answers with status 200 in every case.  The body is
    [{imageUrl: "/placeholder.svg"}] on an unreadable request, on missing
    credentials, on a search text that cannot be encoded, on a rejected
    search request (transport error), on a non-success search response, on
    a search response that is not JSON, and on an absent or empty result
    set.  Otherwise the body carries the link of the first result as its
    imageUrl, and has no imageUrl field when that result has no link. *)
Theorem C8_get_images_never_fails (env : Env)
  (request : Request GetImages.ImageQuery)
  (search : string -> Fetched GetImages.SearchData) :
  status (GetImages.POST env request search) = 200
  /\ (body (GetImages.POST env request search)
      = {| GetImages.imageUrl := Some "/placeholder.svg" |}
      \/ exists q data first rest,
           json_body request = Some q
           /\ search (GetImages.query q) = Responded true (Some data)
           /\ GetImages.items data = Some (first :: rest)
           /\ body (GetImages.POST env request search)
              = {| GetImages.imageUrl := GetImages.link first |})
  /\ (json_body request = None
      \/ unset (GOOGLE_CUSTOM_SEARCH_API_KEY env) = true
      \/ unset (GOOGLE_CUSTOM_SEARCH_CX env) = true ->
      GetImages.POST env request search
      = NextResponse_json {| GetImages.imageUrl := Some "/placeholder.svg" |}
          200)
  /\ (forall q,
        json_body request = Some q ->
        has_lone_surrogate (GetImages.query q) = true
        \/ search (GetImages.query q) = Rejected
        \/ (exists payload,
              search (GetImages.query q) = Responded false payload)
        \/ search (GetImages.query q) = Responded true None
        \/ (exists data,
              search (GetImages.query q) = Responded true (Some data)
              /\ (GetImages.items data = None
                  \/ GetImages.items data = Some [])) ->
        GetImages.POST env request search
        = NextResponse_json
            {| GetImages.imageUrl := Some "/placeholder.svg" |} 200)
  /\ (forall q data first rest,
        json_body request = Some q ->
        unset (GOOGLE_CUSTOM_SEARCH_API_KEY env) = false ->
        unset (GOOGLE_CUSTOM_SEARCH_CX env) = false ->
        has_lone_surrogate (GetImages.query q) = false ->
        search (GetImages.query q) = Responded true (Some data) ->
        GetImages.items data = Some (first :: rest) ->
        GetImages.POST env request search
        = NextResponse_json
            {| GetImages.imageUrl := GetImages.link first |} 200
        /\ (GetImages.imageUrl (body (GetImages.POST env request search))
            = None <-> GetImages.link first = None)).
Proof.
  split; [apply get_images_status|]. split; [|split; [|split]].
  - destruct (get_images_cases env request search)
      as [[-> _] | [q [data [first [rest [Hq [_ [_ [_ [Hs [Hi ->]]]]]]]]]]].
    + left. reflexivity.
    + right. exists q, data, first, rest. repeat split; assumption.
  - intros H. apply get_images_placeholder. tauto.
  - intros q Hq H. apply get_images_placeholder.
    right; right; right. exists q. split; [exact Hq|]. tauto.
  - intros q data first rest Hq Hk Hc Hu Hs Hi.
    rewrite (get_images_first_link env request search q data first rest)
      by assumption.
    split; reflexivity.
Qed.

Lemma C8_get_images_never_fails_witness :
  status
    (GetImages.POST Scenario.configured
       {| json_body := Some {| GetImages.query := "金閣寺 京都" |} |}
       Scenario.kinkakujiOnly) = 200
  /\ GetImages.POST Scenario.configured
       {| json_body := Some {| GetImages.query := "祇園 京都" |} |}
       Scenario.kinkakujiOnly
     = NextResponse_json {| GetImages.imageUrl := Some "/placeholder.svg" |}
         200
  /\ GetImages.POST Scenario.configured
       {| json_body := Some {| GetImages.query := "金閣寺 京都" |} |}
       Scenario.kinkakujiOnly
     = NextResponse_json
         {| GetImages.imageUrl := Some "https://example.com/kinkakuji.jpg" |}
         200.
Proof.
  split; [|split].
  - exact (proj1 (C8_get_images_never_fails Scenario.configured
                    {| json_body := Some {| GetImages.query := "金閣寺 京都" |} |}
                    Scenario.kinkakujiOnly)).
  - apply (proj1 (proj2 (proj2 (proj2
             (C8_get_images_never_fails Scenario.configured
                {| json_body := Some {| GetImages.query := "祇園 京都" |} |}
                Scenario.kinkakujiOnly))))
             {| GetImages.query := "祇園 京都" |}); [reflexivity|].
    right. left. reflexivity.
  - apply (proj2 (proj2 (proj2 (proj2
             (C8_get_images_never_fails Scenario.configured
                {| json_body := Some {| GetImages.query := "金閣寺 京都" |} |}
                Scenario.kinkakujiOnly))))
             {| GetImages.query := "金閣寺 京都" |}
             {| GetImages.items :=
                  Some [ {| GetImages.link :=
                              Some "https://example.com/kinkakuji.jpg" |} ] |}
             {| GetImages.link := Some "https://example.com/kinkakuji.jpg" |}
             []); reflexivity.
Defined.

(** A search text with a lone surrogate never reaches the search endpoint:
    building the URL throws, and the answer is the placeholder. *)
Example get_images_lone_surrogate :
  GetImages.POST Scenario.configured
    {| json_body := Some {| GetImages.query := Scenario3.loneSurrogate |} |}
    Scenario3.anyImage
  = NextResponse_json {| GetImages.imageUrl := Some "/placeholder.svg" |} 200.
Proof. reflexivity. Qed.

(** ** Deduplication through a [Set] *)

Lemma existsb_eqb_In (x : string) (set : list string) :
  existsb (String.eqb x) set = true <-> In x set.
Proof.
  rewrite existsb_exists. split.
  - intros [y [Hy E]]. apply String.eqb_eq in E. now subst.
  - intros H. exists x. split; [exact H | apply String.eqb_refl].
Qed.

Lemma Set_add_In (set : list string) (x y : string) :
  In y (Page.Set_add set x) <-> In y set \/ y = x.
Proof.
  unfold Page.Set_add. destruct (existsb (String.eqb x) set) eqn:E.
  - apply existsb_eqb_In in E. split; [now left|].
    intros [H | ->]; assumption.
  - rewrite in_app_iff. cbn [In]. split.
    + intros [H | [-> | []]]; [now left | now right].
    + intros [H | ->]; [now left | right; now left].
Qed.

Lemma Set_add_new (set : list string) (x : string) :
  ~ In x set -> Page.Set_add set x = (set ++ [x])%list.
Proof.
  intros H. unfold Page.Set_add.
  destruct (existsb (String.eqb x) set) eqn:E; [|reflexivity].
  apply existsb_eqb_In in E. contradiction.
Qed.

Lemma Set_add_NoDup (set : list string) (x : string) :
  NoDup set -> NoDup (Page.Set_add set x).
Proof.
  intros H. unfold Page.Set_add.
  destruct (existsb (String.eqb x) set) eqn:E; [exact H|].
  assert (Hx : ~ In x set).
  { intros Hin. apply existsb_eqb_In in Hin. congruence. }
  apply NoDup_app; [exact H | repeat constructor; intros [] |].
  intros a Ha [<- | []]. contradiction.
Qed.

Lemma fold_Set_add_In (l : list string) :
  forall (set : list string) (y : string),
    In y (fold_left Page.Set_add l set) <-> In y set \/ In y l.
Proof.
  induction l as [|x l IH]; intros set y; cbn [fold_left In].
  - tauto.
  - rewrite IH, Set_add_In. intuition congruence.
Qed.

Lemma fold_Set_add_NoDup (l : list string) :
  forall set, NoDup set -> NoDup (fold_left Page.Set_add l set).
Proof.
  induction l as [|x l IH]; intros set H; cbn [fold_left]; [exact H|].
  apply IH, Set_add_NoDup, H.
Qed.

(** What the set holds stays in front: later values go behind it. *)
Lemma fold_Set_add_prefix (l : list string) :
  forall set, exists rest, fold_left Page.Set_add l set = (set ++ rest)%list.
Proof.
  induction l as [|x l IH]; intros set; cbn [fold_left].
  - exists []. now rewrite app_nil_r.
  - destruct (IH (Page.Set_add set x)) as [rest ->].
    unfold Page.Set_add. destruct (existsb (String.eqb x) set).
    + now exists rest.
    + exists (x :: rest). now rewrite <- app_assoc.
Qed.

Lemma uniqueLocations_In (l : list string) (y : string) :
  In y (Page.uniqueLocations l) <-> In y l.
Proof.
  unfold Page.uniqueLocations. rewrite fold_Set_add_In. cbn [In]. tauto.
Qed.

Lemma uniqueLocations_NoDup (l : list string) :
  NoDup (Page.uniqueLocations l).
Proof. apply fold_Set_add_NoDup. constructor. Qed.

(** First-seen order: a value stands behind exactly the values seen before
    its first occurrence. *)
Lemma uniqueLocations_first_seen (l1 l2 : list string) (x : string) :
  ~ In x l1 ->
  exists r1 r2,
    Page.uniqueLocations (l1 ++ x :: l2) = (r1 ++ x :: r2)%list
    /\ forall y, In y r1 <-> In y l1.
Proof.
  intros Hx. unfold Page.uniqueLocations.
  rewrite fold_left_app. cbn [fold_left].
  fold (Page.uniqueLocations l1).
  rewrite Set_add_new by (rewrite uniqueLocations_In; exact Hx).
  destruct (fold_Set_add_prefix l2 (Page.uniqueLocations l1 ++ [x])%list)
    as [rest ->].
  exists (Page.uniqueLocations l1), rest. split.
  - now rewrite <- app_assoc.
  - intros y. apply uniqueLocations_In.
Qed.

(** ** The page's lookups *)

Lemma Promise_all_Ok {A B : Type} (f : A -> B) (l : list A) :
  Page.Promise_all (map (fun a => Ok (f a)) l) = Ok (map f l).
Proof.
  induction l as [|a l IH]; [reflexivity|].
  cbn [map Page.Promise_all bind]. rewrite IH. reflexivity.
Qed.

Lemma imagePromise_served (env : Env)
  (search : string -> Fetched GetImages.SearchData)
  (destination location : string) :
  Page.imagePromise (Page.served env search) destination location
  = Ok (imageFor env search destination location).
Proof.
  unfold Page.imagePromise. rewrite served_responds. reflexivity.
Qed.

Lemma onSubmit_images (st : Page.State) (env : Env)
  (search : string -> Fetched GetImages.SearchData)
  (planData : TravelPlan) :
  Page.images
    (Page.onSubmit st (Responded true (Some planData))
       (Page.served env search))
  = map (imageFor env search (Plan.destination planData))
      (Page.uniqueLocations (Page.locations planData)).
Proof.
  unfold Page.onSubmit, Page.tryBlock, Page.imageResults.
  cbn [negb response_json].
  rewrite (map_ext _ (fun l => Ok (imageFor env search
                                     (Plan.destination planData) l)))
    by (intros l; apply imagePromise_served).
  rewrite Promise_all_Ok. reflexivity.
Qed.

Lemma imageFor_url (env : Env)
  (search : string -> Fetched GetImages.SearchData)
  (destination location : string) :
  Page.imageUrl (imageFor env search destination location)
  = "/placeholder.svg"
  \/ exists data first rest,
       search (location ++ " " ++ destination) = Responded true (Some data)
       /\ GetImages.items data = Some (first :: rest)
       /\ GetImages.link first
          = Some (Page.imageUrl (imageFor env search destination location)).
Proof.
  unfold imageFor. cbn [Page.imageUrl].
  destruct (get_images_cases env
              {| json_body :=
                   Some {| GetImages.query := location ++ " " ++ destination |} |}
              search)
    as [[-> _] | [q [data [first [rest [Hq [_ [_ [_ [Hs [Hi ->]]]]]]]]]]].
  - left. reflexivity.
  - cbn [json_body] in Hq. injection Hq as <-. cbn [GetImages.query] in Hs.
    cbn [body NextResponse_json GetImages.imageUrl].
    unfold Page.or_else. destruct (GetImages.link first) as [url|] eqn:El;
      [|left; reflexivity].
    destruct (String.eqb url ""); [left; reflexivity|].
    right. exists data, first, rest. repeat split; assumption.
Qed.

Lemma imagePromise_completes (api : string -> Fetched GetImages.ImageData)
  (destination location : string) :
  ~ lookup_fails api destination location ->
  Page.imagePromise api destination location
  = Ok {| Page.location := location;
          Page.imageUrl := storedUrl (api (location ++ " " ++ destination)) |}.
Proof.
  unfold lookup_fails, Page.imagePromise. intros H.
  destruct (api (location ++ " " ++ destination)) as [|[|] [d|]];
    try reflexivity; exfalso; apply H; auto.
Qed.

(** ** C7: location enrichment *)

(** C7 as stated fails.  The plan names Kinkaku-ji and Gion; the lookup for
    Gion is rejected, and the page stores no entry at all: both locations
    are omitted. *)
Lemma C7_counterexample :
  Page.uniqueLocations (Page.locations Scenario.twoTemples)
  = ["金閣寺"; "祇園"]
  /\ Page.images
       (Page.onSubmit Scenario.idle
          (Responded true (Some Scenario.twoTemples))
          Scenario3.gionUnreachable)
     = [].
Proof. split; reflexivity. Qed.

(** C7 (amended): provided every image lookup completes (no call to the
    image route is rejected, and every success response has a JSON body),
    onSubmit stores exactly one image entry per unique location string of
    the itinerary's activities, in first-seen order, without duplicates and
    without omissions; each entry's URL is the imageUrl the route returned
    for that location or the placeholder.  With the lookups answered by the
    image route every lookup completes, and each URL is the link of the
    first search result for the location or the placeholder. *)
Theorem C7_one_image_per_unique_location (st : Page.State)
  (api : string -> Fetched GetImages.ImageData) (planData : TravelPlan) :
  (forall l,
     In l (Page.locations planData) ->
     ~ lookup_fails api (Plan.destination planData) l) ->
  NoDup
    (map Page.location
       (Page.images (Page.onSubmit st (Responded true (Some planData)) api)))
  /\ (forall l,
        In l (map Page.location
                (Page.images
                   (Page.onSubmit st (Responded true (Some planData)) api)))
        <-> exists d a,
              In d (days planData) /\ In a (activities d) /\ location a = l)
  /\ (forall l1 x l2,
        Page.locations planData = (l1 ++ x :: l2)%list ->
        ~ In x l1 ->
        exists r1 r2,
          map Page.location
            (Page.images
               (Page.onSubmit st (Responded true (Some planData)) api))
          = (r1 ++ x :: r2)%list
          /\ forall y, In y r1 <-> In y l1)
  /\ Forall
       (fun image =>
          Page.imageUrl image = "/placeholder.svg"
          \/ exists imageData,
               api (Page.location image ++ " " ++ Plan.destination planData)
               = Responded true (Some imageData)
               /\ GetImages.imageUrl imageData = Some (Page.imageUrl image))
       (Page.images (Page.onSubmit st (Responded true (Some planData)) api))
  /\ (forall env search,
        api = Page.served env search ->
        Forall
          (fun image =>
             Page.imageUrl image = "/placeholder.svg"
             \/ exists data first rest,
                  search (Page.location image ++ " "
                          ++ Plan.destination planData)
                  = Responded true (Some data)
                  /\ GetImages.items data = Some (first :: rest)
                  /\ GetImages.link first = Some (Page.imageUrl image))
          (Page.images
             (Page.onSubmit st (Responded true (Some planData)) api))).
Proof.
  intros Hall.
  assert (Himages :
    Page.images (Page.onSubmit st (Responded true (Some planData)) api)
    = map (fun l =>
             {| Page.location := l;
                Page.imageUrl :=
                  storedUrl (api (l ++ " " ++ Plan.destination planData)) |})
        (Page.uniqueLocations (Page.locations planData))).
  { unfold Page.onSubmit, Page.tryBlock, Page.imageResults.
    cbn [negb response_json].
    rewrite (map_ext_in _
               (fun l =>
                  Ok {| Page.location := l;
                        Page.imageUrl :=
                          storedUrl
                            (api (l ++ " " ++ Plan.destination planData)) |})).
    - rewrite Promise_all_Ok. reflexivity.
    - intros l Hl. apply imagePromise_completes, Hall.
      apply uniqueLocations_In, Hl. }
  rewrite Himages.
  assert (Hloc :
    map Page.location
      (map (fun l =>
              {| Page.location := l;
                 Page.imageUrl :=
                   storedUrl (api (l ++ " " ++ Plan.destination planData)) |})
         (Page.uniqueLocations (Page.locations planData)))
    = Page.uniqueLocations (Page.locations planData)).
  { rewrite map_map. cbn [Page.location]. apply map_id. }
  rewrite Hloc. split; [apply uniqueLocations_NoDup|].
  split; [|split; [|split]].
  - intros l. rewrite uniqueLocations_In. unfold Page.locations.
    rewrite in_flat_map. split.
    + intros [d [Hd Hl]]. apply in_map_iff in Hl.
      destruct Hl as [a [Ha Hin]]. exists d, a. auto.
    + intros [d [a [Hd [Ha Hl]]]]. exists d. split; [exact Hd|].
      apply in_map_iff. exists a. auto.
  - intros l1 x l2 -> Hx. apply uniqueLocations_first_seen, Hx.
  - apply Forall_forall. intros image Himage. apply in_map_iff in Himage.
    destruct Himage as [l [<- _]]. cbn [Page.location Page.imageUrl].
    unfold storedUrl.
    destruct (api (l ++ " " ++ Plan.destination planData))
      as [|[|] [imageData|]]; try (left; reflexivity).
    unfold Page.or_else.
    destruct (GetImages.imageUrl imageData) as [url|] eqn:Eu;
      [|left; reflexivity].
    destruct (String.eqb url ""); [left; reflexivity|].
    right. exists imageData. split; [reflexivity | exact Eu].
  - intros env search ->. apply Forall_forall. intros image Himage.
    apply in_map_iff in Himage. destruct Himage as [l [<- _]].
    cbn [Page.location Page.imageUrl].
    rewrite served_responds. cbn [storedUrl].
    apply (imageFor_url env search (Plan.destination planData) l).
Qed.

Lemma C7_one_image_per_unique_location_witness :
  NoDup
    (map Page.location
       (Page.images
          (Page.onSubmit Scenario.idle
             (Responded true (Some Scenario.twoTemples))
             (Page.served Scenario.configured Scenario.kinkakujiOnly)))).
Proof.
  apply (C7_one_image_per_unique_location Scenario.idle
           (Page.served Scenario.configured Scenario.kinkakujiOnly)
           Scenario.twoTemples).
  intros l Hin [H | H]; cbn in Hin;
    destruct Hin as [<- | [<- | [<- | []]]]; discriminate H.
Defined.

Example enrichment_two_temples :
  Page.images
    (Page.onSubmit Scenario.idle (Responded true (Some Scenario.twoTemples))
       (Page.served Scenario.configured Scenario.kinkakujiOnly))
  = [ {| Page.location := "金閣寺";
         Page.imageUrl := "https://example.com/kinkakuji.jpg" |};
      {| Page.location := "祇園"; Page.imageUrl := "/placeholder.svg" |} ].
Proof. reflexivity. Qed.

(** When a call to the route itself is rejected, [Promise.all] rejects and
    the page keeps the plan without any image. *)
Example enrichment_route_unreachable :
  Page.onSubmit Scenario.idle (Responded true (Some Scenario.twoTemples))
    (fun _ => Rejected)
  = {| Page.isLoading := false;
       Page.travelPlan := Some Scenario.twoTemples;
       Page.images := [] |}.
Proof. reflexivity. Qed.

(** ** [JSON.parse] on examples *)

Example parse_nested :
  JSON_parse (dq "{'a': [1, -2.50e3, true, null, 'x\n'], 'b': {}, 'a': 'z'}")
  = Ok (JObject [("a", JString "z"); ("b", JObject [])]).
Proof. reflexivity. Qed.

Example parse_escape :
  JSON_parse (dq "['\u4eac\u90fd', '\ud83d\ude00', 'a\/b']")
  = Ok (JArray [JString "京都"; JString "😀"; JString "a/b"]).
Proof. reflexivity. Qed.

Example parse_rejects :
  map JSON_parse [""; "{"; "[1,]"; dq "{'a':1,}"; "01"; "1."; "tru"; "[1 2]";
                  "{'a':1}"; dq "{'a':1} {'b':2}"]
  = repeat (Throw SyntaxError) 10.
Proof. reflexivity. Qed.

(** * Further properties *)

(** ** The calendar *)

(** The civil date of a day number is a date, and it is the date of that
    day. *)
Lemma civil_round_trip (z : Z) :
  let '(y, m, d) := civil_from_days z in
  1 <= m <= 12 /\ 1 <= d <= 31 /\ days_from_civil y m d = z.
Proof.
  unfold civil_from_days, days_from_civil.
  set (z' := z + 719468).
  set (era := z' / 146097).
  set (doe := z' - era * 146097).
  assert (Hdoe : 0 <= doe <= 146096).
  { subst doe era. pose proof (Z.div_mod z' 146097 ltac:(lia)).
    pose proof (Z.mod_pos_bound z' 146097 ltac:(lia)). lia. }
  assert (Hz : z = era * 146097 + doe - 719468) by (subst doe z'; lia).
  clearbody doe era. clear z'.
  set (yoe := (doe - doe / 1460 + doe / 36524 - doe / 146096) / 365).
  set (doy := doe - (365 * yoe + yoe / 4 - yoe / 100)).
  set (mp := (5 * doy + 2) / 153).
  assert (Hyoe : 0 <= yoe <= 399)
    by (subst yoe; Z.to_euclidean_division_equations; lia).
  assert (Hdoy : 0 <= doy <= 365)
    by (subst doy yoe; Z.to_euclidean_division_equations; lia).
  assert (Hmp : 0 <= mp <= 11)
    by (subst mp; Z.to_euclidean_division_equations; lia).
  set (d := doy - (153 * mp + 2) / 5 + 1).
  assert (Hd : 1 <= d <= 31)
    by (subst d mp; clearbody doy; Z.to_euclidean_division_equations; lia).
  assert (Hdoe' : doe = yoe * 365 + yoe / 4 - yoe / 100 + doy)
    by (subst doy; lia).
  assert (Hdoy' : doy = (153 * mp + 2) / 5 + d - 1) by (subst d; lia).
  clearbody d doy mp yoe.
  destruct (mp <? 10) eqn:Emp.
  - apply Z.ltb_lt in Emp.
    replace (mp + 3 <=? 2) with false by (symmetry; apply Z.leb_gt; lia).
    replace (mp + 3 >? 2) with true by (symmetry; apply Z.gtb_lt; lia).
    split; [lia|]. split; [lia|].
    replace ((yoe + era * 400) / 400) with era
      by (Z.to_euclidean_division_equations; lia).
    replace (mp + 3 - 3) with mp by lia.
    replace (yoe + era * 400 - era * 400) with yoe by lia. lia.
  - apply Z.ltb_ge in Emp.
    replace (mp - 9 <=? 2) with true by (symmetry; apply Z.leb_le; lia).
    replace (mp - 9 >? 2) with false
      by (symmetry; rewrite Z.gtb_ltb; apply Z.ltb_ge; lia).
    split; [lia|]. split; [lia|].
    replace (yoe + era * 400 + 1 - 1) with (yoe + era * 400) by lia.
    replace ((yoe + era * 400) / 400) with era
      by (Z.to_euclidean_division_equations; lia).
    replace (mp - 9 + 9) with mp by lia.
    replace (yoe + era * 400 - era * 400) with yoe by lia. lia.
Qed.

(** The day number of a date of the years 1 to 9999 is far inside the time
    range. *)
Lemma days_from_civil_bound (y m d : Z) :
  1 <= y <= 9999 -> 1 <= m <= 12 -> 1 <= d <= 31 ->
  Z.abs (days_from_civil y m d) <= 3000000.
Proof.
  intros Hy Hm Hd. unfold days_from_civil.
  destruct (m <=? 2) eqn:E1; destruct (m >? 2) eqn:E2;
    Z.to_euclidean_division_equations; lia.
Qed.

Lemma Zrange_In_nat (count : nat) :
  forall i n, i <= n < i + Z.of_nat count -> In n (Zrange i count).
Proof.
  induction count as [|count IH]; intros i n H; [lia|].
  cbn [Zrange In]. destruct (Z.eq_dec i n) as [->|Hne]; [now left|].
  right. apply IH. lia.
Qed.

Lemma Zrange_In (i n count : Z) :
  i <= n < i + count -> In n (Zrange i (Z.to_nat count)).
Proof. intros H. apply Zrange_In_nat. lia. Qed.

Lemma pad4_checked : forallb (pad_ok 4) (Zrange 0 (Z.to_nat 10000)) = true.
Proof. vm_compute. reflexivity. Qed.

Lemma pad2_checked : forallb (pad_ok 2) (Zrange 0 (Z.to_nat 100)) = true.
Proof. vm_compute. reflexivity. Qed.

Lemma pad_ok_spec (len : nat) (n : Z) :
  pad_ok len n = true ->
  String.length (addLeadingZeros n len) = len
  /\ digits_value 0 (addLeadingZeros n len) = Some n.
Proof.
  unfold pad_ok. intros H. apply andb_prop in H. destruct H as [Hl Hv].
  apply Nat.eqb_eq in Hl. split; [exact Hl|].
  destruct (digits_value 0 (addLeadingZeros n len)); [|discriminate].
  apply Z.eqb_eq in Hv. now subst.
Qed.

Lemma pad4_shape (n : Z) :
  0 <= n <= 9999 ->
  exists c1 c2 c3 c4,
    addLeadingZeros n 4 = String c1 (String c2 (String c3 (String c4 "")))
    /\ digits_value 0 (String c1 (String c2 (String c3 (String c4 ""))))
       = Some n.
Proof.
  intros Hn.
  pose proof (proj1 (forallb_forall _ _) pad4_checked n
                (Zrange_In 0 n 10000 ltac:(lia))) as H.
  apply pad_ok_spec in H. destruct H as [Hl Hv].
  destruct (addLeadingZeros n 4) as [|c1 [|c2 [|c3 [|c4 [|c5 s]]]]];
    try discriminate.
  exists c1, c2, c3, c4. split; [reflexivity | exact Hv].
Qed.

Lemma pad2_shape (n : Z) :
  0 <= n <= 99 ->
  exists c1 c2,
    addLeadingZeros n 2 = String c1 (String c2 "")
    /\ digits_value 0 (String c1 (String c2 "")) = Some n.
Proof.
  intros Hn.
  pose proof (proj1 (forallb_forall _ _) pad2_checked n
                (Zrange_In 0 n 100 ltac:(lia))) as H.
  apply pad_ok_spec in H. destruct H as [Hl Hv].
  destruct (addLeadingZeros n 2) as [|c1 [|c2 [|c3 s]]]; try discriminate.
  exists c1, c2. split; [reflexivity | exact Hv].
Qed.

(** Reading back what [format] wrote. *)
Lemma new_Date_format_day (z : Z) :
  1 <= year_of_day z <= 9999 ->
  new_Date (format_day z) = Some (z * msPerDay).
Proof.
  unfold year_of_day, format_day. pose proof (civil_round_trip z) as Hc.
  destruct (civil_from_days z) as [[y m] d]. destruct Hc as [Hm [Hd Hz]].
  intros Hy.
  replace (y >? 0) with true by (symmetry; apply Z.gtb_lt; lia).
  destruct (pad4_shape y ltac:(lia)) as [y1 [y2 [y3 [y4 [-> Hyv]]]]].
  destruct (pad2_shape m ltac:(lia)) as [m1 [m2 [-> Hmv]]].
  destruct (pad2_shape d ltac:(lia)) as [d1 [d2 [-> Hdv]]].
  cbn [append]. unfold new_Date.
  cbv beta iota delta [parse_date_only]. rewrite Hyv, Hmv, Hdv.
  replace (1 <=? m) with true by (symmetry; apply Z.leb_le; lia).
  replace (m <=? 12) with true by (symmetry; apply Z.leb_le; lia).
  replace (1 <=? d) with true by (symmetry; apply Z.leb_le; lia).
  replace (d <=? 31) with true by (symmetry; apply Z.leb_le; lia).
  cbn [andb].
  assert (E : days_from_civil y m 1 + (d - 1) = z).
  { rewrite <- Hz. unfold days_from_civil. lia. }
  rewrite E. apply TimeClip_in_range.
  pose proof (days_from_civil_bound y m d Hy Hm Hd) as Hb. rewrite Hz in Hb.
  unfold msPerDay, maxTime. lia.
Qed.

(** X1: what the page writes with format(date, "yyyy-MM-dd") the handler
    reads back with new Date: for a valid date of the years 1 to 9999 the
    handler obtains the midnight that starts the same calendar day. *)
Theorem format_then_new_Date (t : Z) :
  1 <= year_of_day (t / msPerDay) <= 9999 ->
  exists s,
    format (Some t) = Ok s
    /\ new_Date s = Some (t / msPerDay * msPerDay).
Proof.
  intros Hy. exists (format_day (t / msPerDay)). split; [reflexivity|].
  apply new_Date_format_day, Hy.
Qed.

Lemma format_then_new_Date_witness :
  exists s,
    format (Some 1714561200000) = Ok s
    /\ new_Date s = Some (1714561200000 / msPerDay * msPerDay).
Proof.
  apply (format_then_new_Date 1714561200000). vm_compute.
  split; discriminate.
Defined.

(** Between two midnights the count of full days is the difference of the
    day numbers, whatever its sign. *)
Lemma differenceInDays_midnights (a b : Z) :
  differenceInDays (Some (a * msPerDay)) (Some (b * msPerDay)) = Num (a - b).
Proof.
  unfold differenceInDays.
  rewrite !Z.div_mul by (unfold msPerDay; lia). unfold msPerDay.
  match goal with
  | |- context [if ?c then _ else _] => destruct c eqn:E
  end.
  - apply Z.eqb_eq in E. f_equal. lia.
  - apply Z.eqb_neq in E. f_equal. lia.
Qed.





(** ** The running process in UTC *)

(** In UTC the run computes what the handler's generator computes. *)
Lemma days_from_civil_day (y m d : Z) :
  days_from_civil y m d = days_from_civil y m 1 + (d - 1).
Proof. unfold days_from_civil. lia. Qed.

Lemma addDaysIn_utc (tv : Date) (amount : Z) :
  addDaysIn Runtime.utc tv amount = addDays tv amount.
Proof.
  unfold addDaysIn, addDays. destruct tv as [t|].
  2:{ destruct (amount =? 0); reflexivity. }
  destruct (amount =? 0); [reflexivity|].
  unfold Runtime.LocalTime, Runtime.UTC, Runtime.utc.
  rewrite Z.add_0_r.
  pose proof (civil_round_trip (t / msPerDay)) as H.
  destruct (civil_from_days (t / msPerDay)) as [[y m] d].
  destruct H as [_ [_ H]]. rewrite days_from_civil_day in H.
  f_equal. rewrite Z.sub_0_r.
  pose proof (Z.div_mod t msPerDay ltac:(unfold msPerDay; lia)). 
  replace (days_from_civil y m 1 + (d + amount - 1))
    with (t / msPerDay + amount) by lia.
  lia.
Qed.

Lemma formatIn_utc (tv : Date) : formatIn Runtime.utc tv = format tv.
Proof.
  destruct tv as [t|]; [|reflexivity]. cbn.
  unfold Runtime.LocalTime, Runtime.utc. now rewrite Z.add_0_r.
Qed.

Lemma pushDaysIn_utc (destination travelStyle : string) (tv : Date)
  (count : nat) :
  forall i days,
    pushDaysIn Runtime.utc destination travelStyle tv count i days
    = pushDays destination travelStyle tv count i days.
Proof.
  induction count as [|count IH]; intros i days; [reflexivity|].
  cbn [pushDaysIn pushDays]. unfold fallbackDayIn, fallbackDay.
  rewrite addDaysIn_utc, formatIn_utc.
  destruct (format (addDays tv i)); cbn [bind]; [apply IH | reflexivity].
Qed.

Lemma createFallbackPlanIn_utc (destination travelStyle : string)
  (numberOfDays : number) (tv : Date) :
  createFallbackPlanIn Runtime.utc destination numberOfDays tv travelStyle
  = createFallbackPlan destination numberOfDays tv travelStyle.
Proof.
  unfold createFallbackPlanIn, createFallbackPlan. rewrite pushDaysIn_utc.
  reflexivity.
Qed.

(** A server in UTC: the run returns the plan of [createFallbackPlan]. *)
Lemma createFallbackPlan_in_utc (destination travelStyle : string)
  (numberOfDays : number) (startDate : Runtime.DateRef) (w : Runtime.World) :
  (startDate < length (Runtime.dates w))%nat ->
  Runtime.zone w = Runtime.utc ->
  fst (Runtime.createFallbackPlan destination numberOfDays startDate
         travelStyle w)
  = createFallbackPlan destination numberOfDays
      (Runtime.timeValue w startDate) travelStyle.
Proof.
  intros Hvalid Hz.
  destruct (createFallbackPlan_run destination travelStyle numberOfDays
              startDate w Hvalid) as [extra ->].
  cbn [fst]. rewrite Hz. apply createFallbackPlanIn_utc.
Qed.

(** ** From the form to the handler *)

(** What the page posts for two valid dates, and how the handler reads it
    back. *)
Lemma requestBody_dates (values : Form.Values) (tripStart tripEnd : Z) :
  Form.from (Form.dateRange values) = Some tripStart ->
  Form.to (Form.dateRange values) = Some tripEnd ->
  1 <= year_of_day (tripStart / msPerDay) <= 9999 ->
  1 <= year_of_day (tripEnd / msPerDay) <= 9999 ->
  Form.requestBody values
  = Ok {| destination := Form.destination values;
          budget := Form.budget values;
          people := Form.people values;
          dateRange :=
            Some {| from := format_day (tripStart / msPerDay);
                    to := format_day (tripEnd / msPerDay) |};
          travelStyle := Form.travelStyle values |}
  /\ new_Date (format_day (tripStart / msPerDay))
     = Some (tripStart / msPerDay * msPerDay)
  /\ new_Date (format_day (tripEnd / msPerDay))
     = Some (tripEnd / msPerDay * msPerDay).
Proof.
  intros Hfrom Hto Hys Hye. unfold Form.requestBody. rewrite Hfrom, Hto.
  split; [reflexivity|].
  split; apply new_Date_format_day; assumption.
Qed.

Lemma last_cons_cons {A : Type} (x y : A) (l : list A) (d : A) :
  last (x :: y :: l) d = last (y :: l) d.
Proof. reflexivity. Qed.

Lemma last_map_Zrange {A : Type} (f : Z -> A) (d : A) (n : nat) :
  forall a, last (map f (Zrange a (S n))) d = f (a + Z.of_nat n).
Proof.
  induction n as [|n IH]; intros a.
  - cbn. f_equal. lia.
  - specialize (IH (a + 1)). cbn [Zrange map] in *.
    rewrite last_cons_cons, IH. f_equal. lia.
Qed.

Lemma map_shift_Zrange {A : Type} (g : Z -> A) (a : Z) (n : nat) :
  forall i, map (fun j => g (a + j)) (Zrange i n) = map g (Zrange (a + i) n).
Proof.
  induction n as [|n IH]; intros i; [reflexivity|].
  cbn [Zrange map]. rewrite IH. f_equal. f_equal. f_equal. lia.
Qed.

(** X2: with the browser and the server both in UTC, the handler counts the
    days of the range the user picked, both ends included: for form values
    whose two dates are valid and of the years 1 to 9999, the body the page
    posts carries a date range from which the handler computes
    numberOfDays = (day of to) - (day of from) + 1. *)
Theorem page_request_day_count (values : Form.Values) (tripStart tripEnd : Z) :
  Form.from (Form.dateRange values) = Some tripStart ->
  Form.to (Form.dateRange values) = Some tripEnd ->
  1 <= year_of_day (tripStart / msPerDay) <= 9999 ->
  1 <= year_of_day (tripEnd / msPerDay) <= 9999 ->
  exists r range,
    Form.requestBody values = Ok r
    /\ dateRange r = Some range
    /\ destination r = Form.destination values
    /\ travelStyle r = Form.travelStyle values
    /\ new_Date (from range) = Some (tripStart / msPerDay * msPerDay)
    /\ new_Date (to range) = Some (tripEnd / msPerDay * msPerDay)
    /\ requestedDays range
       = Num (tripEnd / msPerDay - tripStart / msPerDay + 1).
Proof.
  intros Hfrom Hto Hys Hye.
  destruct (requestBody_dates values tripStart tripEnd Hfrom Hto Hys Hye)
    as [Hr [Es Ee]].
  eexists. eexists. split; [exact Hr|].
  cbn [dateRange destination travelStyle from to].
  split; [reflexivity|]. split; [reflexivity|]. split; [reflexivity|].
  split; [exact Es|]. split; [exact Ee|].
  unfold requestedDays. cbn [from to]. rewrite Es, Ee.
  rewrite differenceInDays_midnights. reflexivity.
Qed.

Lemma page_request_day_count_witness :
  exists r range,
    Form.requestBody Scenario2.kyotoValues = Ok r
    /\ dateRange r = Some range
    /\ destination r = Form.destination Scenario2.kyotoValues
    /\ travelStyle r = Form.travelStyle Scenario2.kyotoValues
    /\ new_Date (from range)
       = Some (1714521600000 / msPerDay * msPerDay)
    /\ new_Date (to range) = Some (1714694400000 / msPerDay * msPerDay)
    /\ requestedDays range
       = Num (1714694400000 / msPerDay - 1714521600000 / msPerDay + 1).
Proof.
  apply (page_request_day_count Scenario2.kyotoValues
           1714521600000 1714694400000);
    solve [reflexivity | vm_compute; split; discriminate].
Defined.

(** The fallback plan for a request the page built. *)
Lemma page_request_fallback (env : Env) (values : Form.Values)
  (completion : Fetched ChatCompletion) (data : ChatCompletion)
  (content : option string) (e : exn) (tripStart tripEnd : Z) :
  Form.from (Form.dateRange values) = Some tripStart ->
  Form.to (Form.dateRange values) = Some tripEnd ->
  1 <= year_of_day (tripStart / msPerDay) <= 9999 ->
  1 <= year_of_day (tripEnd / msPerDay) <= 9999 ->
  unset (DEEPSEEK_API_KEY env) = false ->
  completion = Responded true (Some data) ->
  first_content data = Ok content ->
  extractPlan content = Throw e ->
  exists r plan,
    Form.requestBody values = Ok r
    /\ dateRange r = Some {| from := format_day (tripStart / msPerDay);
                             to := format_day (tripEnd / msPerDay) |}
    /\ POST env {| json_body := Some r |} completion
       = NextResponse_json (json_of_plan plan) 200
    /\ map date (days plan)
       = map format_day
           (Zrange (tripStart / msPerDay)
              (Z.to_nat (tripEnd / msPerDay - tripStart / msPerDay + 1))).
Proof.
  intros Hfrom Hto Hys Hye Hkey Hcompletion Hcontent Hextract.
  destruct (requestBody_dates values tripStart tripEnd Hfrom Hto Hys Hye)
    as [Hr [Es Ee]].
  set (a := tripStart / msPerDay) in *. set (b := tripEnd / msPerDay) in *.
  set (range := {| from := format_day a; to := format_day b |}) in *.
  match type of Hr with _ = Ok ?x => set (r := x) in * end.
  destruct (POST_fallback env {| json_body := Some r |} completion r range
              data content eq_refl eq_refl Hkey Hcompletion Hcontent e
              Hextract)
    as [plan [_ [Hpost Hdays]]].
  exists r, plan. split; [exact Hr|]. split; [reflexivity|].
  split; [exact Hpost|].
  rewrite (Hdays (a * msPerDay) (b - a)).
  - rewrite map_map. cbn [date dayAt].
    rewrite Z.div_mul by (unfold msPerDay; lia).
    rewrite (map_shift_Zrange format_day a). do 3 f_equal; lia.
  - exact Es.
  - cbn [from to range]. rewrite Es, Ee.
    apply differenceInDays_midnights.
Qed.

(** X3: with the browser and the server both in UTC, on the fallback path
    the plan for a request the page built runs from the first picked day to
    the last: one entry per day of the range, the first dated with the
    [from] string of the request and the last with its [to] string. *)
Theorem page_request_fallback_dates (env : Env) (values : Form.Values)
  (completion : Fetched ChatCompletion) (data : ChatCompletion)
  (content : option string) (e : exn) (tripStart tripEnd : Z) :
  Form.from (Form.dateRange values) = Some tripStart ->
  Form.to (Form.dateRange values) = Some tripEnd ->
  1 <= year_of_day (tripStart / msPerDay) <= 9999 ->
  1 <= year_of_day (tripEnd / msPerDay) <= 9999 ->
  tripStart / msPerDay <= tripEnd / msPerDay ->
  unset (DEEPSEEK_API_KEY env) = false ->
  completion = Responded true (Some data) ->
  first_content data = Ok content ->
  extractPlan content = Throw e ->
  exists r range plan,
    Form.requestBody values = Ok r
    /\ dateRange r = Some range
    /\ POST env {| json_body := Some r |} completion
       = NextResponse_json (json_of_plan plan) 200
    /\ map date (days plan)
       = map format_day
           (Zrange (tripStart / msPerDay)
              (Z.to_nat (tripEnd / msPerDay - tripStart / msPerDay + 1)))
    /\ hd_error (map date (days plan)) = Some (from range)
    /\ last (map date (days plan)) "" = to range.
Proof.
  intros Hfrom Hto Hys Hye Hle Hkey Hcompletion Hcontent Hextract.
  destruct (page_request_fallback env values completion data content e
              tripStart tripEnd Hfrom Hto Hys Hye Hkey Hcompletion Hcontent
              Hextract)
    as [r [plan [Hr [Hrange [Hpost Hdates]]]]].
  eexists r, _, plan. split; [exact Hr|]. split; [exact Hrange|].
  split; [exact Hpost|]. split; [exact Hdates|]. rewrite Hdates.
  set (a := tripStart / msPerDay) in *. set (b := tripEnd / msPerDay) in *.
  destruct (Z.to_nat (b - a + 1)) as [|n] eqn:En; [lia|]. split.
  - reflexivity.
  - rewrite last_map_Zrange. cbn [to]. f_equal. lia.
Qed.

Lemma page_request_fallback_dates_witness :
  exists r range plan,
    Form.requestBody Scenario2.kyotoValues = Ok r
    /\ dateRange r = Some range
    /\ POST Scenario.configured {| json_body := Some r |}
         (Scenario.completed "I cannot plan this trip.")
       = NextResponse_json (json_of_plan plan) 200
    /\ map date (days plan)
       = map format_day
           (Zrange (1714521600000 / msPerDay)
              (Z.to_nat (1714694400000 / msPerDay
                         - 1714521600000 / msPerDay + 1)))
    /\ hd_error (map date (days plan)) = Some (from range)
    /\ last (map date (days plan)) "" = to range.
Proof.
  apply (page_request_fallback_dates Scenario.configured
           Scenario2.kyotoValues
           (Scenario.completed "I cannot plan this trip.")
           (Scenario.completionOf "I cannot plan this trip.")
           (Some "I cannot plan this trip.")
           (Error "No JSON found in response")
           1714521600000 1714694400000);
    solve [reflexivity | vm_compute; split; discriminate
          | vm_compute; discriminate].
Defined.



(** ** The parser on a text that starts with a brace *)

Lemma bottom_object_cons (f : frame) (stack : list frame) :
  stack <> [] -> bottom_object (f :: stack) = bottom_object stack.
Proof.
  intros Hne. unfold bottom_object. cbn [rev].
  destruct (rev stack) as [|g l] eqn:E.
  - apply (f_equal (@rev frame)) in E. rewrite rev_involutive in E.
    contradiction.
  - reflexivity.
Qed.

Lemma bottom_object_nonempty (stack : list frame) :
  bottom_object stack = true -> stack <> [].
Proof. intros H ->. discriminate H. Qed.

Lemma bottom_object_push (f : frame) (stack : list frame) :
  bottom_object stack = true -> bottom_object (f :: stack) = true.
Proof.
  intros H. rewrite bottom_object_cons; [exact H|].
  apply bottom_object_nonempty, H.
Qed.

Lemma bottom_object_pop (f : frame) (stack : list frame) :
  bottom_object (f :: stack) = true ->
  match stack with
  | [] => exists members key, f = FObject members key
  | _ => bottom_object stack = true
  end.
Proof.
  destruct stack as [|g stack].
  - destruct f; [discriminate|]. intros _. eauto.
  - intros H. rewrite bottom_object_cons in H by discriminate. exact H.
Qed.

Lemma complete_in_object (v : json) (stack : list frame) :
  bottom_object stack = true -> in_object (complete v stack) = true.
Proof.
  intros H. destruct stack as [|f stack]; [discriminate H|].
  apply bottom_object_pop in H.
  destruct f as [elements|members key]; cbn [complete in_object].
  - destruct stack; [destruct H as [m [k H]]; discriminate H | exact H].
  - destruct stack; [reflexivity | exact H].
Qed.

Lemma complete_object_in_object (members : list (string * json))
  (stack : list frame) :
  match stack with
  | [] => true
  | _ => bottom_object stack
  end = true ->
  in_object (complete (JObject members) stack) = true.
Proof.
  destruct stack as [|f stack]; [reflexivity|].
  intros H. apply complete_in_object, H.
Qed.

Ltac close_in_object H :=
  cbn [complete in_object];
  first [ exact H
        | reflexivity
        | apply bottom_object_push, H
        | apply complete_in_object, H
        | apply complete_object_in_object, H ].

Lemma parse_step_in_object (st st' : parser_state) (t : token) :
  in_object st = true -> parse_step st t = Some st' -> in_object st' = true.
Proof.
  intros H Hstep.
  destruct st as [stack|stack|elements stack|stack|members stack
                  |members key stack|members stack|v];
    cbn [in_object] in H; destruct t;
    cbn [parse_step begin_value] in Hstep; try discriminate Hstep;
    injection Hstep as <-; try close_in_object H.
  all: cbn [in_object]; destruct stack as [|f stack];
    [try reflexivity; try discriminate H | try exact H;
     try (apply bottom_object_push, H)].
Qed.

Lemma parse_tokens_in_object (ts : list token) :
  forall st v,
    in_object st = true -> parse_tokens st ts = Some v -> is_object v = true.
Proof.
  induction ts as [|t ts IH]; intros st v H Hparse.
  - cbn [parse_tokens] in Hparse. destruct st; try discriminate Hparse.
    injection Hparse as <-. exact H.
  - cbn [parse_tokens] in Hparse.
    destruct (parse_step st t) as [st'|] eqn:E; [|discriminate Hparse].
    apply (IH st' v); [|exact Hparse].
    apply (parse_step_in_object st st' t); assumption.
Qed.

(** A text that starts with an opening brace parses to an object, if it
    parses. *)
Lemma JSON_parse_brace (rest : string) (v : json) :
  JSON_parse (String "{" rest) = Ok v -> is_object v = true.
Proof.
  unfold JSON_parse. cbn [lex]. change (lex_step LStart "{") with
    (Some (LStart, [TLBrace])).
  cbv beta iota.
  destruct (lex LStart rest) as [ts|]; [|discriminate].
  cbn [app parse_tokens parse_step begin_value].
  destruct (parse_tokens (PObjectOpen []) ts) as [v'|] eqn:E; [|discriminate].
  intros [= <-]. apply (parse_tokens_in_object ts (PObjectOpen []) v');
    [reflexivity | exact E].
Qed.

Lemma extractPlan_object (content : option string) (v : json) :
  extractPlan content = Ok v -> is_object v = true.
Proof.
  destruct content as [text|]; [|discriminate]. cbn [extractPlan].
  destruct (match_braces text) as [span|] eqn:E; [|discriminate].
  destruct (match_braces_inv text span E)
    as [pre [mid [post [_ [-> _]]]]].
  apply JSON_parse_brace.
Qed.

(** ** What the plan handler can answer *)

(** X5: every answer of the plan handler has status 200 or 500 and a JSON
    object as its body (never null, an array or a primitive); with status
    500 the body is the error object. *)
Theorem generate_plan_answers (env : Env) (request : Request TripRequest)
  (completion : Fetched ChatCompletion) :
  (status (POST env request completion) = 200
   \/ status (POST env request completion) = 500)
  /\ is_object (body (POST env request completion)) = true
  /\ (status (POST env request completion) = 500 ->
      body (POST env request completion) = errorBody).
Proof.
  unfold POST.
  destruct (handle env request completion) as [response|e] eqn:E.
  2:{ split; [right; reflexivity|]. split; reflexivity. }
  unfold handle, request_json in E.
  destruct (json_body request) as [r|]; [|discriminate E]. cbn [bind] in E.
  destruct (dateRange r) as [range|]; [|discriminate E]. cbn [bind] in E.
  destruct (unset (DEEPSEEK_API_KEY env)); [discriminate E|].
  destruct completion as [|ok payload]; [discriminate E|].
  destruct ok; cbn [negb] in E.
  2:{ destruct payload; discriminate E. }
  destruct payload as [data|]; [|discriminate E].
  cbn [response_json bind] in E.
  destruct (first_content data) as [content|]; [|discriminate E].
  cbn [bind] in E.
  destruct (extractPlan content) as [v|e] eqn:Ex; cbn [try_catch bind] in E.
  - injection E as <-. split; [left; reflexivity|].
    split; [exact (extractPlan_object content v Ex)|]. discriminate.
  - destruct (createFallbackPlan (destination r)
                (number_add
                   (differenceInDays (new_Date (to range))
                      (new_Date (from range))) (Num 1))
                (new_Date (from range)) (travelStyle r)) as [plan|];
      [|discriminate E].
    cbn [bind] in E. injection E as <-. split; [left; reflexivity|].
    split; [reflexivity | discriminate].
Qed.

(** X6: a successful completion whose first choice has no text (null
    content) is answered with the fallback plan, status 200. *)
Theorem null_content_falls_back (env : Env) (request : Request TripRequest)
  (r : TripRequest) (range : DateRange) (data : ChatCompletion)
  (c : Choice) (rest : list Choice) :
  json_body request = Some r ->
  dateRange r = Some range ->
  unset (DEEPSEEK_API_KEY env) = false ->
  choices data = c :: rest ->
  content (message c) = None ->
  exists plan,
    createFallbackPlan (destination r) (requestedDays range)
      (new_Date (from range)) (travelStyle r) = Ok plan
    /\ POST env request (Responded true (Some data))
       = NextResponse_json (json_of_plan plan) 200.
Proof.
  intros Hbody Hrange Hkey Hchoices Hnull.
  assert (Hcontent : first_content data = Ok None).
  { unfold first_content. rewrite Hchoices, Hnull. reflexivity. }
  destruct (POST_fallback env request _ r range data None
              Hbody Hrange Hkey eq_refl Hcontent TypeError eq_refl)
    as [plan [Hplan [Hpost _]]].
  exists plan. split; assumption.
Qed.

Lemma null_content_falls_back_witness :
  exists plan,
    createFallbackPlan "京都" (requestedDays Scenario.kyotoRange)
      (new_Date "2024-05-01") "観光" = Ok plan
    /\ POST Scenario.configured Scenario.kyoto
         (Responded true (Some Scenario2.nullContent))
       = NextResponse_json (json_of_plan plan) 200.
Proof.
  apply (null_content_falls_back Scenario.configured Scenario.kyoto
           Scenario.kyotoTrip Scenario.kyotoRange Scenario2.nullContent
           {| message := {| content := None |} |} []);
    reflexivity.
Defined.

(** X7: a successful completion response whose body is not JSON, or that
    holds no choice, is answered with the error object and status 500: the
    fallback covers the extraction of the plan from the text only. *)
Theorem unusable_completion_is_500 (env : Env)
  (request : Request TripRequest) (completion : Fetched ChatCompletion) :
  completion = Responded true None
  \/ (exists data, completion = Responded true (Some data)
                   /\ choices data = []) ->
  POST env request completion = NextResponse_json errorBody 500.
Proof.
  intros H. unfold POST, handle, request_json.
  destruct (json_body request) as [r|]; [|reflexivity]. cbn [bind].
  destruct (dateRange r) as [range|]; [|reflexivity]. cbn [bind].
  destruct (unset (DEEPSEEK_API_KEY env)); [reflexivity|].
  destruct H as [-> | [data [-> Hdata]]]; [reflexivity|].
  cbn [negb response_json bind]. unfold first_content. rewrite Hdata.
  reflexivity.
Qed.

Lemma unusable_completion_is_500_witness :
  POST Scenario.configured Scenario.kyoto
    (Responded true (Some {| choices := [] |}))
  = NextResponse_json errorBody 500.
Proof.
  apply (unusable_completion_is_500 Scenario.configured Scenario.kyoto
           (Responded true (Some {| choices := [] |}))).
  right. exists {| choices := [] |}. split; reflexivity.
Defined.

(** ** Dates the handler cannot count *)

Lemma createFallbackPlan_no_iteration (destination travelStyle : string)
  (numberOfDays : number) (startDate : Date) :
  iterations numberOfDays = O ->
  createFallbackPlan destination numberOfDays startDate travelStyle
  = Ok (emptyPlan destination numberOfDays travelStyle).
Proof.
  intros H. unfold createFallbackPlan. rewrite H. reflexivity.
Qed.

(** A date-only string with a month or a day out of range is an Invalid
    Date. *)
Lemma iso_out_of_range_invalid (s : string) :
  iso_out_of_range s = true -> new_Date s = None.
Proof.
  unfold iso_out_of_range, new_Date. intros H.
  apply andb_prop in H. destruct H as [_ H].
  destruct (parse_date_only s); [discriminate H | reflexivity].
Qed.

Example iso_out_of_range_examples :
  map iso_out_of_range
    ["2024-13-01"; "2024-00-10"; "2024-05-32"; "2024-05-00";
     "2024-05-01"; "2024-02-30"; "2024-5-1"; "tomorrow"; ""]
  = [true; true; true; true; false; false; false; false; false].
Proof. reflexivity. Qed.

(** X8: when a date string of the request has the date-only shape
    (four digits, two digits, two digits, with hyphens) but a month outside
    01..12 or a day outside 01..31, the date is invalid, the day count is
    NaN, and the fallback path answers, with status 200, a plan without
    days whose summary counts "NaN" days. *)
Theorem invalid_date_gives_empty_plan (env : Env)
  (request : Request TripRequest) (completion : Fetched ChatCompletion)
  (r : TripRequest) (range : DateRange) (data : ChatCompletion)
  (content : option string) (e : exn) :
  json_body request = Some r ->
  dateRange r = Some range ->
  unset (DEEPSEEK_API_KEY env) = false ->
  completion = Responded true (Some data) ->
  first_content data = Ok content ->
  extractPlan content = Throw e ->
  iso_out_of_range (from range) = true
  \/ iso_out_of_range (to range) = true ->
  requestedDays range = NaN
  /\ POST env request completion
     = NextResponse_json
         (json_of_plan (emptyPlan (destination r) NaN (travelStyle r))) 200.
Proof.
  intros Hbody Hrange Hkey Hcompletion Hcontent Hextract Hdate.
  assert (Hn : requestedDays range = NaN).
  { unfold requestedDays.
    destruct Hdate as [H | H]; apply iso_out_of_range_invalid in H;
      rewrite H; [destruct (new_Date (to range)) | ]; reflexivity. }
  split; [exact Hn|].
  destruct (POST_fallback env request completion r range data content
              Hbody Hrange Hkey Hcompletion Hcontent e Hextract)
    as [plan [Hplan [-> _]]].
  rewrite Hn in Hplan.
  rewrite createFallbackPlan_no_iteration in Hplan by reflexivity.
  injection Hplan as <-. reflexivity.
Qed.

Lemma invalid_date_gives_empty_plan_witness :
  requestedDays Scenario2.undatedRange = NaN
  /\ POST Scenario.configured {| json_body := Some Scenario2.undatedTrip |}
       (Scenario.completed "I cannot plan this trip.")
     = NextResponse_json
         (json_of_plan (emptyPlan "京都" NaN "観光")) 200.
Proof.
  apply (invalid_date_gives_empty_plan Scenario.configured
           {| json_body := Some Scenario2.undatedTrip |}
           (Scenario.completed "I cannot plan this trip.")
           Scenario2.undatedTrip Scenario2.undatedRange
           (Scenario.completionOf "I cannot plan this trip.")
           (Some "I cannot plan this trip.")
           (Error "No JSON found in response")); try reflexivity.
  left. reflexivity.
Defined.

(** X9: with the server in UTC, when the end date lies a day or more before
    the start date, the day count is zero or negative and the fallback path
    answers, with status 200, a plan without days. *)
Theorem reversed_range_gives_empty_plan (env : Env)
  (request : Request TripRequest) (completion : Fetched ChatCompletion)
  (r : TripRequest) (range : DateRange) (data : ChatCompletion)
  (content : option string) (e : exn) (tripStart tripEnd : Z) :
  json_body request = Some r ->
  dateRange r = Some range ->
  unset (DEEPSEEK_API_KEY env) = false ->
  completion = Responded true (Some data) ->
  first_content data = Ok content ->
  extractPlan content = Throw e ->
  new_Date (from range) = Some tripStart ->
  new_Date (to range) = Some tripEnd ->
  tripEnd + msPerDay <= tripStart ->
  exists n,
    requestedDays range = Num n
    /\ n <= 0
    /\ POST env request completion
       = NextResponse_json
           (json_of_plan (emptyPlan (destination r) (Num n) (travelStyle r)))
           200.
Proof.
  intros Hbody Hrange Hkey Hcompletion Hcontent Hextract Hfrom Hto Hrev.
  assert (Hn : exists n, requestedDays range = Num n /\ n <= 0).
  { unfold requestedDays. rewrite Hfrom, Hto.
    unfold differenceInDays, msPerDay in *. cbn [number_add].
    eexists. split; [reflexivity|].
    pose proof (Z.div_mod tripEnd 86400000 ltac:(lia)) as Hl.
    pose proof (Z.mod_pos_bound tripEnd 86400000 ltac:(lia)) as Hl'.
    pose proof (Z.div_mod tripStart 86400000 ltac:(lia)) as He.
    pose proof (Z.mod_pos_bound tripStart 86400000 ltac:(lia)) as He'.
    set (ql := tripEnd / 86400000) in *.
    set (qe := tripStart / 86400000) in *.
    match goal with
    | |- context [if ?c then _ else _] => destruct c eqn:E
    end.
    - apply Z.eqb_eq in E. lia.
    - apply Z.eqb_neq in E. lia. }
  destruct Hn as [n [Hn Hle]]. exists n. split; [exact Hn|].
  split; [exact Hle|].
  destruct (POST_fallback env request completion r range data content
              Hbody Hrange Hkey Hcompletion Hcontent e Hextract)
    as [plan [Hplan [-> _]]].
  rewrite Hn in Hplan.
  rewrite createFallbackPlan_no_iteration in Hplan
    by (cbn [iterations]; lia).
  injection Hplan as <-. reflexivity.
Qed.

Lemma reversed_range_gives_empty_plan_witness :
  exists n,
    requestedDays Scenario2.swappedRange = Num n
    /\ n <= 0
    /\ POST Scenario.configured {| json_body := Some Scenario2.swappedTrip |}
         (Scenario.completed "I cannot plan this trip.")
       = NextResponse_json
           (json_of_plan (emptyPlan "京都" (Num n) "観光")) 200.
Proof.
  apply (reversed_range_gives_empty_plan Scenario.configured
           {| json_body := Some Scenario2.swappedTrip |}
           (Scenario.completed "I cannot plan this trip.")
           Scenario2.swappedTrip Scenario2.swappedRange
           (Scenario.completionOf "I cannot plan this trip.")
           (Some "I cannot plan this trip.")
           (Error "No JSON found in response")
           1714694400000 1714521600000);
    solve [reflexivity | unfold msPerDay; lia].
Defined.

(** ** The search URL *)

Lemma encode_byte_checked (c : ascii) : encode_byte_ok c = true.
Proof.
  destruct c as [[] [] [] [] [] [] [] []]; vm_compute; reflexivity.
Qed.

Lemma all_chars_app (p : ascii -> bool) (a b : string) :
  all_chars p (a ++ b) = all_chars p a && all_chars p b.
Proof.
  induction a as [|c a IH]; [reflexivity|].
  cbn [append all_chars]. rewrite IH. apply andb_assoc.
Qed.

Lemma encode_byte_chars (c : ascii) :
  all_chars is_component_char (encode_byte c) = true.
Proof.
  pose proof (encode_byte_checked c) as H. unfold encode_byte_ok in H.
  unfold encode_byte. destruct (is_unreserved c) eqn:E.
  - cbn [all_chars]. unfold is_component_char. rewrite E. reflexivity.
  - apply andb_prop in H. destruct H as [H _]. apply andb_prop in H.
    destruct H as [H1 H2]. cbn [all_chars]. rewrite H1, H2. reflexivity.
Qed.

Lemma percent_decode_encode_byte (c : ascii) (rest : string) :
  percent_decode (encode_byte c ++ rest) = String c (percent_decode rest).
Proof.
  pose proof (encode_byte_checked c) as H. unfold encode_byte_ok in H.
  unfold encode_byte. destruct (is_unreserved c) eqn:E.
  - cbn [append percent_decode]. apply negb_true_iff in H. rewrite H.
    reflexivity.
  - apply andb_prop in H. destruct H as [_ H].
    cbn [append percent_decode]. change ("%" =? "%")%char with true.
    cbv iota.
    destruct (hex_value (hex_digit (Z.of_nat (nat_of_ascii c) / 16)))
      as [x|]; [|discriminate H].
    destruct (hex_value (hex_digit (Z.of_nat (nat_of_ascii c) mod 16)))
      as [y|]; [|discriminate H].
    apply Ascii.eqb_eq in H. rewrite H. reflexivity.
Qed.

Lemma percent_decode_encode (s : string) :
  percent_decode (encodeURIComponent s) = s.
Proof.
  induction s as [|c r IH]; [reflexivity|].
  cbn [encodeURIComponent]. rewrite percent_decode_encode_byte, IH.
  reflexivity.
Qed.

Lemma all_chars_lacks (p : ascii -> bool) (c : ascii) (s : string) :
  p c = false -> all_chars p s = true -> lacks c s = true.
Proof.
  intros Hc. induction s as [|a r IH]; [reflexivity|].
  cbn [all_chars lacks]. intros H. apply andb_prop in H.
  destruct H as [Ha Hr]. rewrite (IH Hr), andb_true_r.
  apply negb_true_iff, Ascii.eqb_neq. intros ->. congruence.
Qed.

Lemma string_app_inv_head (p a b : string) : p ++ a = p ++ b -> a = b.
Proof.
  induction p as [|c p IH]; [trivial|]. cbn [append]. intros [= H].
  exact (IH H).
Qed.

Lemma string_length_app (a b : string) :
  String.length (a ++ b) = (String.length a + String.length b)%nat.
Proof.
  induction a as [|c a IH]; [reflexivity|]. cbn [append String.length].
  now rewrite IH.
Qed.

Lemma string_app_inv_tail (s : string) :
  forall a b, a ++ s = b ++ s -> a = b.
Proof.
  induction a as [|c a IH]; intros [|d b] H.
  - reflexivity.
  - apply (f_equal String.length) in H. rewrite !string_length_app in H.
    cbn [String.length] in H. lia.
  - apply (f_equal String.length) in H. rewrite !string_length_app in H.
    cbn [String.length] in H. lia.
  - cbn [append] in H. injection H as -> H. f_equal. exact (IH b H).
Qed.

(** X10: the search text cannot reach into the URL: whatever the text, its
    encoded form holds only letters, digits, [- _ . ! ~ * ' ( )] and the
    percent sign, so none of the characters that separate the parts and
    parameters of a URL. *)
Theorem search_text_stays_in_its_parameter (query : string) :
  all_chars is_component_char (encodeURIComponent query) = true
  /\ lacks "&" (encodeURIComponent query) = true
  /\ lacks "=" (encodeURIComponent query) = true
  /\ lacks "#" (encodeURIComponent query) = true
  /\ lacks "?" (encodeURIComponent query) = true
  /\ lacks "/" (encodeURIComponent query) = true
  /\ lacks " " (encodeURIComponent query) = true.
Proof.
  assert (H : all_chars is_component_char (encodeURIComponent query) = true).
  { induction query as [|c r IH]; [reflexivity|].
    cbn [encodeURIComponent]. rewrite all_chars_app, encode_byte_chars, IH.
    reflexivity. }
  split; [exact H|].
  repeat split; apply (all_chars_lacks is_component_char); try exact H;
    reflexivity.
Qed.

(** X11: two different locations of one plan are looked up under two
    different search URLs: the search text is one-to-one in the location
    and its encoding loses nothing. *)
Theorem search_urls_distinguish_locations
  (key cx destination location1 location2 : string) :
  location1 <> location2 ->
  searchUrl key cx (imageQuery destination location1)
  <> searchUrl key cx (imageQuery destination location2).
Proof.
  unfold searchUrl, imageQuery. intros Hne H. apply Hne.
  do 5 apply string_app_inv_head in H.
  apply string_app_inv_tail in H.
  apply (f_equal percent_decode) in H. rewrite !percent_decode_encode in H.
  apply string_app_inv_tail in H. exact H.
Qed.

Lemma search_urls_distinguish_locations_witness :
  searchUrl "key" "cx" (imageQuery "京都" "金閣寺")
  <> searchUrl "key" "cx" (imageQuery "京都" "祇園").
Proof.
  apply (search_urls_distinguish_locations "key" "cx" "京都" "金閣寺" "祇園").
  discriminate.
Defined.

Example searchUrl_kinkakuji :
  searchUrl "key" "cx" (imageQuery "京都" "金閣寺")
  = "https://www.googleapis.com/customsearch/v1?key=key&cx=cx&q=%E9%87%91%E9%96%A3%E5%AF%BA%20%E4%BA%AC%E9%83%BD&searchType=image&num=1&imgSize=large".
Proof. reflexivity. Qed.

Example encodeURIComponent_ascii :
  encodeURIComponent "a b&c=d/e?f#g'h(i)j*k!l~m.n_o-p%q+r"
  = "a%20b%26c%3Dd%2Fe%3Ff%23g'h(i)j*k!l~m.n_o-p%25q%2Br".
Proof. reflexivity. Qed.

(** ** Deduplication, continued *)

Lemma fold_Set_add_length (l : list string) :
  forall set,
    (length (fold_left Page.Set_add l set) <= length set + length l)%nat.
Proof.
  induction l as [|x l IH]; intros set; cbn [fold_left length]; [lia|].
  specialize (IH (Page.Set_add set x)). unfold Page.Set_add in *.
  destruct (existsb (String.eqb x) set); [lia|].
  rewrite length_app in IH. cbn [length] in IH. lia.
Qed.

Lemma fold_Set_add_fresh (l : list string) :
  forall set,
    NoDup (set ++ l) -> fold_left Page.Set_add l set = (set ++ l)%list.
Proof.
  induction l as [|x l IH]; intros set H; cbn [fold_left].
  - now rewrite app_nil_r.
  - assert (Hx : ~ In x set).
    { apply NoDup_remove_2 in H. intros Hin. apply H, in_or_app. now left. }
    rewrite Set_add_new by exact Hx.
    rewrite IH; rewrite <- app_assoc; [reflexivity | exact H].
Qed.

Lemma fold_Set_add_absorb (l : list string) :
  forall set,
    (forall x, In x l -> In x set) -> fold_left Page.Set_add l set = set.
Proof.
  induction l as [|x l IH]; intros set H; cbn [fold_left]; [reflexivity|].
  assert (E : Page.Set_add set x = set).
  { unfold Page.Set_add.
    destruct (existsb (String.eqb x) set) eqn:Ex; [reflexivity|].
    assert (Hin : In x set) by (apply H; now left).
    apply existsb_eqb_In in Hin. congruence. }
  rewrite E. apply IH. intros y Hy. apply H. now right.
Qed.

(** X12: deduplication never lengthens the list of locations, leaves a list
    without repetitions as it is, order included, and applied twice does no
    more than applied once. *)
Theorem uniqueLocations_keeps_what_is_unique (l : list string) :
  (length (Page.uniqueLocations l) <= length l)%nat
  /\ (NoDup l -> Page.uniqueLocations l = l)
  /\ Page.uniqueLocations (Page.uniqueLocations l) = Page.uniqueLocations l.
Proof.
  split; [apply (fold_Set_add_length l [])|].
  assert (H : forall k, NoDup k -> Page.uniqueLocations k = k).
  { intros k Hk. apply (fold_Set_add_fresh k []). exact Hk. }
  split; [apply H|]. apply H, uniqueLocations_NoDup.
Qed.

(** ** The lookups of a fallback plan *)

Lemma pushDays_activities (destination travelStyle : string)
  (startDate : Date) (count : nat) :
  forall (i : Z) (days days' : list TravelPlanDay),
    pushDays destination travelStyle startDate count i days = Ok days' ->
    Forall (fun d => activities d
                     = fallbackActivities destination travelStyle) days ->
    Forall (fun d => activities d
                     = fallbackActivities destination travelStyle) days'.
Proof.
  induction count as [|count IH]; intros i days days' H Hall.
  - cbn in H. injection H as <-. exact Hall.
  - cbn [pushDays] in H. unfold fallbackDay in H.
    destruct (format (addDays startDate i)) as [s|e]; cbn [bind] in H;
      [|discriminate].
    apply IH in H; [exact H|]. apply Forall_app. split; [exact Hall|].
    repeat constructor.
Qed.

Lemma fallback_locations_NoDup (destination travelStyle : string) :
  NoDup (map location (fallbackActivities destination travelStyle)).
Proof.
  cbn [fallbackActivities map location].
  repeat constructor; cbn [In]; intros H;
    repeat (destruct H as [H|H]; [apply string_app_inv_head in H;
                                  discriminate H|]);
    exact H.
Qed.

(** X13: a fallback plan of one day or more has exactly six distinct
    locations, however many days it has, so the page stores six images for
    it. *)
Theorem fallback_plan_has_six_locations (destination travelStyle : string)
  (n : Z) (startDate : Date) (plan : TravelPlan) :
  createFallbackPlan destination (Num n) startDate travelStyle = Ok plan ->
  1 <= n ->
  Page.uniqueLocations (Page.locations plan)
  = [destination ++ "のホテルレストラン";
     destination ++ "の人気スポット";
     destination ++ "のローカルレストラン";
     destination ++ "のアクティビティスポット";
     destination ++ "の評価の高いレストラン";
     destination ++ "のホテル"].
Proof.
  intros Hplan Hn.
  pose proof (createFallbackPlan_length _ _ _ _ _ Hplan) as Hlen.
  cbn [iterations] in Hlen.
  assert (Hall : Forall (fun d => activities d
                                  = fallbackActivities destination travelStyle)
                   (days plan)).
  { unfold createFallbackPlan in Hplan.
    destruct (pushDays destination travelStyle startDate
                (iterations (Num n)) 0 []) as [ds|e] eqn:E;
      cbn [bind] in Hplan; [|discriminate].
    injection Hplan as <-. cbn [days].
    apply (pushDays_activities _ _ _ _ _ _ _ E). constructor. }
  unfold Page.locations.
  destruct (days plan) as [|d ds]; [cbn [length] in Hlen; lia|].
  inversion Hall as [|? ? Hd Hds]; subst.
  cbn [flat_map]. rewrite Hd. unfold Page.uniqueLocations.
  rewrite fold_left_app.
  rewrite (fold_Set_add_fresh _ [])
    by apply fallback_locations_NoDup.
  cbn [app]. rewrite fold_Set_add_absorb; [reflexivity|].
  intros x Hx. apply in_flat_map in Hx. destruct Hx as [d' [Hd' Hx]].
  rewrite Forall_forall in Hds. rewrite (Hds d' Hd') in Hx. exact Hx.
Qed.

Lemma fallback_plan_has_six_locations_witness :
  exists plan,
    createFallbackPlan "京都" (Num 3) (new_Date "2024-05-01") "観光" = Ok plan
    /\ Page.uniqueLocations (Page.locations plan)
       = ["京都" ++ "のホテルレストラン";
          "京都" ++ "の人気スポット";
          "京都" ++ "のローカルレストラン";
          "京都" ++ "のアクティビティスポット";
          "京都" ++ "の評価の高いレストラン";
          "京都" ++ "のホテル"].
Proof.
  eexists. split; [reflexivity|].
  apply (fallback_plan_has_six_locations "京都" "観光" 3
           (new_Date "2024-05-01")); [reflexivity | lia].
Defined.

(** ** What [onSubmit] leaves in the state *)

Lemma Promise_all_Throw {A : Type} (ps : list (result A)) (e : exn) :
  In (Throw e) ps -> exists e', Page.Promise_all ps = Throw e'.
Proof.
  induction ps as [|p ps IH]; intros H; [destruct H|].
  cbn [Page.Promise_all]. destruct p as [a|e0]; [|eexists; reflexivity].
  cbn [bind]. destruct H as [H|H]; [discriminate H|].
  destruct (IH H) as [e' ->]. eexists. reflexivity.
Qed.

Lemma Promise_all_Ok_inv {A : Type} (ps : list (result A)) :
  forall rs, Page.Promise_all ps = Ok rs -> ps = map Ok rs.
Proof.
  induction ps as [|p ps IH]; intros rs H.
  - cbn in H. injection H as <-. reflexivity.
  - cbn [Page.Promise_all] in H. destruct p as [a|e]; [|discriminate H].
    cbn [bind] in H.
    destruct (Page.Promise_all ps) as [l|e]; [|discriminate H].
    cbn [bind] in H. injection H as <-. cbn [map]. f_equal. now apply IH.
Qed.

Lemma imagePromise_fails (api : string -> Fetched GetImages.ImageData)
  (destination location : string) :
  lookup_fails api destination location ->
  exists e, Page.imagePromise api destination location = Throw e.
Proof.
  unfold lookup_fails, Page.imagePromise. intros [-> | ->];
    eexists; reflexivity.
Qed.

Lemma or_else_nonempty (a : option string) :
  Page.or_else a "/placeholder.svg" <> "".
Proof.
  unfold Page.or_else. destruct a as [s|]; [|discriminate].
  destruct (String.eqb s "") eqn:E; [discriminate|].
  apply String.eqb_neq in E. exact E.
Qed.

Lemma imagePromise_Ok (api : string -> Fetched GetImages.ImageData)
  (destination location : string) (image : Page.ImageResult) :
  Page.imagePromise api destination location = Ok image ->
  Page.location image = location /\ Page.imageUrl image <> "".
Proof.
  unfold Page.imagePromise.
  destruct (api (location ++ " " ++ destination)) as [|[|] [d|]];
    cbn [negb response_json bind]; intros H; try discriminate H;
    injection H as <-; cbn [Page.location Page.imageUrl];
    (split; [reflexivity|]); try discriminate; apply or_else_nonempty.
Qed.

(** X14: after [onSubmit] the loading flag is cleared; a plan is shown
    exactly when the plan request was answered with a success status and a
    JSON body, and then it is that body; when no plan is shown no image is
    shown either, whatever the page showed before. *)
Theorem submission_shows_the_plan_it_got (st : Page.State)
  (planResponse : Fetched TravelPlan)
  (api : string -> Fetched GetImages.ImageData) :
  Page.isLoading (Page.onSubmit st planResponse api) = false
  /\ (forall planData,
        Page.travelPlan (Page.onSubmit st planResponse api) = Some planData
        <-> planResponse = Responded true (Some planData))
  /\ (Page.travelPlan (Page.onSubmit st planResponse api) = None ->
      Page.images (Page.onSubmit st planResponse api) = []).
Proof.
  split; [reflexivity|].
  unfold Page.onSubmit, Page.tryBlock.
  destruct planResponse as [|[|] [planData|]]; cbn [negb response_json].
  2:{ destruct (Page.imageResults api planData); split.
      - intros p. split; intros [= <-]; reflexivity.
      - discriminate.
      - intros p. split; intros [= <-]; reflexivity.
      - discriminate. }
  all: split; [intros p; split; discriminate | reflexivity].
Qed.

(** X15: the image list is all or nothing.  If the lookup of one location
    of the plan cannot complete (the call to the route is rejected, or a
    success response has no JSON body), [onSubmit] keeps the plan but
    stores no image at all, not even for the locations whose lookup
    succeeded. *)
Theorem one_failed_lookup_leaves_no_image (st : Page.State)
  (api : string -> Fetched GetImages.ImageData) (planData : TravelPlan)
  (location : string) :
  In location (Page.locations planData) ->
  lookup_fails api (Plan.destination planData) location ->
  Page.onSubmit st (Responded true (Some planData)) api
  = {| Page.isLoading := false;
       Page.travelPlan := Some planData;
       Page.images := [] |}.
Proof.
  intros Hin Hfail. unfold Page.onSubmit, Page.tryBlock.
  cbn [negb response_json].
  destruct (imagePromise_fails api _ _ Hfail) as [e He].
  destruct (Promise_all_Throw
              (map (Page.imagePromise api (Plan.destination planData))
                 (Page.uniqueLocations (Page.locations planData))) e)
    as [e' He'].
  { rewrite <- He. apply in_map, uniqueLocations_In, Hin. }
  unfold Page.imageResults. rewrite He'. reflexivity.
Qed.

Lemma one_failed_lookup_leaves_no_image_witness :
  Page.onSubmit Scenario.idle (Responded true (Some Scenario.twoTemples))
    (fun q => if String.eqb q "祇園 京都" then Rejected
              else Responded true
                     (Some {| GetImages.imageUrl :=
                                Some "https://example.com/a.jpg" |}))
  = {| Page.isLoading := false;
       Page.travelPlan := Some Scenario.twoTemples;
       Page.images := [] |}.
Proof.
  apply (one_failed_lookup_leaves_no_image Scenario.idle _
           Scenario.twoTemples "祇園").
  - cbn. right. left. reflexivity.
  - left. reflexivity.
Defined.

(** X16: when every lookup completes, the page stores one entry per unique
    location, in first-seen order, and the entry of a location depends on
    the answer to its own lookup only: the placeholder for a non-success
    answer or an empty imageUrl, the returned imageUrl otherwise. *)
Theorem completed_lookups_are_independent (st : Page.State)
  (api : string -> Fetched GetImages.ImageData) (planData : TravelPlan) :
  (forall location,
     In location (Page.locations planData) ->
     ~ lookup_fails api (Plan.destination planData) location) ->
  Page.onSubmit st (Responded true (Some planData)) api
  = {| Page.isLoading := false;
       Page.travelPlan := Some planData;
       Page.images :=
         map (fun location =>
                {| Page.location := location;
                   Page.imageUrl :=
                     storedUrl
                       (api (location ++ " " ++ Plan.destination planData)) |})
           (Page.uniqueLocations (Page.locations planData)) |}.
Proof.
  intros Hall. unfold Page.onSubmit, Page.tryBlock, Page.imageResults.
  cbn [negb response_json].
  rewrite (map_ext_in _
             (fun location =>
                Ok {| Page.location := location;
                      Page.imageUrl :=
                        storedUrl
                          (api (location ++ " "
                                ++ Plan.destination planData)) |})).
  - rewrite Promise_all_Ok. reflexivity.
  - intros l Hl. apply imagePromise_completes, Hall.
    apply uniqueLocations_In, Hl.
Qed.

Lemma completed_lookups_are_independent_witness :
  Page.onSubmit Scenario.idle (Responded true (Some Scenario.twoTemples))
    (fun q => if String.eqb q "祇園 京都" then Responded false None
              else Responded true
                     (Some {| GetImages.imageUrl :=
                                Some "https://example.com/a.jpg" |}))
  = {| Page.isLoading := false;
       Page.travelPlan := Some Scenario.twoTemples;
       Page.images :=
         [ {| Page.location := "金閣寺";
              Page.imageUrl := "https://example.com/a.jpg" |};
           {| Page.location := "祇園";
              Page.imageUrl := "/placeholder.svg" |} ] |}.
Proof.
  apply (completed_lookups_are_independent Scenario.idle
           (fun q => if String.eqb q "祇園 京都" then Responded false None
                     else Responded true
                            (Some {| GetImages.imageUrl :=
                                       Some "https://example.com/a.jpg" |}))
           Scenario.twoTemples).
  intros location Hin [H | H]; cbn in Hin;
    destruct Hin as [<- | [<- | [<- | []]]]; discriminate H.
Defined.

(** X17: whatever the plan request and the lookups answer, every image the
    page stores has a location of the plan and a URL that is not empty. *)
Theorem stored_images_have_a_url (st : Page.State)
  (planResponse : Fetched TravelPlan)
  (api : string -> Fetched GetImages.ImageData) :
  Forall
    (fun image =>
       Page.imageUrl image <> ""
       /\ exists planData,
            Page.travelPlan (Page.onSubmit st planResponse api)
            = Some planData
            /\ In (Page.location image) (Page.locations planData))
    (Page.images (Page.onSubmit st planResponse api)).
Proof.
  unfold Page.onSubmit, Page.tryBlock.
  destruct planResponse as [|[|] [planData|]]; cbn [negb response_json];
    try (constructor).
  destruct (Page.imageResults api planData) as [results|e] eqn:E;
    [|constructor].
  cbn [Page.setIsLoading Page.setImages Page.setTravelPlan Page.images
       Page.travelPlan].
  unfold Page.imageResults in E. apply Promise_all_Ok_inv in E.
  apply Forall_forall. intros image Hin.
  assert (Hok : In (Ok image)
                  (map (Page.imagePromise api (Plan.destination planData))
                     (Page.uniqueLocations (Page.locations planData)))).
  { rewrite E. apply in_map, Hin. }
  apply in_map_iff in Hok. destruct Hok as [l [Hl Hlin]].
  apply imagePromise_Ok in Hl. destruct Hl as [<- Hurl].
  split; [exact Hurl|]. exists planData. split; [reflexivity|].
  apply uniqueLocations_In, Hlin.
Qed.

(** ** The image route, continued *)

(** X18: the image route answers the placeholder, with status 200, for a
    request it cannot read and for a search response whose body is not
    JSON. *)
Theorem image_route_unreadable_input (env : Env)
  (request : Request GetImages.ImageQuery)
  (search : string -> Fetched GetImages.SearchData) :
  json_body request = None
  \/ (exists q, json_body request = Some q
                /\ search (GetImages.query q) = Responded true None) ->
  GetImages.POST env request search
  = NextResponse_json {| GetImages.imageUrl := Some "/placeholder.svg" |} 200.
Proof.
  intros H. apply get_images_placeholder.
  destruct H as [H | [q [Hq Hs]]]; [left; exact H|].
  right; right; right. exists q. split; [exact Hq|]. right; right; left.
  exact Hs.
Qed.

Lemma image_route_unreadable_input_witness :
  GetImages.POST Scenario.configured {| json_body := None |}
    Scenario.kinkakujiOnly
  = NextResponse_json {| GetImages.imageUrl := Some "/placeholder.svg" |} 200.
Proof.
  apply (image_route_unreadable_input Scenario.configured
           {| json_body := None |} Scenario.kinkakujiOnly).
  left. reflexivity.
Defined.

(** X19: without the image-search credentials the page still stores one
    entry per unique location of the plan, in first-seen order, each with
    the placeholder. *)
Theorem no_image_credentials_all_placeholders (st : Page.State) (env : Env)
  (search : string -> Fetched GetImages.SearchData) (planData : TravelPlan) :
  unset (GOOGLE_CUSTOM_SEARCH_API_KEY env) = true
  \/ unset (GOOGLE_CUSTOM_SEARCH_CX env) = true ->
  Page.images
    (Page.onSubmit st (Responded true (Some planData))
       (Page.served env search))
  = map (fun location =>
           {| Page.location := location;
              Page.imageUrl := "/placeholder.svg" |})
      (Page.uniqueLocations (Page.locations planData)).
Proof.
  intros H. rewrite onSubmit_images. apply map_ext. intros l.
  unfold imageFor. rewrite get_images_placeholder by tauto. reflexivity.
Qed.

Lemma no_image_credentials_all_placeholders_witness :
  Page.images
    (Page.onSubmit Scenario.idle (Responded true (Some Scenario.twoTemples))
       (Page.served Scenario.unconfigured Scenario.kinkakujiOnly))
  = map (fun location =>
           {| Page.location := location;
              Page.imageUrl := "/placeholder.svg" |})
      (Page.uniqueLocations (Page.locations Scenario.twoTemples)).
Proof.
  apply (no_image_credentials_all_placeholders Scenario.idle
           Scenario.unconfigured Scenario.kinkakujiOnly Scenario.twoTemples).
  left. reflexivity.
Defined.
